(** * BFSI compliance tooling: classification, aggregation, quality gates

    A shallow embedding of the decision logic of four scripts,

    - [.github/scripts/generate-compliance-report.py]
      (class [ComplianceReportGenerator]),
    - [.github/scripts/process-sarif.py] (class [SARIFProcessor]),
    - [.github/scripts/security-quality-gates.py]
      (class [SecurityQualityGates]),
    - [actions/shared/scripts/generate-compliance-report.py]
      (class [BFSIComplianceReporter], the loading of the compliance
      reports and the score),

    followed by the properties of that logic.

    Conventions of the embedding.

    - Python objects that are mutated in place ([self.report], the
      [violations] lists) are threaded explicitly: a method that mutates
      [self] takes the old object and returns the new one.
    - Rule identifiers, levels and messages are ASCII strings; on those
      [str.lower] changes the letters [A]-[Z] only.
    - Counters are natural numbers (they start at [0] and are only ever
      incremented).  Thresholds that come from the command line or from a
      configuration dict are integers ([Z]) or rationals ([Q]).
    - Percentages and scores are Python floats in the scripts; here they
      are exact rationals ([Q]) compared with [==].
    - A SARIF file is either unreadable ([open] or [json.load] raises) or
      a well-shaped document: a list of runs, each a list of results whose
      optional fields are [ruleId], [level] and [message.text]. *)

From Stdlib Require Import String Ascii List Bool Arith ZArith QArith Qminmax Lia Lqa.
From stdpp Require Import base option list gmap strings fin_maps.

Import ListNotations.
Local Open Scope string_scope.
Local Open Scope list_scope.

(** ** Python helpers *)

Module Py.

(** [c.lower()] for one ASCII character. *)
Definition lower_ascii (c : ascii) : ascii :=
  let n := nat_of_ascii c in
  if (65 <=? n)%nat && (n <=? 90)%nat then ascii_of_nat (n + 32) else c.

(** [s.lower()] *)
Fixpoint lower (s : string) : string :=
  match s with
  | EmptyString => EmptyString
  | String c s' => String (lower_ascii c) (lower s')
  end.

(** [sub in s] for strings: [sub] occurs in [s] as a contiguous slice. *)
Fixpoint contains (sub s : string) : bool :=
  if String.prefix sub s then true
  else match s with
       | EmptyString => false
       | String _ s' => contains sub s'
       end.

(** [x in xs] for a list of strings. *)
Definition in_list (x : string) (xs : list string) : bool :=
  existsb (String.eqb x) xs.

(** [any(term in s for term in terms)] *)
Definition any_in (terms : list string) (s : string) : bool :=
  existsb (fun term => contains term s) terms.

(** [d.get(key, default)] on an optional field. *)
Definition get {A} (field : option A) (default : A) : A :=
  match field with Some a => a | None => default end.

(** An insertion-ordered [dict] with string keys, as the list of its
    items.  [dict_set] is [d[k] = v]: an existing key keeps its
    position, a new key goes last. *)
Definition dict (V : Type) : Type := list (string * V).

Fixpoint dict_get {V} (k : string) (d : dict V) : option V :=
  match d with
  | [] => None
  | (k', v) :: d' => if String.eqb k k' then Some v else dict_get k d'
  end.

Definition dict_mem {V} (k : string) (d : dict V) : bool :=
  match dict_get k d with Some _ => true | None => false end.

Fixpoint dict_set {V} (k : string) (v : V) (d : dict V) : dict V :=
  match d with
  | [] => [(k, v)]
  | (k', v') :: d' =>
      if String.eqb k k' then (k', v) :: d' else (k', v') :: dict_set k v d'
  end.

(** In-place mutation of the value stored under [k] (no effect when
    [k] is not a key). *)
Fixpoint dict_alter {V} (f : V -> V) (k : string) (d : dict V) : dict V :=
  match d with
  | [] => []
  | (k', v) :: d' =>
      if String.eqb k k' then (k', f v) :: d' else (k', v) :: dict_alter f k d'
  end.

Definition dict_values {V} (d : dict V) : list V := map snd d.

(** What a call does: it returns a value, or an exception leaves it. *)
Inductive outcome (A : Type) : Type :=
| Returns (a : A)
| Raises.
Arguments Returns {A} a.
Arguments Raises {A}.

End Py.

(** ** SARIF input *)

Module Sarif.

(** One entry of [run['results']]; [None] is an absent key. *)
Record result : Type := Result {
  ruleId : option string;
  level : option string;
  message_text : option string
}.

(** [run.get('results', [])] *)
Definition run : Type := list result.

(** [sarif_data.get('runs', [])] *)
Definition sarif_data : Type := list run.

(** A file found by the glob: its path, and its content when [open]
    and [json.load] succeed. *)
Definition sarif_file : Type := (string * option sarif_data)%type.

(** The results of a file in processing order: run by run; none for
    an unreadable file. *)
Definition results_of (file : sarif_file) : list result :=
  match snd file with
  | Some sarif_data => concat sarif_data
  | None => []
  end.

(** The results of a directory, file by file in glob order. *)
Definition all_results (sarif_dir : list sarif_file) : list result :=
  flat_map results_of sarif_dir.

(** The files of a directory that can be opened and parsed. *)
Definition readable (sarif_dir : list sarif_file) : list sarif_file :=
  List.filter (fun file => match snd file with Some _ => true | None => false end)
              sarif_dir.

End Sarif.

(** ** generate-compliance-report.py *)

Module ComplianceReportGenerator.
Import Py Sarif.

(** An element of a finding's ["compliance_mappings"]. *)
Record mapping : Type := Mapping {
  framework : string;
  control : string;
  description : string;
  severity_impact : string
}.

(** A value of ["findings_by_control"]. *)
Record control_stats : Type := ControlStats {
  cs_total_findings : nat;
  cs_critical_findings : nat;
  cs_description : string
}.

(** A value of [report["compliance_mappings"]].  The
    ["findings_by_control"] dict is a finite map: the scripts look
    controls up in it, take its [len] and count its values, and two
    dicts with the same items are equal in Python whatever the order
    the keys were inserted in. *)
Record framework_data : Type := FrameworkData {
  total_controls : nat;
  failed_controls : nat;
  compliance_percentage : Q;
  findings_by_control : gmap string control_stats
}.

(** [report["executive_summary"]] *)
Record executive_summary : Type := ExecutiveSummary {
  total_findings : nat;
  critical_findings : nat;
  compliance_score : Q;
  risk_level : string
}.

(** An element of [report["detailed_findings"]]. *)
Record finding : Type := Finding {
  f_rule_id : string;
  f_severity : string;
  f_message : string;
  f_source_file : string;
  f_compliance_mappings : list mapping;
  f_remediation_priority : string
}.

(** [self.report]; the keys ["metadata"], ["remediation_summary"] and
    ["audit_trail"] are written once by [__init__] and never read by
    the logic below, so they are left out. *)
Record report_t : Type := Report {
  summary : executive_summary;
  compliance_mappings : dict framework_data;
  detailed_findings : list finding
}.

Record t : Type := Self {
  standards : list string;
  report : report_t
}.

Definition set_report (self : t) (r : report_t) : t :=
  {| standards := standards self; report := r |}.

Definition fresh_framework_data : framework_data :=
  {| total_controls := 0;
     failed_controls := 0;
     compliance_percentage := 100;
     findings_by_control := ∅ |}.

Definition __init__ (standards : list string) : t :=
  {| standards := standards;
     report :=
       {| summary :=
            {| total_findings := 0;
               critical_findings := 0;
               compliance_score := 0;
               risk_level := "LOW" |};
          compliance_mappings :=
            fold_left (fun cm standard => dict_set standard fresh_framework_data cm)
                      standards [];
          detailed_findings := [] |} |}.

Definition _map_to_iso27001 (rule_id level : string) : list mapping :=
  let rule_lower := lower rule_id in
  let mappings := [] in
  let mappings :=
    if any_in ["sql-injection"; "xss"; "vulnerability"] rule_lower
    then mappings ++ [Mapping "ISO27001" "A.12.6.1"
                        "Management of technical vulnerabilities" level]
    else mappings in
  let mappings :=
    if any_in ["crypto"; "encryption"; "cipher"; "hash"] rule_lower
    then mappings ++ [Mapping "ISO27001" "A.10.1.1"
                        "Policy on the use of cryptographic controls" level]
    else mappings in
  let mappings :=
    if any_in ["auth"; "access"; "authorization"] rule_lower
    then mappings ++ [Mapping "ISO27001" "A.9.1.1"
                        "Access control policy" level]
    else mappings in
  mappings.

Definition _map_to_rbi_framework (rule_id level : string) : list mapping :=
  let rule_lower := lower rule_id in
  let mappings := [] in
  let mappings :=
    if any_in ["sql-injection"; "xss"; "injection"] rule_lower
    then mappings ++ [Mapping "RBI-IT-Framework" "RBI-IT-4.2.1"
                        "Application Security - Secure coding practices" level]
    else mappings in
  let mappings :=
    if any_in ["auth"; "session"; "access"] rule_lower
    then mappings ++ [Mapping "RBI-IT-Framework" "RBI-IT-4.1.3"
                        "Access Control and Authentication" level]
    else mappings in
  let mappings :=
    if any_in ["pii"; "personal"; "data-protection"] rule_lower
    then mappings ++ [Mapping "RBI-IT-Framework" "RBI-IT-4.3.3"
                        "Customer Data Protection" level]
    else mappings in
  mappings.

Definition _map_to_sebi_guidelines (rule_id level : string) : list mapping :=
  let rule_lower := lower rule_id in
  let mappings := [] in
  let mappings :=
    if any_in ["governance"; "policy"; "procedure"] rule_lower
    then mappings ++ [Mapping "SEBI-Guidelines" "SEBI-SG-2.1"
                        "System Governance and Risk Management" level]
    else mappings in
  let mappings :=
    if any_in ["data-integrity"; "validation"; "consistency"] rule_lower
    then mappings ++ [Mapping "SEBI-Guidelines" "SEBI-DI-3.1"
                        "Data Integrity and Validation" level]
    else mappings in
  mappings.

(** The body of the [for mapping in mappings] loop of
    [_update_compliance_stats], on the ["findings_by_control"] dict. *)
Definition count_mapping (level : string) (fbc : gmap string control_stats)
    (m : mapping) : gmap string control_stats :=
  let fbc :=
    match fbc !! control m with
    | None =>
        <[control m := {| cs_total_findings := 0;
                          cs_critical_findings := 0;
                          cs_description := description m |}]> fbc
    | Some _ => fbc
    end in
  let fbc :=
    alter (fun s => {| cs_total_findings := cs_total_findings s + 1;
                       cs_critical_findings := cs_critical_findings s;
                       cs_description := cs_description s |})
          (control m) fbc in
  if in_list level ["error"; "critical"]
  then alter (fun s => {| cs_total_findings := cs_total_findings s;
                          cs_critical_findings := cs_critical_findings s + 1;
                          cs_description := cs_description s |})
             (control m) fbc
  else fbc.

(** What [count_mapping] leaves under the mapping's control: the
    entry that was there, or a new one carrying the mapping's
    description, with one more finding, and one more critical finding
    when [critical]. *)
Definition counted (critical : bool) (description : string)
    (entry : option control_stats) : control_stats :=
  let s := default {| cs_total_findings := 0;
                      cs_critical_findings := 0;
                      cs_description := description |} entry in
  {| cs_total_findings := cs_total_findings s + 1;
     cs_critical_findings :=
       if critical then cs_critical_findings s + 1 else cs_critical_findings s;
     cs_description := cs_description s |}.

Definition set_findings_by_control (fbc : gmap string control_stats)
    (data : framework_data) : framework_data :=
  {| total_controls := total_controls data;
     failed_controls := failed_controls data;
     compliance_percentage := compliance_percentage data;
     findings_by_control := fbc |}.

Definition _update_compliance_stats (fw : string) (mappings : list mapping)
    (level : string) (cm : dict framework_data) : dict framework_data :=
  if negb (dict_mem fw cm) then cm
  else
    dict_alter
      (fun data =>
         set_findings_by_control
           (fold_left (count_mapping level) mappings (findings_by_control data))
           data)
      fw cm.

Definition _calculate_priority (level rule_id : string) : string :=
  if in_list level ["error"; "critical"] then "HIGH"
  else if String.eqb level "warning" then "MEDIUM"
  else "LOW".

(** One framework block of [_map_finding_to_compliance]: the state is
    the pair of the finding's ["compliance_mappings"] list and the
    report's ["compliance_mappings"] dict. *)
Definition map_block (self : t) (fw : string)
    (mapper : string -> string -> list mapping) (rule_id level : string)
    (st : list mapping * dict framework_data)
    : list mapping * dict framework_data :=
  if in_list fw (standards self) then
    let ms := mapper rule_id level in
    match ms with
    | [] => st
    | _ :: _ => (fst st ++ ms, _update_compliance_stats fw ms level (snd st))
    end
  else st.

(** The three framework blocks of [_map_finding_to_compliance], in
    source order. *)
Definition map_blocks (self : t) (rule_id level : string)
    (st : list mapping * dict framework_data)
    : list mapping * dict framework_data :=
  let st := map_block self "ISO27001" _map_to_iso27001 rule_id level st in
  let st := map_block self "RBI-IT-Framework" _map_to_rbi_framework rule_id level st in
  let st := map_block self "SEBI-Guidelines" _map_to_sebi_guidelines rule_id level st in
  st.

(** The blocks that run for the requested standards, each with the
    mappings its mapper returns. *)
Definition requested_blocks (self : t) (rule_id level : string)
    : list (string * list mapping) :=
  List.filter (fun block => in_list (fst block) (standards self))
    [("ISO27001", _map_to_iso27001 rule_id level);
     ("RBI-IT-Framework", _map_to_rbi_framework rule_id level);
     ("SEBI-Guidelines", _map_to_sebi_guidelines rule_id level)].

(** The counts recorded for a control of a framework in
    [report["compliance_mappings"]]: total and critical findings,
    [(0, 0)] when nothing is recorded. *)
Definition control_counts (cm : dict framework_data) (fw control : string)
    : nat * nat :=
  match dict_get fw cm with
  | Some data =>
      match findings_by_control data !! control with
      | Some s => (cs_total_findings s, cs_critical_findings s)
      | None => (0, 0)
      end
  | None => (0, 0)
  end.

(** The citations a finding receives: its ["compliance_mappings"]. *)
Definition classify (self : t) (rule_id level : string) : list mapping :=
  fst (map_blocks self rule_id level ([], compliance_mappings (report self))).

Definition _map_finding_to_compliance (self : t) (result : Sarif.result)
    (source_file : string) : t :=
  let rule_id := get (ruleId result) "unknown" in
  let level := lower (get (Sarif.level result) "note") in
  let message := get (message_text result) "" in
  let r := report self in
  let es := summary r in
  let es :=
    if in_list level ["error"; "critical"]
    then {| total_findings := total_findings es;
            critical_findings := critical_findings es + 1;
            compliance_score := compliance_score es;
            risk_level := risk_level es |}
    else es in
  let priority := _calculate_priority level rule_id in
  let st := map_blocks self rule_id level ([], compliance_mappings r) in
  let finding :=
    {| f_rule_id := rule_id;
       f_severity := level;
       f_message := message;
       f_source_file := source_file;
       f_compliance_mappings := fst st;
       f_remediation_priority := priority |} in
  set_report self
    {| summary := es;
       compliance_mappings := snd st;
       detailed_findings := detailed_findings r ++ [finding] |}.

Definition _process_run (self : t) (run : Sarif.run) (source_file : string) : t :=
  let r := report self in
  let es := summary r in
  let self :=
    set_report self
      {| summary :=
           {| total_findings := total_findings es + length run;
              critical_findings := critical_findings es;
              compliance_score := compliance_score es;
              risk_level := risk_level es |};
         compliance_mappings := compliance_mappings r;
         detailed_findings := detailed_findings r |} in
  fold_left (fun self result => _map_finding_to_compliance self result source_file)
            run self.

(** [None] is the exception raised by [open] or [json.load], before
    anything has been folded. *)
Definition _process_sarif_file (self : t) (file : sarif_file) : option t :=
  match snd file with
  | None => None
  | Some sarif_data =>
      Some (fold_left (fun self run => _process_run self run (fst file))
                      sarif_data self)
  end.

(** [max(0, x)]: the second argument wins only when it is greater. *)
Definition max0 (x : Q) : Q := if Qlt_le_dec 0 x then x else 0.

Definition finalize_framework (data : framework_data) : framework_data :=
  let failed_controls :=
    size (filter (fun kv => 0 < cs_critical_findings (snd kv))
                 (findings_by_control data)) in
  let total_controls := Nat.max 1 (size (findings_by_control data)) in
  {| total_controls := total_controls;
     failed_controls := failed_controls;
     compliance_percentage :=
       max0 (100 - (inject_Z (Z.of_nat failed_controls)
                    / inject_Z (Z.of_nat total_controls) * 100));
     findings_by_control := findings_by_control data |}.

(** [sum(...)] over a list of numbers *)
Definition sum (xs : list Q) : Q := fold_left Qplus xs 0%Q.

Definition _finalize_report (self : t) : t :=
  let r := report self in
  let cm := map (fun kv => (fst kv, finalize_framework (snd kv)))
                (compliance_mappings r) in
  let score : Q :=
    match cm with
    | _ :: _ =>
        (sum (map compliance_percentage (dict_values cm))
         / inject_Z (Z.of_nat (length cm)))%Q
    | [] => 100%Q
    end in
  let critical := critical_findings (summary r) in
  let risk :=
    if (5 <? critical)%nat then "HIGH"
    else if (0 <? critical)%nat then "MEDIUM"
    else "LOW" in
  set_report self
    {| summary :=
         {| total_findings := total_findings (summary r);
            critical_findings := critical;
            compliance_score := score;
            risk_level := risk |};
       compliance_mappings := cm;
       detailed_findings := detailed_findings r |}.

(** [generate_report], up to [_write_report]: the report object that
    gets written. *)
Definition generate_report (self : t) (sarif_files : list sarif_file) : t :=
  match sarif_files with
  | [] => _finalize_report self
  | _ :: _ =>
      let self :=
        fold_left
          (fun self sarif_file =>
             match _process_sarif_file self sarif_file with
             | Some self' => self'
             | None => self
             end)
          sarif_files self in
      _finalize_report self
  end.

End ComplianceReportGenerator.

(** ** process-sarif.py *)

Module SARIFProcessor.
Import Py.

Record t : Type := Self {
  rbi_mappings : dict string;
  iso27001_mappings : dict string;
  sebi_mappings : dict string
}.

Definition __init__ : t :=
  {| rbi_mappings :=
       [("sql-injection", "RBI-IT-4.2.1");
        ("weak-cryptographic-algorithm", "RBI-IT-4.3.2");
        ("hardcoded-credentials", "RBI-IT-4.1.3");
        ("sensitive-data-exposure", "RBI-IT-4.3.1");
        ("payment-data-exposure", "RBI-IT-4.3.3")];
     iso27001_mappings :=
       [("sql-injection", "A.14.2.5");
        ("weak-cryptographic-algorithm", "A.10.1.1");
        ("hardcoded-credentials", "A.9.4.3");
        ("access-control", "A.9.1.1");
        ("authentication", "A.9.2.1")];
     sebi_mappings :=
       [("system-governance", "SEBI-IT-1.1");
        ("risk-management", "SEBI-IT-2.1");
        ("data-integrity", "SEBI-IT-3.1");
        ("audit-trail", "SEBI-IT-4.1")] |}.

(** The dict returned by the [get_*_mapping] methods. *)
Record control_ref : Type := ControlRef {
  control : string;
  description : string;
  category : string
}.

(** The shared loop of the three [get_*_mapping] methods: the first
    item whose pattern occurs in the lowercased rule id decides. *)
Fixpoint first_match (items : dict string) (rule_id : string)
    (mk : string -> control_ref) : option control_ref :=
  match items with
  | [] => None
  | (pattern, mapping) :: items' =>
      if contains pattern (lower rule_id) then Some (mk mapping)
      else first_match items' rule_id mk
  end.

Definition get_rbi_mapping (self : t) (rule_id : string) : option control_ref :=
  first_match (rbi_mappings self) rule_id
    (fun mapping => ControlRef mapping ("RBI IT Framework control " ++ mapping)%string
                               "Information Security").

Definition get_iso27001_mapping (self : t) (rule_id : string) : option control_ref :=
  first_match (iso27001_mappings self) rule_id
    (fun mapping => ControlRef mapping ("ISO 27001 control " ++ mapping)%string
                               "Information Security Management").

Definition get_sebi_mapping (self : t) (rule_id : string) : option control_ref :=
  first_match (sebi_mappings self) rule_id
    (fun mapping => ControlRef mapping ("SEBI IT Governance " ++ mapping)%string
                               "System Governance").

(** The dict [process_result] returns, without the keys the summary
    never reads (['locations'], ['fingerprint'], ['timestamp']). *)
Record processed : Type := Processed {
  p_rule_id : string;
  p_message : string;
  p_level : string;
  p_rbi : option control_ref;
  p_iso27001 : option control_ref;
  p_sebi : option control_ref
}.

Definition process_result (self : t) (result : Sarif.result) : processed :=
  let rule_id := get (Sarif.ruleId result) "" in
  let message := get (Sarif.message_text result) "" in
  let level := get (Sarif.level result) "note" in
  {| p_rule_id := rule_id;
     p_message := message;
     p_level := level;
     p_rbi := get_rbi_mapping self rule_id;
     p_iso27001 := get_iso27001_mapping self rule_id;
     p_sebi := get_sebi_mapping self rule_id |}.

(** [process_sarif_file]: [None] is a file on which [open] or
    [json.load] raises; the handler returns the empty list.  The test
    [if processed_result:] holds for every result, since the dict
    returned by [process_result] is never empty. *)
Definition process_sarif_file (self : t) (file : option Sarif.sarif_data)
    : list processed :=
  match file with
  | None => []
  | Some sarif_data =>
      fold_left
        (fun results run =>
           fold_left (fun results result => results ++ [process_result self result])
                     run results)
        sarif_data []
  end.

(** The dict [generate_compliance_summary] returns, without
    ['generated_at']. *)
Record summary : Type := Summary {
  total_findings : nat;
  by_severity : dict nat;
  by_framework : dict nat;
  compliance_status : string
}.

(** The loop state of [generate_compliance_summary]: the two dicts and
    the two local counters. *)
Record tally : Type := Tally {
  t_by_severity : dict nat;
  t_by_framework : dict nat;
  critical_count : nat;
  high_count : nat
}.

(** [if mappings.get(key):] for a mapping that is a non-empty dict or
    [None]. *)
Definition truthy {A} (o : option A) : bool :=
  match o with Some _ => true | None => false end.

Definition tally_result (st : tally) (result : processed) : tally :=
  let level := p_level result in
  let st :=
    if String.eqb level "error" then
      {| t_by_severity := dict_alter S "critical" (t_by_severity st);
         t_by_framework := t_by_framework st;
         critical_count := critical_count st + 1;
         high_count := high_count st |}
    else if String.eqb level "warning" then
      {| t_by_severity := dict_alter S "high" (t_by_severity st);
         t_by_framework := t_by_framework st;
         critical_count := critical_count st;
         high_count := high_count st + 1 |}
    else if String.eqb level "note" then
      {| t_by_severity := dict_alter S "medium" (t_by_severity st);
         t_by_framework := t_by_framework st;
         critical_count := critical_count st;
         high_count := high_count st |}
    else
      {| t_by_severity := dict_alter S "low" (t_by_severity st);
         t_by_framework := t_by_framework st;
         critical_count := critical_count st;
         high_count := high_count st |} in
  let bf := t_by_framework st in
  let bf := if truthy (p_rbi result) then dict_alter S "rbi" bf else bf in
  let bf := if truthy (p_iso27001 result) then dict_alter S "iso27001" bf else bf in
  let bf := if truthy (p_sebi result) then dict_alter S "sebi" bf else bf in
  {| t_by_severity := t_by_severity st;
     t_by_framework := bf;
     critical_count := critical_count st;
     high_count := high_count st |}.

Definition generate_compliance_summary (self : t) (results : list processed)
    : summary :=
  let st :=
    fold_left tally_result results
      {| t_by_severity := [("critical", 0); ("high", 0); ("medium", 0); ("low", 0)];
         t_by_framework := [("rbi", 0); ("iso27001", 0); ("sebi", 0)];
         critical_count := 0;
         high_count := 0 |} in
  {| total_findings := length results;
     by_severity := t_by_severity st;
     by_framework := t_by_framework st;
     compliance_status :=
       if (0 <? critical_count st)%nat then "CRITICAL"
       else if (5 <? high_count st)%nat then "HIGH_RISK"
       else if (0 <? high_count st)%nat then "MEDIUM_RISK"
       else "PASS" |}.

(** [main], from the parsed file to the exit status: the summary and
    detailed results of the report it writes, and [1] when
    [sys.exit(1)] is reached. *)
Definition main (file : option Sarif.sarif_data) : summary * list processed * Z :=
  let processor := __init__ in
  let results := process_sarif_file processor file in
  let summary := generate_compliance_summary processor results in
  (summary, results,
   if String.eqb (compliance_status summary) "CRITICAL" then 1%Z else 0%Z).

End SARIFProcessor.

(** ** security-quality-gates.py *)

Module SecurityQualityGates.
Import Py Sarif.

(** A gate is a dict that is only ever read with [.get(key, default)];
    [None] is an absent key. *)
Record gate : Type := Gate {
  max_allowed : option Z;
  min_score : option Q;
  fail_build : option bool;
  message : option string
}.

(** [{}] *)
Definition empty_gate : gate :=
  {| max_allowed := None; min_score := None; fail_build := None; message := None |}.

Record t : Type := Self {
  quality_gates : gmap string gate;
  compliance_gates : gmap string gate
}.

Definition severity_gate (max : Z) (fail : bool) (msg : string) : gate :=
  {| max_allowed := Some max; min_score := None;
     fail_build := Some fail; message := Some msg |}.

Definition score_gate (min : Q) (fail : bool) (msg : string) : gate :=
  {| max_allowed := None; min_score := Some min;
     fail_build := Some fail; message := Some msg |}.

Definition __init__ : t :=
  {| quality_gates :=
       <["critical" := severity_gate 0 true
           "Critical security vulnerabilities must be resolved before deployment"]>
       (<["high" := severity_gate 0 true
           "High severity security issues must be addressed"]>
       (<["medium" := severity_gate 5 false
           "Medium severity issues should be reviewed and scheduled for remediation"]>
       (<["low" := severity_gate 20 false
           "Low severity issues should be tracked for future remediation"]> ∅)));
     compliance_gates :=
       <["rbi" := score_gate 90 true
           "RBI IT Framework compliance score below minimum threshold"]>
       (<["sebi" := score_gate 85 true
           "SEBI Guidelines compliance score below minimum threshold"]>
       (<["iso27001" := score_gate 80 false
           "ISO 27001 compliance score below target"]> ∅)) |}.

(** An element of [found_critical_violations]. *)
Record critical_hit : Type := CriticalHit {
  hit_rule : string;
  hit_rule_id : string;
  hit_message : string;
  hit_level : string
}.

(** The three shapes of violation dict, by their ['type']. *)
Inductive violation : Type :=
| SecurityFinding (severity : string) (count : nat) (max_allowed : option Z)
                  (fail_build : bool) (message : string)
| ComplianceScore (framework : string) (score min_score : Q)
                  (fail_build : bool) (message : string)
| FinancialSecurityViolation (violations : list critical_hit)
                             (fail_build : bool) (message : string).

Definition v_type (v : violation) : string :=
  match v with
  | SecurityFinding _ _ _ _ _ => "security_finding"
  | ComplianceScore _ _ _ _ _ => "compliance_score"
  | FinancialSecurityViolation _ _ _ => "financial_security_violation"
  end.

(** [v['type'] == 'financial_security_violation'] *)
Definition is_financial (v : violation) : bool :=
  String.eqb (v_type v) "financial_security_violation".

(** [v.get('fail_build', False)] *)
Definition v_fail_build (v : violation) : bool :=
  match v with
  | SecurityFinding _ _ _ fb _ => fb
  | ComplianceScore _ _ _ fb _ => fb
  | FinancialSecurityViolation _ fb _ => fb
  end.

Definition count_level (findings : dict nat) (result : Sarif.result) : dict nat :=
  let level := get (Sarif.level result) "note" in
  if String.eqb level "error" then dict_alter S "critical" findings
  else if String.eqb level "warning" then dict_alter S "high" findings
  else if String.eqb level "note" then dict_alter S "medium" findings
  else dict_alter S "low" findings.

(** [count > max_allowed], where the bound of a gate without
    ['max_allowed'] is [float('inf')], here [None]. *)
Definition exceeds (count : nat) (max_allowed : option Z) : bool :=
  match max_allowed with
  | Some m => (m <? Z.of_nat count)%Z
  | None => false
  end.

Definition check_severity (self : t) (item : string * nat) : list violation :=
  let (severity, count) := item in
  let gate := default empty_gate (quality_gates self !! severity) in
  let max_allowed := max_allowed gate in
  if exceeds count max_allowed
  then [SecurityFinding severity count max_allowed
          (get (fail_build gate) false)
          (get (message gate) (severity ++ " findings exceed threshold")%string)]
  else [].

Definition evaluate_sarif_results (self : t) (sarif_dir : list sarif_file)
    : dict nat * list violation :=
  let findings := [("critical", 0); ("high", 0); ("medium", 0); ("low", 0)] in
  let findings :=
    fold_left
      (fun findings sarif_file =>
         match snd sarif_file with
         | None => findings
         | Some sarif_data =>
             fold_left (fun findings run => fold_left count_level run findings)
                       sarif_data findings
         end)
      sarif_dir findings in
  (findings, flat_map (check_severity self) findings).

(** A value of the compliance file's ['frameworks'] dict, as far as
    the loop body looks at it: a number under ['score'], no ['score']
    key, or something on which [.get] or [<] raises. *)
Inductive score_data : Type :=
| Score (score : Q)
| NoScore
| Malformed.

(** The compliance file: [None] when [open] or [json.load] raises,
    otherwise the items of [compliance_data.get('frameworks', {})]. *)
Definition compliance_file : Type := option (list (string * score_data)).

(** [score_data.get('score', 0)]; [None] when it raises. *)
Definition score_of (sd : score_data) : option Q :=
  match sd with
  | Score q => Some q
  | NoScore => Some 0%Q
  | Malformed => None
  end.

(** The threshold check of one framework: what the loop body appends
    to [violations]. *)
Definition check_score (self : t) (framework : string) (score : Q)
    : list violation :=
  let gate := default empty_gate (compliance_gates self !! framework) in
  let min_score := get (min_score gate) 0%Q in
  if Qlt_le_dec score min_score
  then [ComplianceScore framework score min_score
          (get (fail_build gate) false)
          (get (message gate)
               (framework ++ " compliance score below threshold")%string)]
  else [].

(** The [for framework, score_data in frameworks.items()] loop; an
    exception leaves it with the violations appended so far. *)
Fixpoint score_loop (self : t) (items : list (string * score_data))
    (violations : list violation) : list violation * outcome unit :=
  match items with
  | [] => (violations, Returns tt)
  | (framework, sd) :: items' =>
      match score_of sd with
      | None => (violations, Raises)
      | Some score =>
          score_loop self items' (violations ++ check_score self framework score)
      end
  end.

(** The [try] block runs on the local list [violations]; the
    [except Exception] handler prints and falls through to the
    [return]. *)
Definition evaluate_compliance_scores (self : t) (file : compliance_file)
    : outcome (list violation) :=
  let violations := [] in
  let (violations, _) :=
    match file with
    | None => (violations, Raises)
    | Some items => score_loop self items violations
    end in
  Returns violations.

Definition critical_rules : list string :=
  ["payment-data-exposure";
   "weak-transaction-encryption";
   "pii-exposure";
   "rbi-data-localization"].

Definition hits_of_result (result : Sarif.result) : list critical_hit :=
  let rule_id := get (ruleId result) "" in
  map (fun critical_rule =>
         {| hit_rule := critical_rule;
            hit_rule_id := rule_id;
            hit_message := get (message_text result) "";
            hit_level := get (Sarif.level result) "note" |})
      (List.filter (fun critical_rule => contains critical_rule (lower rule_id))
                   critical_rules).

Definition found_critical_violations (sarif_dir : list sarif_file)
    : list critical_hit :=
  flat_map
    (fun sarif_file =>
       match snd sarif_file with
       | None => []
       | Some sarif_data => flat_map (flat_map hits_of_result) sarif_data
       end)
    sarif_dir.

Definition check_financial_specific_rules (self : t) (sarif_dir : list sarif_file)
    : list violation :=
  match found_critical_violations sarif_dir with
  | [] => []
  | found =>
      [FinancialSecurityViolation found true
         "Critical financial security violations found"]
  end.

Record gate_report : Type := GateReport {
  quality_gate_status : string;
  timestamp : string;
  findings_summary : dict nat;
  violations : list violation;
  build_decision : string
}.

Definition generate_quality_gate_report (self : t) (findings : dict nat)
    (all_violations : list violation) : gate_report :=
  let fail_build_violations := List.filter v_fail_build all_violations in
  let (status, decision) :=
    match fail_build_violations with
    | _ :: _ => ("FAIL", "FAIL")
    | [] =>
        match all_violations with
        | _ :: _ => ("WARNING", "PASS")
        | [] => ("PASS", "PASS")
        end
    end in
  {| quality_gate_status := status;
     timestamp := "2024-06-30T12:00:00Z";
     findings_summary := findings;
     violations := all_violations;
     build_decision := decision |}.

(** The parsed command line, as far as [main] reads it.
    [compliance_file] is [None] when the option is not given or the
    path does not exist. *)
Record args : Type := Args {
  arg_compliance_file : option compliance_file;
  fail_on_critical : bool;
  fail_on_high : bool;
  max_medium : Z
}.

Definition set_fail_build (b : bool) (g : gate) : gate :=
  {| max_allowed := max_allowed g; min_score := min_score g;
     fail_build := Some b; message := message g |}.

Definition set_max_allowed (m : Z) (g : gate) : gate :=
  {| max_allowed := Some m; min_score := min_score g;
     fail_build := fail_build g; message := message g |}.

Definition set_quality_gates (qg : gmap string gate) (self : t) : t :=
  {| quality_gates := qg; compliance_gates := compliance_gates self |}.

(** The gates [main] evaluates with: the defaults, overridden from
    the command line. *)
Definition configure (a : args) : t :=
  let quality_gates := __init__ in
  let quality_gates :=
    if negb (fail_on_critical a)
    then set_quality_gates
           (alter (set_fail_build false) "critical" (SecurityQualityGates.quality_gates quality_gates))
           quality_gates
    else quality_gates in
  let quality_gates :=
    if negb (fail_on_high a)
    then set_quality_gates
           (alter (set_fail_build false) "high" (SecurityQualityGates.quality_gates quality_gates))
           quality_gates
    else quality_gates in
  set_quality_gates
    (alter (set_max_allowed (max_medium a)) "medium" (SecurityQualityGates.quality_gates quality_gates))
    quality_gates.

(** [main] from the evaluation to the exit code, run with the gates
    [quality_gates]: the report it writes and the status it exits
    with. *)
Definition run_gates (quality_gates : t) (a : args) (sarif_dir : list sarif_file)
    : outcome (gate_report * Z) :=
  let (findings, security_violations) := evaluate_sarif_results quality_gates sarif_dir in
  let compliance :=
    match arg_compliance_file a with
    | Some file => evaluate_compliance_scores quality_gates file
    | None => Returns []
    end in
  match compliance with
  | Raises => Raises
  | Returns compliance_violations =>
      let financial_violations := check_financial_specific_rules quality_gates sarif_dir in
      let all_violations :=
        security_violations ++ compliance_violations ++ financial_violations in
      let report := generate_quality_gate_report quality_gates findings all_violations in
      let fail_build_violations :=
        List.filter v_fail_build all_violations in
      match fail_build_violations with
      | _ :: _ => Returns (report, 1%Z)
      | [] => Returns (report, 0%Z)
      end
  end.

Definition main (a : args) (sarif_dir : list sarif_file) : outcome (gate_report * Z) :=
  run_gates (configure a) a sarif_dir.

End SecurityQualityGates.

(** ** actions/shared/scripts/generate-compliance-report.py *)

Module BFSIComplianceReporter.
Import Py.

(** A value of [self.frameworks]. *)
Record framework_info : Type := FrameworkInfo {
  name : string;
  version : string;
  categories : list string
}.

(** The reporter, without its two directory paths. *)
Record t : Type := Self {
  frameworks : dict framework_info
}.

Definition __init__ : t :=
  {| frameworks :=
       [("RBI", FrameworkInfo "Reserve Bank of India IT Framework" "2021"
                  ["data_governance"; "cybersecurity"; "audit_trail"; "risk_management"]);
        ("SEBI", FrameworkInfo "Securities and Exchange Board of India IT Governance" "2021"
                   ["system_governance"; "business_continuity"; "risk_assessment"]);
        ("IRDAI", FrameworkInfo "Insurance Regulatory and Development Authority Guidelines"
                    "2020"
                    ["information_security"; "data_protection"; "business_continuity"]);
        ("ISO27001", FrameworkInfo "ISO 27001 Information Security Management" "2022"
                       ["security_controls"; "risk_management"; "incident_response"])] |}.

(** The reporter [main] works with: [--frameworks], when it is not
    empty, keeps the frameworks it names. *)
Definition select_frameworks (arg_frameworks : list string) (reporter : t) : t :=
  match arg_frameworks with
  | [] => reporter
  | _ :: _ =>
      {| frameworks :=
           List.filter (fun kv => in_list (fst kv) arg_frameworks) (frameworks reporter) |}
  end.

(** A value of [compliance_data]. *)
Record entry : Type := Entry {
  status : string;
  score : Z;
  checks : list string;
  recommendations : list string
}.

(** A file matched by the glob [**/*compliance*.md]: the last component
    of its path, and its text as a list of code points when it can be
    read. *)
Record report_file : Type := ReportFile {
  file_name : string;
  content : option (list N)
}.

(** The code point of the check mark the reports are searched for,
    U+2705. *)
Definition check_mark : N := 9989.

(** [compliance_data[key]['status'] = status]; a missing [key] raises
    [KeyError], which the caller's handler catches: nothing changes. *)
Definition set_status (key status : string) (compliance_data : dict entry)
    : dict entry :=
  if dict_mem key compliance_data
  then dict_alter (fun e => {| status := status; score := score e;
                               checks := checks e;
                               recommendations := recommendations e |})
                  key compliance_data
  else compliance_data.

(** The body of the loop over report files, [try] block and handler. *)
Definition load_report (compliance_data : dict entry) (file : report_file)
    : dict entry :=
  match content file with
  | None => compliance_data
  | Some content =>
      let name := lower (file_name file) in
      let status :=
        if existsb (N.eqb check_mark) content then "compliant" else "non-compliant" in
      if contains "rbi" name then set_status "RBI" status compliance_data
      else if contains "sebi" name then set_status "SEBI" status compliance_data
      else if contains "irdai" name then set_status "IRDAI" status compliance_data
      else compliance_data
  end.

Definition load_compliance_reports (self : t) (report_files : list report_file)
    : dict entry :=
  let compliance_data :=
    fold_left
      (fun compliance_data framework =>
         dict_set framework
           {| status := "unknown"; score := 0; checks := []; recommendations := [] |}
           compliance_data)
      (map fst (frameworks self)) [] in
  fold_left load_report report_files compliance_data.

Definition calculate_compliance_score (self : t) (framework : string)
    (compliance_data : dict entry) : Z :=
  let base_score := 85%Z in
  let status :=
    match dict_get framework compliance_data with
    | Some framework_data => status framework_data
    | None => "unknown"
    end in
  if String.eqb status "compliant" then Z.min 100 (base_score + 10)
  else if String.eqb status "non-compliant" then Z.max 0 (base_score - 20)
  else base_score.

(** An entry of [security_data['sarif_reports']]. *)
Record sarif_report : Type := SarifReport {
  file : string;
  tool : string;
  results_count : nat
}.

(** The three risk lines [generate_executive_summary] chooses from. *)
Inductive risk : Type := LOW_RISK | MEDIUM_RISK | HIGH_RISK.

(** The two sums at the head of [generate_executive_summary]. *)
Definition total_vulnerabilities (sarif_reports : list sarif_report) : nat :=
  list_sum (map results_count sarif_reports).

Definition compliant_frameworks (compliance_data : dict entry) : nat :=
  length (List.filter (fun framework_data => String.eqb (status framework_data) "compliant")
                      (dict_values compliance_data)).

(** The conditional expression under [### Risk Assessment]. *)
Definition risk_assessment (sarif_reports : list sarif_report)
    (compliance_data : dict entry) : risk :=
  if ((total_vulnerabilities sarif_reports <? 10)
      && (3 <=? compliant_frameworks compliance_data))%nat
  then LOW_RISK
  else if (total_vulnerabilities sarif_reports <? 50)%nat then MEDIUM_RISK
  else HIGH_RISK.

End BFSIComplianceReporter.

(** ** The specification's vocabulary

  Definitions that follow the words of the specification; they are
  compared with the scripts' definitions above. *)

Module Spec.
Import Py.


(** An entry of a framework's pattern table: a keyword set, the
    control it cites and the control's description. *)
Record entry : Type := Entry {
  keywords : list string;
  e_control : string;
  e_description : string
}.

(** The pattern tables, read off the [if any(...)] statements of the
    report generator's three mappers, in source order.  A framework
    without a mapper has no entries. *)
Definition pattern_table (fw : string) : list entry :=
  if String.eqb fw "ISO27001" then
    [Entry ["sql-injection"; "xss"; "vulnerability"] "A.12.6.1"
           "Management of technical vulnerabilities";
     Entry ["crypto"; "encryption"; "cipher"; "hash"] "A.10.1.1"
           "Policy on the use of cryptographic controls";
     Entry ["auth"; "access"; "authorization"] "A.9.1.1"
           "Access control policy"]
  else if String.eqb fw "RBI-IT-Framework" then
    [Entry ["sql-injection"; "xss"; "injection"] "RBI-IT-4.2.1"
           "Application Security - Secure coding practices";
     Entry ["auth"; "session"; "access"] "RBI-IT-4.1.3"
           "Access Control and Authentication";
     Entry ["pii"; "personal"; "data-protection"] "RBI-IT-4.3.3"
           "Customer Data Protection"]
  else if String.eqb fw "SEBI-Guidelines" then
    [Entry ["governance"; "policy"; "procedure"] "SEBI-SG-2.1"
           "System Governance and Risk Management";
     Entry ["data-integrity"; "validation"; "consistency"] "SEBI-DI-3.1"
           "Data Integrity and Validation"]
  else [].

(** A rule id matches an entry when its lowercased form contains a
    keyword of the entry. *)
Definition matches (rule_id : string) (e : entry) : bool :=
  any_in (keywords e) (lower rule_id).

(** One citation per matching entry, in table order. *)
Definition citations (fw rule_id level : string)
    : list ComplianceReportGenerator.mapping :=
  map (fun e => ComplianceReportGenerator.Mapping fw (e_control e) (e_description e) level)
      (List.filter (matches rule_id) (pattern_table fw)).

(** The keywords of the ISO27001 and RBI entries other than the two
    that list ["sql-injection"]. *)
Definition other_iso_rbi_keywords : list string :=
  ["crypto"; "encryption"; "cipher"; "hash";
   "auth"; "access"; "authorization";
   "session";
   "pii"; "personal"; "data-protection"].

End Spec.

(** * Properties *)

(** ** Strings and dicts *)

Section PyFacts.
Import Py.

Lemma in_list_true (x : string) (xs : list string) :
  in_list x xs = true <-> In x xs.
Proof.
  unfold in_list. rewrite existsb_exists. split.
  - intros (y & Hy & Heq). apply String.eqb_eq in Heq. now subst.
  - intros Hx. exists x. split; [assumption | apply String.eqb_refl].
Qed.

Lemma any_in_true (terms : list string) (s : string) :
  any_in terms s = true <-> exists term, In term terms /\ contains term s = true.
Proof. unfold any_in. apply existsb_exists. Qed.

Lemma any_in_app (ts1 ts2 : list string) (s : string) :
  any_in (ts1 ++ ts2) s = any_in ts1 s || any_in ts2 s.
Proof. unfold any_in. apply existsb_app. Qed.

Context {V : Type}.
Implicit Types (d : dict V) (k : string) (f g : V -> V).

Lemma dict_get_alter f k k' d :
  dict_get k' (dict_alter f k d) =
  if String.eqb k' k then option_map f (dict_get k' d) else dict_get k' d.
Proof.
  induction d as [|[k0 v] d IH]; simpl.
  - now destruct (String.eqb k' k).
  - destruct (String.eqb k k0) eqn:Hk; simpl.
    + apply String.eqb_eq in Hk. subst k0.
      destruct (String.eqb k' k); reflexivity.
    + destruct (String.eqb k' k0) eqn:Hk'; [|exact IH].
      apply String.eqb_eq in Hk'. subst k0.
      rewrite String.eqb_sym, Hk. reflexivity.
Qed.

Lemma dict_mem_alter f k k' d : dict_mem k' (dict_alter f k d) = dict_mem k' d.
Proof.
  unfold dict_mem. rewrite dict_get_alter.
  destruct (String.eqb k' k), (dict_get k' d); reflexivity.
Qed.

Lemma dict_alter_absent f k d : dict_mem k d = false -> dict_alter f k d = d.
Proof.
  unfold dict_mem. induction d as [|[k0 v] d IH]; simpl; [reflexivity|].
  destruct (String.eqb k k0); [discriminate|].
  intros H. now rewrite IH.
Qed.

Lemma dict_alter_compose f g k d :
  dict_alter f k (dict_alter g k d) = dict_alter (fun v => f (g v)) k d.
Proof.
  induction d as [|[k0 v] d IH]; simpl; [reflexivity|].
  destruct (String.eqb k k0) eqn:Hk; simpl; rewrite Hk; [reflexivity|].
  now rewrite IH.
Qed.

Lemma dict_alter_ext f g k d :
  (forall v, f v = g v) -> dict_alter f k d = dict_alter g k d.
Proof.
  intros Hfg. induction d as [|[k0 v] d IH]; simpl; [reflexivity|].
  destruct (String.eqb k k0); [now rewrite Hfg | now rewrite IH].
Qed.

Lemma dict_alter_swap f g k k' d :
  k <> k' ->
  dict_alter f k (dict_alter g k' d) = dict_alter g k' (dict_alter f k d).
Proof.
  intros Hne. induction d as [|[k0 v] d IH]; simpl; [reflexivity|].
  destruct (String.eqb k' k0) eqn:Hk', (String.eqb k k0) eqn:Hk;
    simpl; rewrite ?Hk, ?Hk'; try reflexivity.
  - apply String.eqb_eq in Hk, Hk'. congruence.
  - now rewrite IH.
Qed.

Lemma dict_keys_alter f k d : map fst (dict_alter f k d) = map fst d.
Proof.
  induction d as [|[k0 v] d IH]; simpl; [reflexivity|].
  destruct (String.eqb k k0); simpl; [reflexivity | now rewrite IH].
Qed.

End PyFacts.

(** ** The rule classifier *)

Section Classifier.
Import Py ComplianceReportGenerator.

Lemma iso27001_follows_table rule_id level :
  _map_to_iso27001 rule_id level = Spec.citations "ISO27001" rule_id level.
Proof.
  unfold _map_to_iso27001, Spec.citations.
  change (Spec.pattern_table "ISO27001") with
    [Spec.Entry ["sql-injection"; "xss"; "vulnerability"] "A.12.6.1"
                "Management of technical vulnerabilities";
     Spec.Entry ["crypto"; "encryption"; "cipher"; "hash"] "A.10.1.1"
                "Policy on the use of cryptographic controls";
     Spec.Entry ["auth"; "access"; "authorization"] "A.9.1.1"
                "Access control policy"].
  cbn [List.filter]. unfold Spec.matches. cbn [Spec.keywords].
  repeat match goal with
         | |- context [any_in ?ks ?s] => destruct (any_in ks s)
         end; reflexivity.
Qed.

Lemma rbi_follows_table rule_id level :
  _map_to_rbi_framework rule_id level = Spec.citations "RBI-IT-Framework" rule_id level.
Proof.
  unfold _map_to_rbi_framework, Spec.citations.
  change (Spec.pattern_table "RBI-IT-Framework") with
    [Spec.Entry ["sql-injection"; "xss"; "injection"] "RBI-IT-4.2.1"
                "Application Security - Secure coding practices";
     Spec.Entry ["auth"; "session"; "access"] "RBI-IT-4.1.3"
                "Access Control and Authentication";
     Spec.Entry ["pii"; "personal"; "data-protection"] "RBI-IT-4.3.3"
                "Customer Data Protection"].
  cbn [List.filter]. unfold Spec.matches. cbn [Spec.keywords].
  repeat match goal with
         | |- context [any_in ?ks ?s] => destruct (any_in ks s)
         end; reflexivity.
Qed.

Lemma sebi_follows_table rule_id level :
  _map_to_sebi_guidelines rule_id level = Spec.citations "SEBI-Guidelines" rule_id level.
Proof.
  unfold _map_to_sebi_guidelines, Spec.citations.
  change (Spec.pattern_table "SEBI-Guidelines") with
    [Spec.Entry ["governance"; "policy"; "procedure"] "SEBI-SG-2.1"
                "System Governance and Risk Management";
     Spec.Entry ["data-integrity"; "validation"; "consistency"] "SEBI-DI-3.1"
                "Data Integrity and Validation"].
  cbn [List.filter]. unfold Spec.matches. cbn [Spec.keywords].
  repeat match goal with
         | |- context [any_in ?ks ?s] => destruct (any_in ks s)
         end; reflexivity.
Qed.

(** Every citation of a table carries the table's framework name. *)
Lemma citations_framework fw rule_id level m :
  In m (Spec.citations fw rule_id level) -> framework m = fw.
Proof.
  unfold Spec.citations. rewrite in_map_iff.
  intros (e & <- & _). reflexivity.
Qed.

(** The citation list of a block does not depend on the statistics
    it is threaded with. *)
Lemma map_block_fst self fw mapper rule_id level st :
  fst (map_block self fw mapper rule_id level st) =
  fst st ++ (if in_list fw (standards self) then mapper rule_id level else []).
Proof.
  unfold map_block. destruct (in_list fw (standards self)).
  - destruct (mapper rule_id level); simpl; [now rewrite app_nil_r | reflexivity].
  - now rewrite app_nil_r.
Qed.

Lemma classify_blocks self rule_id level :
  classify self rule_id level =
    (if in_list "ISO27001" (standards self)
     then Spec.citations "ISO27001" rule_id level else [])
    ++ (if in_list "RBI-IT-Framework" (standards self)
        then Spec.citations "RBI-IT-Framework" rule_id level else [])
    ++ (if in_list "SEBI-Guidelines" (standards self)
        then Spec.citations "SEBI-Guidelines" rule_id level else []).
Proof.
  unfold classify, map_blocks. rewrite !map_block_fst. simpl fst.
  rewrite iso27001_follows_table, rbi_follows_table, sebi_follows_table.
  rewrite app_nil_l, <- app_assoc. reflexivity.
Qed.

(** Keeping the citations of framework [fw] out of a table's
    citations keeps all of them or none. *)
Lemma filter_citations fw fw' rule_id level :
  List.filter (fun m => String.eqb (framework m) fw) (Spec.citations fw' rule_id level) =
  if String.eqb fw' fw then Spec.citations fw' rule_id level else [].
Proof.
  unfold Spec.citations.
  induction (List.filter (Spec.matches rule_id) (Spec.pattern_table fw')) as [|e es IH];
    simpl.
  - now destruct (String.eqb fw' fw).
  - rewrite IH. now destruct (String.eqb fw' fw).
Qed.

Lemma any_in_head term terms s :
  contains term s = true -> any_in (term :: terms) s = true.
Proof. intros H. unfold any_in. cbn [existsb]. now rewrite H. Qed.

(** The other keywords are those of the four remaining entries. *)
Lemma other_keywords_split s :
  any_in Spec.other_iso_rbi_keywords s =
  any_in ["crypto"; "encryption"; "cipher"; "hash"] s
  || any_in ["auth"; "access"; "authorization"] s
  || any_in ["auth"; "session"; "access"] s
  || any_in ["pii"; "personal"; "data-protection"] s.
Proof.
  unfold Spec.other_iso_rbi_keywords, any_in. cbn [existsb].
  repeat (match goal with
          | |- context [contains ?k s] => destruct (contains k s)
          end; cbn [orb]; try reflexivity).
Qed.

(** The citations of one framework among those of a finding. *)
Lemma filter_classify_framework self rule_id level fw :
  List.filter (fun m => String.eqb (framework m) fw) (classify self rule_id level) =
    (if in_list "ISO27001" (standards self) && String.eqb "ISO27001" fw
     then Spec.citations "ISO27001" rule_id level else [])
    ++ (if in_list "RBI-IT-Framework" (standards self) && String.eqb "RBI-IT-Framework" fw
        then Spec.citations "RBI-IT-Framework" rule_id level else [])
    ++ (if in_list "SEBI-Guidelines" (standards self) && String.eqb "SEBI-Guidelines" fw
        then Spec.citations "SEBI-Guidelines" rule_id level else []).
Proof.
  rewrite classify_blocks, !List.filter_app.
  assert (Hif : forall fw' (c : bool),
             List.filter (fun m => String.eqb (framework m) fw)
               (if c then Spec.citations fw' rule_id level else []) =
             if c && String.eqb fw' fw then Spec.citations fw' rule_id level else []).
  { intros fw' [|]; [apply filter_citations | reflexivity]. }
  now rewrite !Hif.
Qed.

End Classifier.

Section ClassifierClaims.
Import Py ComplianceReportGenerator.

(** C4.  For every rule id, severity and requested framework, the
    citations that [_map_finding_to_compliance] records for that
    framework are exactly one citation per entry of the framework's
    pattern table that has a keyword contained in the lowercased rule
    id, in table order: every matching entry cites, not only the
    first one. *)
Theorem classify_cites_every_matching_entry self rule_id level fw :
  in_list fw (standards self) = true ->
  List.filter (fun m => String.eqb (framework m) fw) (classify self rule_id level) =
  Spec.citations fw rule_id level.
Proof.
  intros Hreq. rewrite filter_classify_framework.
  destruct (String.eqb "ISO27001" fw) eqn:Hiso.
  { apply String.eqb_eq in Hiso. subst fw. rewrite Hreq. simpl.
    now rewrite !andb_false_r, !app_nil_r. }
  destruct (String.eqb "RBI-IT-Framework" fw) eqn:Hrbi.
  { apply String.eqb_eq in Hrbi. subst fw. rewrite Hreq. simpl.
    now rewrite !andb_false_r, !app_nil_r. }
  destruct (String.eqb "SEBI-Guidelines" fw) eqn:Hsebi.
  { apply String.eqb_eq in Hsebi. subst fw. rewrite Hreq. simpl.
    now rewrite !andb_false_r. }
  rewrite !andb_false_r. simpl.
  unfold Spec.citations, Spec.pattern_table.
  rewrite (String.eqb_sym fw "ISO27001"), Hiso.
  rewrite (String.eqb_sym fw "RBI-IT-Framework"), Hrbi.
  rewrite (String.eqb_sym fw "SEBI-Guidelines"), Hsebi.
  reflexivity.
Qed.

Lemma classify_cites_every_matching_entry_witness :
  List.filter (fun m => String.eqb (framework m) "ISO27001")
    (classify (__init__ ["ISO27001"; "SEBI-Guidelines"])
              "Weak-Hash-In-Auth-Policy-SQL-Injection" "warning") =
  [Mapping "ISO27001" "A.12.6.1" "Management of technical vulnerabilities" "warning";
   Mapping "ISO27001" "A.10.1.1" "Policy on the use of cryptographic controls" "warning";
   Mapping "ISO27001" "A.9.1.1" "Access control policy" "warning"].
Proof.
  exact (classify_cites_every_matching_entry
           (__init__ ["ISO27001"; "SEBI-Guidelines"])
           "Weak-Hash-In-Auth-Policy-SQL-Injection" "warning" "ISO27001"
           eq_refl).
Defined.

(** The lookup of [process-sarif.py] is a different function: it
    returns at the first pattern that occurs in the rule id. *)
Example get_rbi_mapping_first_match :
  SARIFProcessor.get_rbi_mapping SARIFProcessor.__init__
    "sql-injection-with-hardcoded-credentials" =
  Some (SARIFProcessor.ControlRef "RBI-IT-4.2.1"
          "RBI IT Framework control RBI-IT-4.2.1" "Information Security").
Proof. reflexivity. Qed.

(** C5, as stated, fails: a rule id that contains ["sql-injection"]
    and also ["auth"] is cited for four controls, not two. *)
Lemma sql_injection_not_only_two :
  contains "sql-injection" (lower "SQL-Injection-Auth-Bypass") = true /\
  map (fun m => (framework m, control m))
      (classify (__init__ ["ISO27001"; "RBI-IT-Framework"])
                "SQL-Injection-Auth-Bypass" "error") =
    [("ISO27001", "A.12.6.1"); ("ISO27001", "A.9.1.1");
     ("RBI-IT-Framework", "RBI-IT-4.2.1"); ("RBI-IT-Framework", "RBI-IT-4.1.3")] /\
  map (fun m => (framework m, control m))
      (classify (__init__ ["ISO27001"; "RBI-IT-Framework"])
                "SQL-Injection-Auth-Bypass" "error") <>
    [("ISO27001", "A.12.6.1"); ("RBI-IT-Framework", "RBI-IT-4.2.1")].
Proof. repeat split. discriminate. Qed.

(** C5, amended.  When the lowercased rule id contains
    ["sql-injection"] and the requested frameworks are ISO27001 and
    RBI, the citations include ISO27001 A.12.6.1 and RBI-IT-4.2.1, and
    they are exactly these two if and only if the lowercased rule id
    contains no keyword of the other ISO27001 and RBI entries. *)
Theorem sql_injection_citations self rule_id level :
  in_list "ISO27001" (standards self) = true ->
  in_list "RBI-IT-Framework" (standards self) = true ->
  in_list "SEBI-Guidelines" (standards self) = false ->
  contains "sql-injection" (lower rule_id) = true ->
  let iso := Mapping "ISO27001" "A.12.6.1"
               "Management of technical vulnerabilities" level in
  let rbi := Mapping "RBI-IT-Framework" "RBI-IT-4.2.1"
               "Application Security - Secure coding practices" level in
  In iso (classify self rule_id level) /\
  In rbi (classify self rule_id level) /\
  (classify self rule_id level = [iso; rbi] <->
   any_in Spec.other_iso_rbi_keywords (lower rule_id) = false).
Proof.
  intros Hiso Hrbi Hsebi Hsql iso rbi. subst iso rbi.
  rewrite classify_blocks, Hiso, Hrbi, Hsebi, app_nil_r.
  rewrite <- iso27001_follows_table, <- rbi_follows_table.
  rewrite other_keywords_split.
  unfold _map_to_iso27001, _map_to_rbi_framework.
  rewrite (any_in_head "sql-injection" ["xss"; "vulnerability"] _ Hsql).
  rewrite (any_in_head "sql-injection" ["xss"; "injection"] _ Hsql).
  repeat match goal with
         | |- context [any_in ?ks ?s] => destruct (any_in ks s)
         end; cbn;
    (split; [tauto | split; [tauto | split; congruence]]).
Qed.

Lemma sql_injection_citations_witness :
  let iso := Mapping "ISO27001" "A.12.6.1"
               "Management of technical vulnerabilities" "error" in
  let rbi := Mapping "RBI-IT-Framework" "RBI-IT-4.2.1"
               "Application Security - Secure coding practices" "error" in
  let self := __init__ ["ISO27001"; "RBI-IT-Framework"] in
  In iso (classify self "java/SQL-Injection" "error") /\
  In rbi (classify self "java/SQL-Injection" "error") /\
  (classify self "java/SQL-Injection" "error" = [iso; rbi] <->
   any_in Spec.other_iso_rbi_keywords (lower "java/SQL-Injection") = false).
Proof.
  exact (sql_injection_citations (__init__ ["ISO27001"; "RBI-IT-Framework"])
           "java/SQL-Injection" "error" eq_refl eq_refl eq_refl eq_refl).
Defined.

End ClassifierClaims.

(** ** The quality gate *)

Section QualityGate.
Import Py Sarif SecurityQualityGates.




Lemma filter_fail_build_not_nil vs v :
  In v vs -> v_fail_build v = true -> List.filter v_fail_build vs <> [].
Proof.
  intros Hin Hfb Hnil.
  assert (H : In v (List.filter v_fail_build vs)) by (apply filter_In; auto).
  rewrite Hnil in H. contradiction.
Qed.

Lemma filter_fail_build_nil vs :
  List.filter v_fail_build vs = [] <->
  ~ exists v, In v vs /\ v_fail_build v = true.
Proof.
  split.
  - intros Hnil (v & Hin & Hfb). now apply (filter_fail_build_not_nil vs v).
  - intros Hno. destruct (List.filter v_fail_build vs) as [|v vs'] eqn:Hf; [reflexivity|].
    exfalso. apply Hno. exists v. apply filter_In. rewrite Hf. now left.
Qed.


Lemma check_score_not_financial self fw q :
  List.filter is_financial (check_score self fw q) = [].
Proof. unfold check_score. destruct (Qlt_le_dec _ _); reflexivity. Qed.

Lemma score_loop_not_financial self items vs :
  List.filter is_financial vs = [] ->
  List.filter is_financial (fst (score_loop self items vs)) = [].
Proof.
  revert vs. induction items as [|[fw sd] items IH]; intros vs Hvs; simpl.
  - exact Hvs.
  - destruct (score_of sd); [|exact Hvs].
    apply IH. now rewrite List.filter_app, Hvs, check_score_not_financial.
Qed.

(** [evaluate_compliance_scores] never lets an exception out. *)
Lemma evaluate_compliance_scores_returns self file :
  exists vs, evaluate_compliance_scores self file = Returns vs /\
             List.filter is_financial vs = [].
Proof.
  unfold evaluate_compliance_scores. destruct file as [items|].
  - destruct (score_loop self items []) as [vs o] eqn:Hloop.
    exists vs. split; [reflexivity|].
    change vs with (fst (vs, o)). rewrite <- Hloop.
    now apply score_loop_not_financial.
  - exists []. split; reflexivity.
Qed.

(** Without a malformed entry the loop checks every framework of the
    file, in file order. *)
Lemma score_loop_well_formed self items vs :
  Forall (fun item => snd item <> Malformed) items ->
  score_loop self items vs =
  (vs ++ flat_map (fun item => check_score self (fst item)
                                 (default 0%Q (score_of (snd item)))) items,
   Returns tt).
Proof.
  intros Hwf. revert vs.
  induction Hwf as [|[fw sd] items Hsd _ IH]; intros vs; simpl.
  - now rewrite app_nil_r.
  - destruct sd; simpl in *; try congruence; now rewrite IH, app_assoc.
Qed.

End QualityGate.

Section QualityGateClaims.
Import Py Sarif SecurityQualityGates.




(** C2.  The status of the gate report is FAIL exactly when some
    violation has [fail_build] set; it is WARNING (the
    specification's WARN) exactly when no violation has it set and
    the list is not empty; it is PASS exactly when the list is empty.
    The FAIL test comes first: a list with a build-failing violation
    is FAIL however many warnings it holds. *)
Theorem decision_precedence self findings all_violations :
  let report := generate_quality_gate_report self findings all_violations in
  (quality_gate_status report = "FAIL" <->
     exists v, In v all_violations /\ v_fail_build v = true) /\
  (quality_gate_status report = "WARNING" <->
     (~ exists v, In v all_violations /\ v_fail_build v = true) /\
     all_violations <> []) /\
  (quality_gate_status report = "PASS" <->
     (~ exists v, In v all_violations /\ v_fail_build v = true) /\
     all_violations = []).
Proof.
  cbv zeta. unfold generate_quality_gate_report.
  rewrite <- filter_fail_build_nil.
  destruct (List.filter v_fail_build all_violations) as [|v vs] eqn:Hf.
  - assert (Hno : ~ exists v, In v all_violations /\ v_fail_build v = true)
      by (now apply filter_fail_build_nil).
    destruct all_violations as [|w ws]; cbn.
    + repeat split; try discriminate; try tauto.
    + repeat split; try discriminate; try tauto. intros [_ H]. discriminate.
  - assert (Hyes : exists v, In v all_violations /\ v_fail_build v = true).
    { exists v. apply filter_In. rewrite Hf. now left. }
    cbn. repeat split; try discriminate; try tauto.
    all: intros [H _]; discriminate.
Qed.

(** The ['build_decision'] field and the exit status of [main] only
    separate FAIL from the rest. *)
Lemma build_decision_follows_status self findings all_violations :
  let report := generate_quality_gate_report self findings all_violations in
  build_decision report =
    if String.eqb (quality_gate_status report) "FAIL" then "FAIL" else "PASS".
Proof.
  cbv zeta. unfold generate_quality_gate_report.
  destruct (List.filter v_fail_build all_violations); [|reflexivity].
  destruct all_violations; reflexivity.
Qed.

(** Scenario C of the specification: one critical finding against
    the default gates gives exactly one violation and FAIL. *)
Example one_critical_finding_fails :
  let sarif_dir := [("scan.sarif", Some [[Result (Some "unused-import") (Some "error") None]])] in
  exists report,
    main (Args None true true 5) sarif_dir = Returns (report, 1%Z) /\
    findings_summary report = [("critical", 1); ("high", 0); ("medium", 0); ("low", 0)] /\
    violations report =
      [SecurityFinding "critical" 1 (Some 0%Z) true
         "Critical security vulnerabilities must be resolved before deployment"] /\
    quality_gate_status report = "FAIL".
Proof. cbv zeta. eexists. split; [vm_compute; reflexivity|]. repeat split. Qed.

End QualityGateClaims.

Section ConfigurationClaims.
Import Py Sarif SecurityQualityGates.

(** C9, as stated, fails: a compliance file that names a framework
    without a gate does not stop the evaluation.  The unknown
    framework is passed over and the thresholds of the known ones are
    checked as usual. *)
Lemma unknown_framework_is_not_an_error :
  let file := Some [("pci-dss", Score 50); ("rbi", Score 10)] in
  compliance_gates __init__ !! "pci-dss" = None /\
  evaluate_compliance_scores __init__ file <> Raises /\
  evaluate_compliance_scores __init__ file =
    Returns [ComplianceScore "rbi" 10 90 true
               "RBI IT Framework compliance score below minimum threshold"].
Proof.
  cbv zeta. split; [reflexivity|]. split; [discriminate|]. reflexivity.
Qed.

(** C9, amended.  [evaluate_compliance_scores] never fails.  A
    framework that has no entry in [compliance_gates] is checked
    against the default gate: minimum score [0], [fail_build] false
    and a generic message, so it yields a violation, a non-fatal one,
    only for a negative score.  When no entry of the file is
    malformed, every framework of the file is checked, in file
    order. *)
Theorem unknown_framework_default_gate self framework score :
  compliance_gates self !! framework = None ->
  (forall file, exists vs, evaluate_compliance_scores self file = Returns vs) /\
  check_score self framework score =
    (if Qlt_le_dec score 0
     then [ComplianceScore framework score 0 false
             (framework ++ " compliance score below threshold")%string]
     else []) /\
  (forall items,
      Forall (fun item => snd item <> Malformed) items ->
      evaluate_compliance_scores self (Some items) =
      Returns (flat_map (fun item => check_score self (fst item)
                                       (default 0%Q (score_of (snd item)))) items)).
Proof.
  intros Hgate. split; [|split].
  - intros file. destruct (evaluate_compliance_scores_returns self file) as (vs & H & _).
    now exists vs.
  - unfold check_score. rewrite Hgate. reflexivity.
  - intros items Hwf. unfold evaluate_compliance_scores.
    now rewrite (score_loop_well_formed self items [] Hwf).
Qed.

Lemma unknown_framework_default_gate_witness :
  (forall file, exists vs, evaluate_compliance_scores __init__ file = Returns vs) /\
  check_score __init__ "pci-dss" (-3) =
    (if Qlt_le_dec (-3) 0
     then [ComplianceScore "pci-dss" (-3) 0 false
             ("pci-dss" ++ " compliance score below threshold")%string]
     else []) /\
  (forall items,
      Forall (fun item => snd item <> Malformed) items ->
      evaluate_compliance_scores __init__ (Some items) =
      Returns (flat_map (fun item => check_score __init__ (fst item)
                                       (default 0%Q (score_of (snd item)))) items)).
Proof.
  apply (unknown_framework_default_gate __init__ "pci-dss" (-3)). reflexivity.
Defined.

End ConfigurationClaims.

(** ** The aggregator *)

Section Aggregator.
Import Py Sarif ComplianceReportGenerator.

Lemma max0_is_max x : max0 x == Qmax 0 x.
Proof.
  unfold max0. destruct (Qlt_le_dec 0 x) as [Hlt|Hle].
  - symmetry. apply Q.max_r. now apply Qlt_le_weak.
  - symmetry. now apply Q.max_l.
Qed.

(** The ratio of failed to observed controls is a fraction. *)
Lemma control_ratio_bounds (failed total : nat) :
  failed <= total -> 1 <= total ->
  (0 <= inject_Z (Z.of_nat failed) / inject_Z (Z.of_nat total) <= 1)%Q.
Proof.
  intros Hle Hpos.
  assert (Ht : (0 < inject_Z (Z.of_nat total))%Q).
  { change 0%Q with (inject_Z 0). rewrite <- Zlt_Qlt. lia. }
  split.
  - apply Qle_shift_div_l; [exact Ht|].
    rewrite Qmult_0_l. change 0%Q with (inject_Z 0). rewrite <- Zle_Qle. lia.
  - apply Qle_shift_div_r; [exact Ht|].
    rewrite Qmult_1_l, <- Zle_Qle. lia.
Qed.

Lemma percentage_bounds (failed total : nat) :
  failed <= total -> 1 <= total ->
  (0 <= max0 (100 - inject_Z (Z.of_nat failed) / inject_Z (Z.of_nat total) * 100)
   <= 100)%Q.
Proof.
  intros Hle Hpos.
  pose proof (control_ratio_bounds failed total Hle Hpos) as [H0 H1].
  set (q := (inject_Z (Z.of_nat failed) / inject_Z (Z.of_nat total))%Q) in *.
  unfold max0. destruct (Qlt_le_dec 0 (100 - q * 100)); lra.
Qed.

Lemma failed_le_observed (fbc : gmap string control_stats) :
  size (filter (fun kv => 0 < cs_critical_findings (snd kv)) fbc) <= size fbc.
Proof. apply map_subseteq_size, map_filter_subseteq. Qed.

(** What [_finalize_report] leaves in one framework's entry. *)
Lemma finalize_framework_spec data :
  let data' := finalize_framework data in
  findings_by_control data' = findings_by_control data /\
  total_controls data' = Nat.max 1 (size (findings_by_control data)) /\
  failed_controls data' =
    size (filter (fun kv => 0 < cs_critical_findings (snd kv))
                 (findings_by_control data)) /\
  failed_controls data' <= total_controls data' /\
  (compliance_percentage data' ==
     Qmax 0 (100 - inject_Z (Z.of_nat (failed_controls data'))
                   / inject_Z (Z.of_nat (total_controls data')) * 100))%Q /\
  (0 <= compliance_percentage data' <= 100)%Q /\
  (findings_by_control data = ∅ -> (compliance_percentage data' == 100)%Q).
Proof.
  cbv zeta. unfold finalize_framework.
  cbn [findings_by_control total_controls failed_controls compliance_percentage].
  pose proof (failed_le_observed (findings_by_control data)) as Hle.
  repeat split; try reflexivity.
  - lia.
  - apply max0_is_max.
  - apply percentage_bounds; lia.
  - apply percentage_bounds; lia.
  - intros ->. rewrite map_filter_empty, map_size_empty. reflexivity.
Qed.

Lemma finalize_compliance_mappings self :
  compliance_mappings (report (_finalize_report self)) =
  map (fun kv => (fst kv, finalize_framework (snd kv)))
      (compliance_mappings (report self)).
Proof. reflexivity. Qed.

Lemma generate_report_finalizes self sarif_dir :
  exists self', generate_report self sarif_dir = _finalize_report self'.
Proof. destruct sarif_dir; eexists; reflexivity. Qed.


Lemma init_compliance_mappings_fresh standards :
  Forall (fun kv => snd kv = fresh_framework_data)
         (compliance_mappings (report (__init__ standards))).
Proof.
  unfold __init__. cbn [report compliance_mappings].
  assert (Hset : forall k (d : dict framework_data),
             Forall (fun kv => snd kv = fresh_framework_data) d ->
             Forall (fun kv => snd kv = fresh_framework_data)
                    (dict_set k fresh_framework_data d)).
  { intros k d Hd. induction Hd as [|[k' v] d Hv Hd IH]; simpl.
    - repeat constructor.
    - destruct (String.eqb k k'); constructor; auto. }
  assert (Hfold : forall (d : dict framework_data),
             Forall (fun kv => snd kv = fresh_framework_data) d ->
             Forall (fun kv => snd kv = fresh_framework_data)
                    (fold_left (fun cm standard => dict_set standard fresh_framework_data cm)
                               standards d)).
  { induction standards as [|s ss IH]; intros d Hd; simpl; auto. }
  apply Hfold. constructor.
Qed.



End Aggregator.

Section AggregatorClaims.
Import Py Sarif ComplianceReportGenerator.



(** Scenario B of the specification. *)
Example one_critical_sql_injection :
  let result := Result (Some "sql-injection-detected") (Some "error") None in
  let self := generate_report (__init__ ["RBI-IT-Framework"])
                              [("scan.sarif", Some [[result]])] in
  map (fun kv => (fst kv, failed_controls (snd kv), total_controls (snd kv),
                  Qred (compliance_percentage (snd kv))))
      (compliance_mappings (report self)) =
    [("RBI-IT-Framework", 1, 1, 0%Q)] /\
  map (fun f => map control (f_compliance_mappings f))
      (detailed_findings (report self)) = [["RBI-IT-4.2.1"]].
Proof. split; reflexivity. Qed.

(** C7.  After [_finalize_report] the risk level is decided by the
    critical-findings count alone: HIGH exactly above 5, MEDIUM
    exactly from 1 to 5, LOW exactly at 0; two reports with the same
    count get the same level. *)
Theorem risk_level_by_critical_findings self :
  let es := summary (report (_finalize_report self)) in
  critical_findings es = critical_findings (summary (report self)) /\
  (risk_level es = "HIGH" <-> 5 < critical_findings es) /\
  (risk_level es = "MEDIUM" <-> 0 < critical_findings es <= 5) /\
  (risk_level es = "LOW" <-> critical_findings es = 0) /\
  (forall self',
      critical_findings (summary (report self')) = critical_findings es ->
      risk_level (summary (report (_finalize_report self'))) = risk_level es).
Proof.
  cbv zeta. unfold _finalize_report.
  cbn [report set_report summary critical_findings risk_level].
  set (c := critical_findings (summary (report self))).
  split; [reflexivity|].
  split; [|split; [|split]].
  - destruct (Nat.ltb_spec 5 c), (Nat.ltb_spec 0 c);
      split; intros Hr; try discriminate; try lia; reflexivity.
  - destruct (Nat.ltb_spec 5 c), (Nat.ltb_spec 0 c);
      split; intros Hr; try discriminate; try lia; reflexivity.
  - destruct (Nat.ltb_spec 5 c), (Nat.ltb_spec 0 c);
      split; intros Hr; try discriminate; try lia; reflexivity.
  - intros self' ->. reflexivity.
Qed.

End AggregatorClaims.

(** ** No input at all *)

Section NoInput.
Import Py Sarif.







(** The bound on [--max-medium] matters: a negative bound is exceeded
    by a count of zero, which is a warning. *)
Example negative_max_medium_warns :
  exists report,
    SecurityQualityGates.main (SecurityQualityGates.Args None true true (-1)) [] =
      Returns (report, 0%Z) /\
    SecurityQualityGates.violations report =
      [SecurityQualityGates.SecurityFinding "medium" 0 (Some (-1)%Z) false
         "Medium severity issues should be reviewed and scheduled for remediation"] /\
    SecurityQualityGates.quality_gate_status report = "WARNING" /\
    SecurityQualityGates.build_decision report = "PASS".
Proof. eexists. split; [vm_compute; reflexivity|]. repeat split. Qed.


End NoInput.

(** ** Folding findings *)

Section Fold.
Import Py Sarif ComplianceReportGenerator.

Lemma count_mapping_lookup level (m : gmap string control_stats) x k :
  count_mapping level m x !! k =
  if decide (k = control x)
  then Some (counted (in_list level ["error"; "critical"]) (description x) (m !! k))
  else m !! k.
Proof.
  unfold count_mapping, counted.
  destruct (decide (k = control x)) as [->|Hne].
  - destruct (m !! control x) as [s|] eqn:Hm;
      destruct (in_list level ["error"; "critical"]);
      rewrite ?lookup_alter_eq, ?lookup_insert_eq, ?Hm; reflexivity.
  - destruct (m !! control x) as [s|] eqn:Hm;
      destruct (in_list level ["error"; "critical"]);
      rewrite ?lookup_alter_ne, ?lookup_insert_ne by congruence; reflexivity.
Qed.

(** Counting two mappings commutes, as long as equal controls come
    with equal descriptions. *)
Lemma count_mapping_commute l1 l2 (m : gmap string control_stats) x1 x2 :
  (control x1 = control x2 -> description x1 = description x2) ->
  count_mapping l1 (count_mapping l2 m x2) x1 =
  count_mapping l2 (count_mapping l1 m x1) x2.
Proof.
  intros Hdesc. apply map_eq. intros k.
  rewrite !count_mapping_lookup.
  destruct (decide (k = control x1)) as [H1|H1], (decide (k = control x2)) as [H2|H2];
    try reflexivity.
  rewrite Hdesc by congruence. f_equal. unfold counted.
  destruct (in_list l1 ["error"; "critical"]), (in_list l2 ["error"; "critical"]);
    destruct (m !! k) as [s|]; reflexivity.
Qed.

Lemma fold_left_commute {A B C} (f : A -> B -> A) (g : A -> C -> A) xs ys :
  (forall a x y, In x xs -> In y ys -> f (g a y) x = g (f a x) y) ->
  forall a, fold_left f xs (fold_left g ys a) = fold_left g ys (fold_left f xs a).
Proof.
  intros Hfg.
  assert (Hone : forall x, In x xs ->
            forall ys', incl ys' ys ->
            forall a, f (fold_left g ys' a) x = fold_left g ys' (f a x)).
  { intros x Hx ys'. induction ys' as [|y ys' IH]; intros Hincl a; [reflexivity|].
    cbn [fold_left]. rewrite IH by (intros z Hz; apply Hincl; now right).
    rewrite Hfg; [reflexivity | exact Hx | apply Hincl; now left]. }
  induction xs as [|x xs IH]; intros a; [reflexivity|].
  cbn [fold_left]. rewrite (Hone x (or_introl eq_refl) ys (incl_refl ys)).
  apply IH.
  - intros a' x' y Hx' Hy. apply Hfg; [now right | exact Hy].
  - intros x' Hx'. apply Hone. now right.
Qed.

End Fold.

Section FoldBlocks.
Import Py Sarif ComplianceReportGenerator.

Lemma dict_alter_id {V} (f : V -> V) k (d : dict V) :
  (forall v, f v = v) -> dict_alter f k d = d.
Proof.
  intros Hf. induction d as [|[k0 v] d IH]; simpl; [reflexivity|].
  destruct (String.eqb k k0); [now rewrite Hf | now rewrite IH].
Qed.

(** The guard of [_update_compliance_stats] only skips what would
    change nothing. *)
Lemma update_as_alter fw ms level cm :
  _update_compliance_stats fw ms level cm =
  dict_alter
    (fun data => set_findings_by_control
                   (fold_left (count_mapping level) ms (findings_by_control data)) data)
    fw cm.
Proof.
  unfold _update_compliance_stats.
  destruct (dict_mem fw cm) eqn:Hmem; [reflexivity|].
  symmetry. now apply dict_alter_absent.
Qed.

Lemma update_nil fw level cm : _update_compliance_stats fw [] level cm = cm.
Proof.
  rewrite update_as_alter. apply dict_alter_id. intros [t f p fbc]. reflexivity.
Qed.

Lemma update_commute fw1 ms1 l1 fw2 ms2 l2 cm :
  (fw1 = fw2 ->
   forall x1 x2, In x1 ms1 -> In x2 ms2 ->
                 control x1 = control x2 -> description x1 = description x2) ->
  _update_compliance_stats fw1 ms1 l1 (_update_compliance_stats fw2 ms2 l2 cm) =
  _update_compliance_stats fw2 ms2 l2 (_update_compliance_stats fw1 ms1 l1 cm).
Proof.
  intros Hdesc. rewrite !update_as_alter.
  destruct (String.eqb_spec fw1 fw2) as [<-|Hne].
  - rewrite !dict_alter_compose. apply dict_alter_ext. intros data.
    unfold set_findings_by_control. cbn. f_equal.
    apply fold_left_commute. intros m x1 x2 Hx1 Hx2.
    apply count_mapping_commute. now apply Hdesc.
  - now apply dict_alter_swap.
Qed.

Lemma map_blocks_snd self rule_id level st :
  snd (map_blocks self rule_id level st) =
  fold_left (fun cm block => _update_compliance_stats (fst block) (snd block) level cm)
            (requested_blocks self rule_id level) (snd st).
Proof.
  assert (Hblock : forall fw mapper st',
             snd (map_block self fw mapper rule_id level st') =
             if in_list fw (standards self)
             then _update_compliance_stats fw (mapper rule_id level) level (snd st')
             else snd st').
  { intros fw mapper st'. unfold map_block.
    destruct (in_list fw (standards self)); [|reflexivity].
    destruct (mapper rule_id level); [now rewrite update_nil | reflexivity]. }
  unfold map_blocks, requested_blocks. rewrite !Hblock. cbn [List.filter fst].
  destruct (in_list "ISO27001" (standards self)),
           (in_list "RBI-IT-Framework" (standards self)),
           (in_list "SEBI-Guidelines" (standards self)); reflexivity.
Qed.

Lemma requested_block_citations self rule_id level fw ms :
  In (fw, ms) (requested_blocks self rule_id level) ->
  ms = Spec.citations fw rule_id level.
Proof.
  unfold requested_blocks. rewrite filter_In. intros [Hin _].
  rewrite iso27001_follows_table, rbi_follows_table, sebi_follows_table in Hin.
  cbn [In] in Hin.
  destruct Hin as [H|[H|[H|[]]]]; injection H as <- <-; reflexivity.
Qed.

Lemma citations_entry fw rule_id level x :
  In x (Spec.citations fw rule_id level) ->
  exists e, In e (Spec.pattern_table fw) /\
            control x = Spec.e_control e /\ description x = Spec.e_description e.
Proof.
  unfold Spec.citations. rewrite in_map_iff. intros (e & <- & He).
  apply filter_In in He. exists e. tauto.
Qed.

(** Within a pattern table a control has one description. *)
Lemma pattern_table_functional fw e1 e2 :
  In e1 (Spec.pattern_table fw) -> In e2 (Spec.pattern_table fw) ->
  Spec.e_control e1 = Spec.e_control e2 ->
  Spec.e_description e1 = Spec.e_description e2.
Proof.
  unfold Spec.pattern_table.
  destruct (String.eqb fw "ISO27001");
    [|destruct (String.eqb fw "RBI-IT-Framework");
      [|destruct (String.eqb fw "SEBI-Guidelines")]];
    cbn [In]; intros H1 H2;
    repeat match goal with
           | H : _ \/ _ |- _ => destruct H
           | H : False |- _ => destruct H
           end; subst; cbn; intros Heq; (reflexivity || discriminate Heq).
Qed.

Lemma requested_blocks_consistent self1 r1 l1 self2 r2 l2 fw ms1 ms2 x1 x2 :
  In (fw, ms1) (requested_blocks self1 r1 l1) ->
  In (fw, ms2) (requested_blocks self2 r2 l2) ->
  In x1 ms1 -> In x2 ms2 ->
  control x1 = control x2 -> description x1 = description x2.
Proof.
  intros Hb1 Hb2 Hx1 Hx2 Hc.
  rewrite (requested_block_citations _ _ _ _ _ Hb1) in Hx1.
  rewrite (requested_block_citations _ _ _ _ _ Hb2) in Hx2.
  destruct (citations_entry _ _ _ _ Hx1) as (e1 & He1 & Hc1 & ->).
  destruct (citations_entry _ _ _ _ Hx2) as (e2 & He2 & Hc2 & ->).
  apply (pattern_table_functional fw); congruence.
Qed.

(** What folding one finding does to the report. *)
Lemma fold_finding self result source_file :
  let rule_id := get (ruleId result) "unknown" in
  let level := lower (get (Sarif.level result) "note") in
  let self' := _map_finding_to_compliance self result source_file in
  standards self' = standards self /\
  total_findings (summary (report self')) = total_findings (summary (report self)) /\
  critical_findings (summary (report self')) =
    (if in_list level ["error"; "critical"]
     then critical_findings (summary (report self)) + 1
     else critical_findings (summary (report self))) /\
  compliance_score (summary (report self')) = compliance_score (summary (report self)) /\
  risk_level (summary (report self')) = risk_level (summary (report self)) /\
  compliance_mappings (report self') =
    fold_left (fun cm block => _update_compliance_stats (fst block) (snd block) level cm)
              (requested_blocks self rule_id level) (compliance_mappings (report self)) /\
  detailed_findings (report self') =
    detailed_findings (report self) ++
    [{| f_rule_id := rule_id;
        f_severity := level;
        f_message := get (message_text result) "";
        f_source_file := source_file;
        f_compliance_mappings := classify self rule_id level;
        f_remediation_priority := _calculate_priority level rule_id |}].
Proof.
  cbv zeta. unfold _map_finding_to_compliance.
  cbn [report set_report standards summary compliance_mappings detailed_findings].
  rewrite map_blocks_snd. cbn [snd].
  destruct (in_list (lower (get (Sarif.level result) "note")) ["error"; "critical"]);
    repeat split.
Qed.

End FoldBlocks.

Section FoldClaims.
Import Py Sarif ComplianceReportGenerator.

Lemma summary_ext (s1 s2 : executive_summary) :
  total_findings s1 = total_findings s2 ->
  critical_findings s1 = critical_findings s2 ->
  compliance_score s1 = compliance_score s2 ->
  risk_level s1 = risk_level s2 ->
  s1 = s2.
Proof. destruct s1, s2. cbn. congruence. Qed.

Lemma requested_blocks_standards self1 self2 rule_id level :
  standards self1 = standards self2 ->
  requested_blocks self1 rule_id level = requested_blocks self2 rule_id level.
Proof. unfold requested_blocks. now intros ->. Qed.

(** Before finalizing, the two orders already agree on the summary
    and on the per-framework statistics. *)
Lemma fold_swap self a source_a b source_b :
  let ab := _map_finding_to_compliance
              (_map_finding_to_compliance self a source_a) b source_b in
  let ba := _map_finding_to_compliance
              (_map_finding_to_compliance self b source_b) a source_a in
  summary (report ab) = summary (report ba) /\
  compliance_mappings (report ab) = compliance_mappings (report ba).
Proof.
  cbv zeta.
  destruct (fold_finding self a source_a) as (Hsa & Hta & Hca & Hpa & Hra & Hma & _).
  destruct (fold_finding self b source_b) as (Hsb & Htb & Hcb & Hpb & Hrb & Hmb & _).
  destruct (fold_finding (_map_finding_to_compliance self a source_a) b source_b)
    as (_ & Htab & Hcab & Hpab & Hrab & Hmab & _).
  destruct (fold_finding (_map_finding_to_compliance self b source_b) a source_a)
    as (_ & Htba & Hcba & Hpba & Hrba & Hmba & _).
  cbv zeta in *. split.
  - apply summary_ext; try congruence.
    rewrite Hcab, Hcba, Hca, Hcb.
    destruct (in_list (lower (get (Sarif.level a) "note")) ["error"; "critical"]),
             (in_list (lower (get (Sarif.level b) "note")) ["error"; "critical"]);
      reflexivity.
  - rewrite Hmab, Hmba, Hma, Hmb.
    rewrite (requested_blocks_standards _ self _ _ Hsa).
    rewrite (requested_blocks_standards _ self _ _ Hsb).
    apply fold_left_commute.
    intros cm [fw1 ms1] [fw2 ms2] H1 H2. cbn [fst snd].
    apply update_commute. intros <- x1 x2 Hx1 Hx2.
    exact (requested_blocks_consistent _ _ _ _ _ _ _ _ _ _ _ H1 H2 Hx1 Hx2).
Qed.

Lemma finalize_congruence self1 self2 :
  summary (report self1) = summary (report self2) ->
  compliance_mappings (report self1) = compliance_mappings (report self2) ->
  summary (report (_finalize_report self1)) = summary (report (_finalize_report self2)) /\
  compliance_mappings (report (_finalize_report self1)) =
    compliance_mappings (report (_finalize_report self2)).
Proof.
  intros Hs Hm. unfold _finalize_report.
  cbn [report set_report summary compliance_mappings].
  rewrite Hs, Hm. split; reflexivity.
Qed.

(** C3.  From any aggregation state and for any two findings,
    folding the first then the second and finalizing gives the same
    executive summary and the same per-framework statistics (failed
    and total controls, compliance percentage, per-control counts) as
    folding them the other way round and finalizing. *)
Theorem fold_order_independent self a source_a b source_b :
  let ab := _finalize_report
              (_map_finding_to_compliance
                 (_map_finding_to_compliance self a source_a) b source_b) in
  let ba := _finalize_report
              (_map_finding_to_compliance
                 (_map_finding_to_compliance self b source_b) a source_a) in
  summary (report ab) = summary (report ba) /\
  compliance_mappings (report ab) = compliance_mappings (report ba).
Proof.
  cbv zeta. destruct (fold_swap self a source_a b source_b) as [Hs Hm].
  now apply finalize_congruence.
Qed.

(** The list of detailed findings, by contrast, keeps the order of
    processing. *)
Example detailed_findings_keep_order :
  let a := Result (Some "xss") (Some "error") None in
  let b := Result (Some "weak-hash") (Some "note") None in
  let self := __init__ ["ISO27001"] in
  map f_rule_id
      (detailed_findings
         (report (_map_finding_to_compliance
                    (_map_finding_to_compliance self a "s") b "s"))) = ["xss"; "weak-hash"] /\
  map f_rule_id
      (detailed_findings
         (report (_map_finding_to_compliance
                    (_map_finding_to_compliance self b "s") a "s"))) = ["weak-hash"; "xss"].
Proof. split; reflexivity. Qed.

End FoldClaims.

(** ** The level ["critical"] *)

Section CriticalLevel.
Import Py Sarif ComplianceReportGenerator.

(** [count_mapping] reads the level only through the membership test,
    and a mapping only through its control and description. *)
Lemma count_mapping_ext l1 l2 (m : gmap string control_stats) x1 x2 :
  in_list l1 ["error"; "critical"] = in_list l2 ["error"; "critical"] ->
  control x1 = control x2 -> description x1 = description x2 ->
  count_mapping l1 m x1 = count_mapping l2 m x2.
Proof.
  intros Hl Hc Hd. apply map_eq. intros k.
  now rewrite !count_mapping_lookup, Hl, Hc, Hd.
Qed.

Lemma fold_count_mapping_ext l1 l2 ms1 ms2 :
  in_list l1 ["error"; "critical"] = in_list l2 ["error"; "critical"] ->
  Forall2 (fun x1 x2 => control x1 = control x2 /\ description x1 = description x2)
          ms1 ms2 ->
  forall m : gmap string control_stats,
    fold_left (count_mapping l1) ms1 m = fold_left (count_mapping l2) ms2 m.
Proof.
  intros Hl Hms. induction Hms as [|x1 x2 ms1 ms2 [Hc Hd] _ IH]; intros m; [reflexivity|].
  cbn [fold_left]. rewrite (count_mapping_ext l1 l2 m x1 x2 Hl Hc Hd). apply IH.
Qed.

Lemma update_ext fw l1 l2 ms1 ms2 cm :
  in_list l1 ["error"; "critical"] = in_list l2 ["error"; "critical"] ->
  Forall2 (fun x1 x2 => control x1 = control x2 /\ description x1 = description x2)
          ms1 ms2 ->
  _update_compliance_stats fw ms1 l1 cm = _update_compliance_stats fw ms2 l2 cm.
Proof.
  intros Hl Hms. rewrite !update_as_alter. apply dict_alter_ext. intros data.
  now rewrite (fold_count_mapping_ext l1 l2 ms1 ms2 Hl Hms).
Qed.

(** The mappers read the level only to copy it into
    ["severity_impact"]. *)
Lemma requested_blocks_level self rule_id l1 l2 :
  Forall2 (fun b1 b2 : string * list mapping =>
             fst b1 = fst b2 /\
             Forall2 (fun x1 x2 => control x1 = control x2 /\
                                   description x1 = description x2)
                     (snd b1) (snd b2))
          (requested_blocks self rule_id l1) (requested_blocks self rule_id l2).
Proof.
  unfold requested_blocks. cbn [List.filter fst].
  destruct (in_list "ISO27001" (standards self)),
           (in_list "RBI-IT-Framework" (standards self)),
           (in_list "SEBI-Guidelines" (standards self));
    repeat (constructor; [split; [reflexivity|] |]); try constructor;
    unfold _map_to_iso27001, _map_to_rbi_framework, _map_to_sebi_guidelines;
    repeat match goal with
           | |- context [any_in ?ks ?s] => destruct (any_in ks s)
           end; cbn [app]; repeat constructor.
Qed.

Lemma fold_blocks_ext l1 l2 blocks1 blocks2 :
  in_list l1 ["error"; "critical"] = in_list l2 ["error"; "critical"] ->
  Forall2 (fun b1 b2 : string * list mapping =>
             fst b1 = fst b2 /\
             Forall2 (fun x1 x2 => control x1 = control x2 /\
                                   description x1 = description x2)
                     (snd b1) (snd b2))
          blocks1 blocks2 ->
  forall cm,
    fold_left (fun cm block => _update_compliance_stats (fst block) (snd block) l1 cm)
              blocks1 cm =
    fold_left (fun cm block => _update_compliance_stats (fst block) (snd block) l2 cm)
              blocks2 cm.
Proof.
  intros Hl Hbs. induction Hbs as [|b1 b2 bs1 bs2 [Hfw Hms] _ IH]; intros cm; [reflexivity|].
  cbn [fold_left]. rewrite Hfw, (update_ext (fst b2) l1 l2 _ _ cm Hl Hms). apply IH.
Qed.

End CriticalLevel.

Section ControlCounts.
Import Py Sarif ComplianceReportGenerator.

Lemma fold_count_critical level ms (m : gmap string control_stats) k :
  from_option cs_critical_findings 0 (fold_left (count_mapping level) ms m !! k) =
  from_option cs_critical_findings 0 (m !! k)
  + (if in_list level ["error"; "critical"]
     then length (List.filter (fun x => String.eqb (control x) k) ms)
     else 0).
Proof.
  revert m. induction ms as [|x ms IH]; intros m.
  - cbn [fold_left List.filter length].
    destruct (in_list level ["error"; "critical"]); lia.
  - cbn [fold_left List.filter]. rewrite IH, count_mapping_lookup.
    destruct (String.eqb_spec (control x) k) as [Hk|Hk].
    + destruct (decide (k = control x)) as [_|Hne]; [|congruence].
      unfold counted.
      destruct (in_list level ["error"; "critical"]);
        destruct (m !! k) as [s|]; cbn [from_option default cs_critical_findings length];
        unfold id; lia.
    + destruct (decide (k = control x)) as [Heq|_]; [congruence|].
      destruct (in_list level ["error"; "critical"]); lia.
Qed.

Lemma control_counts_critical cm fw c :
  snd (control_counts cm fw c) =
  match dict_get fw cm with
  | Some data => from_option cs_critical_findings 0 (findings_by_control data !! c)
  | None => 0
  end.
Proof.
  unfold control_counts. destruct (dict_get fw cm) as [data|]; [|reflexivity].
  destruct (findings_by_control data !! c); reflexivity.
Qed.

Lemma update_critical fw' ms level cm fw c :
  snd (control_counts (_update_compliance_stats fw' ms level cm) fw c) =
  snd (control_counts cm fw c)
  + (if String.eqb fw fw' && dict_mem fw cm && in_list level ["error"; "critical"]
     then length (List.filter (fun x => String.eqb (control x) c) ms)
     else 0).
Proof.
  rewrite !control_counts_critical, update_as_alter, dict_get_alter.
  unfold dict_mem.
  destruct (String.eqb fw fw'); cbn [andb]; [|destruct (dict_get fw cm); lia].
  destruct (dict_get fw cm) as [data|]; cbn [option_map andb]; [|lia].
  cbn [set_findings_by_control findings_by_control].
  rewrite fold_count_critical.
  destruct (in_list level ["error"; "critical"]); lia.
Qed.

Lemma update_dict_mem fw' ms level cm fw :
  dict_mem fw (_update_compliance_stats fw' ms level cm) = dict_mem fw cm.
Proof. rewrite update_as_alter. apply dict_mem_alter. Qed.

(** The critical count of a control after the blocks of one finding:
    one more per mapping of the finding that cites this control of
    this framework, when the level is critical and the framework has
    an entry. *)
Lemma fold_blocks_critical level blocks fw c :
  Forall (fun block : string * list mapping =>
            Forall (fun x => framework x = fst block) (snd block)) blocks ->
  forall cm,
    snd (control_counts
           (fold_left (fun cm block =>
                         _update_compliance_stats (fst block) (snd block) level cm)
                      blocks cm) fw c) =
    snd (control_counts cm fw c)
    + (if dict_mem fw cm && in_list level ["error"; "critical"]
       then length (List.filter
                      (fun x => String.eqb (framework x) fw && String.eqb (control x) c)
                      (flat_map snd blocks))
       else 0).
Proof.
  intros Hblocks. induction Hblocks as [|[fw' ms] blocks Hms _ IH]; intros cm.
  - cbn [fold_left flat_map List.filter length].
    destruct (dict_mem fw cm && in_list level ["error"; "critical"]); lia.
  - cbn [fold_left flat_map fst snd] in *.
    rewrite IH, update_critical, update_dict_mem, List.filter_app, length_app.
    assert (Hfilter :
              List.filter (fun x => String.eqb (framework x) fw && String.eqb (control x) c) ms =
              if String.eqb fw fw'
              then List.filter (fun x => String.eqb (control x) c) ms else []).
    { clear IH. induction Hms as [|x ms Hx _ IHms].
      - now destruct (String.eqb fw fw').
      - cbn [List.filter]. rewrite IHms, Hx, (String.eqb_sym fw' fw).
        destruct (String.eqb fw fw'); reflexivity. }
    rewrite Hfilter.
    destruct (String.eqb fw fw'), (dict_mem fw cm),
             (in_list level ["error"; "critical"]); cbn [andb length]; lia.
Qed.

Lemma requested_blocks_frameworks self rule_id level :
  Forall (fun block : string * list mapping =>
            Forall (fun x => framework x = fst block) (snd block))
         (requested_blocks self rule_id level).
Proof.
  apply List.Forall_forall. intros [fw ms] Hin. cbn [fst snd].
  rewrite (requested_block_citations _ _ _ _ _ Hin).
  apply List.Forall_forall. intros x Hx. exact (citations_framework _ _ _ _ Hx).
Qed.

Lemma classify_flat self rule_id level :
  classify self rule_id level = flat_map snd (requested_blocks self rule_id level).
Proof.
  unfold classify, map_blocks, requested_blocks. rewrite !map_block_fst.
  cbn [fst List.filter].
  destruct (in_list "ISO27001" (standards self)),
           (in_list "RBI-IT-Framework" (standards self)),
           (in_list "SEBI-Guidelines" (standards self));
    cbn [flat_map snd app]; rewrite ?app_nil_r; try reflexivity;
    now rewrite <- ?app_assoc.
Qed.

End ControlCounts.

Section CitedOnce.
Import Py Sarif ComplianceReportGenerator.

Lemma filter_andb {A} (f g : A -> bool) (l : list A) :
  List.filter (fun x => f x && g x) l = List.filter g (List.filter f l).
Proof.
  induction l as [|x l IH]; [reflexivity|]. cbn [List.filter].
  destruct (f x); cbn [andb List.filter]; [destruct (g x)|]; now rewrite IH.
Qed.

Lemma filter_key_absent {A} (key : A -> string) k (l : list A) :
  ~ In k (map key l) -> List.filter (fun x => String.eqb (key x) k) l = [].
Proof.
  induction l as [|x l IH]; [reflexivity|]. cbn [map In List.filter]. intros Hk.
  destruct (String.eqb_spec (key x) k) as [Heq|_]; [tauto|]. apply IH. tauto.
Qed.

(** Among elements with distinct keys at most one has a given key. *)
Lemma filter_key_unique {A} (key : A -> string) k (l : list A) :
  List.NoDup (map key l) ->
  length (List.filter (fun x => String.eqb (key x) k) l) <= 1.
Proof.
  induction l as [|x l IH]; cbn [map List.filter]; intros Hnd; [cbn; lia|].
  apply List.NoDup_cons_iff in Hnd as [Hx Hnd].
  destruct (String.eqb_spec (key x) k) as [Heq|_]; [|now apply IH].
  cbn [length]. rewrite filter_key_absent; [cbn; lia | congruence].
Qed.

Lemma NoDup_map_filter {A B} (f : A -> B) (p : A -> bool) (l : list A) :
  List.NoDup (map f l) -> List.NoDup (map f (List.filter p l)).
Proof.
  induction l as [|x l IH]; cbn [map List.filter]; intros Hnd; [constructor|].
  apply List.NoDup_cons_iff in Hnd as [Hx Hnd].
  destruct (p x); [|now apply IH].
  cbn [map]. constructor; [|now apply IH].
  intros Hin. apply Hx. apply in_map_iff in Hin as (y & Hy & Hin).
  apply filter_In in Hin as [Hin _]. apply in_map_iff. eauto.
Qed.

(** The controls of a pattern table are distinct. *)
Lemma pattern_table_NoDup fw : List.NoDup (map Spec.e_control (Spec.pattern_table fw)).
Proof.
  unfold Spec.pattern_table.
  destruct (String.eqb fw "ISO27001");
    [|destruct (String.eqb fw "RBI-IT-Framework");
      [|destruct (String.eqb fw "SEBI-Guidelines")]];
    cbn [map Spec.e_control];
    repeat (constructor; [cbn [In]; intuition discriminate|]);
    constructor.
Qed.

Lemma citations_control_unique fw rule_id level c :
  length (List.filter (fun x => String.eqb (control x) c)
                      (Spec.citations fw rule_id level)) <= 1.
Proof.
  apply filter_key_unique. unfold Spec.citations. rewrite map_map. cbn [control].
  apply NoDup_map_filter, pattern_table_NoDup.
Qed.

(** A finding cites a control of a framework at most once. *)
Lemma classify_cites_once self rule_id level fw c :
  length (List.filter
            (fun x => String.eqb (framework x) fw && String.eqb (control x) c)
            (classify self rule_id level)) <= 1.
Proof.
  rewrite filter_andb, filter_classify_framework.
  destruct (String.eqb "ISO27001" fw) eqn:Hiso.
  { apply String.eqb_eq in Hiso. subst fw.
    change (String.eqb "RBI-IT-Framework" "ISO27001") with false.
    change (String.eqb "SEBI-Guidelines" "ISO27001") with false.
    rewrite !andb_false_r, andb_true_r, !app_nil_r.
    destruct (in_list "ISO27001" (standards self));
      [apply citations_control_unique | cbn; lia]. }
  destruct (String.eqb "RBI-IT-Framework" fw) eqn:Hrbi.
  { apply String.eqb_eq in Hrbi. subst fw.
    change (String.eqb "SEBI-Guidelines" "RBI-IT-Framework") with false.
    rewrite !andb_false_r, andb_true_r, app_nil_r. cbn [app].
    destruct (in_list "RBI-IT-Framework" (standards self));
      [apply citations_control_unique | cbn; lia]. }
  rewrite !andb_false_r. cbn [app].
  destruct (in_list "SEBI-Guidelines" (standards self) && String.eqb "SEBI-Guidelines" fw);
    [apply citations_control_unique | cbn; lia].
Qed.

Lemma classify_cited_once self rule_id level fw c m :
  In m (classify self rule_id level) -> framework m = fw -> control m = c ->
  length (List.filter
            (fun x => String.eqb (framework x) fw && String.eqb (control x) c)
            (classify self rule_id level)) = 1.
Proof.
  intros Hin Hfw Hc.
  pose proof (classify_cites_once self rule_id level fw c) as Hle.
  assert (Hm : In m (List.filter
                       (fun x => String.eqb (framework x) fw && String.eqb (control x) c)
                       (classify self rule_id level))).
  { apply filter_In. split; [exact Hin|].
    rewrite Hfw, Hc, !String.eqb_refl. reflexivity. }
  destruct (List.filter _ (classify self rule_id level)) as [|y ys];
    [contradiction | cbn [length] in *; lia].
Qed.

End CitedOnce.

Section CriticalLevelClaims.
Import Py Sarif ComplianceReportGenerator.

Lemma critical_or_error level :
  in_list level ["error"; "critical"] = true <-> level = "error" \/ level = "critical".
Proof. rewrite in_list_true. cbn [In]. intuition congruence. Qed.

(** The critical counts after folding one finding. *)
Lemma fold_finding_critical self result source_file fw c :
  let rule_id := get (ruleId result) "unknown" in
  let level := lower (get (Sarif.level result) "note") in
  let cm := compliance_mappings (report self) in
  snd (control_counts
         (compliance_mappings (report (_map_finding_to_compliance self result source_file)))
         fw c) =
  snd (control_counts cm fw c)
  + (if dict_mem fw cm && in_list level ["error"; "critical"]
     then length (List.filter
                    (fun x => String.eqb (framework x) fw && String.eqb (control x) c)
                    (classify self rule_id level))
     else 0).
Proof.
  cbv zeta.
  destruct (fold_finding self result source_file) as (_ & _ & _ & _ & _ & Hm & _).
  cbv zeta in Hm. rewrite Hm, classify_flat.
  apply fold_blocks_critical, requested_blocks_frameworks.
Qed.

(** C10.  In the report generator a finding whose lowercased level is
    ["critical"] adds one to the summary's critical findings, gets
    remediation priority HIGH, and adds one to the critical count of
    every control it cites (in a framework that has an entry); the
    summary, the per-framework statistics and the priority are those the
    same finding would produce with level ["error"].  A finding whose
    lowercased level is neither ["error"] nor ["critical"] leaves the
    summary's critical findings and every control's critical count
    unchanged, and its priority is not HIGH. *)
Theorem critical_level_counts_as_error self result source_file :
  let rule_id := get (ruleId result) "unknown" in
  let level := lower (get (Sarif.level result) "note") in
  let cm := compliance_mappings (report self) in
  let self' := _map_finding_to_compliance self result source_file in
  let cm' := compliance_mappings (report self') in
  let as_error :=
    _map_finding_to_compliance self
      (Result (ruleId result) (Some "error") (message_text result)) source_file in
  (level = "critical" ->
   critical_findings (summary (report self')) =
     critical_findings (summary (report self)) + 1 /\
   map f_remediation_priority (detailed_findings (report self')) =
     map f_remediation_priority (detailed_findings (report self)) ++ ["HIGH"] /\
   (forall fw c m,
       dict_mem fw cm = true ->
       In m (classify self rule_id level) -> framework m = fw -> control m = c ->
       snd (control_counts cm' fw c) = snd (control_counts cm fw c) + 1) /\
   summary (report self') = summary (report as_error) /\
   cm' = compliance_mappings (report as_error) /\
   map f_remediation_priority (detailed_findings (report self')) =
     map f_remediation_priority (detailed_findings (report as_error)))
  /\
  (level <> "critical" -> level <> "error" ->
   critical_findings (summary (report self')) =
     critical_findings (summary (report self)) /\
   (exists priority,
       priority <> "HIGH" /\
       map f_remediation_priority (detailed_findings (report self')) =
         map f_remediation_priority (detailed_findings (report self)) ++ [priority]) /\
   (forall fw c, snd (control_counts cm' fw c) = snd (control_counts cm fw c))).
Proof.
  cbv zeta.
  destruct (fold_finding self result source_file)
    as (Hs & Ht & Hc & Hp & Hr & Hm & Hd).
  cbv zeta in *.
  set (rule_id := get (ruleId result) "unknown") in *.
  set (level := lower (get (Sarif.level result) "note")) in *.
  split.
  - intros Hlevel.
    assert (Hcrit : in_list level ["error"; "critical"] = true)
      by (apply critical_or_error; now right).
    destruct (fold_finding self
                (Result (ruleId result) (Some "error") (message_text result)) source_file)
      as (Hs' & Ht' & Hc' & Hp' & Hr' & Hm' & Hd').
    cbv zeta in *. cbn [ruleId Sarif.level message_text] in *. fold rule_id in Hm', Hd'.
    change (lower (get (Some "error") "note")) with "error" in *.
    change (in_list "error" ["error"; "critical"]) with true in Hc'.
    rewrite Hcrit in Hc.
    assert (Hprio : _calculate_priority level rule_id = "HIGH")
      by (unfold _calculate_priority; now rewrite Hcrit).
    split; [exact Hc|].
    split; [rewrite Hd, map_app; cbn [map f_remediation_priority]; now rewrite Hprio|].
    split; [|split; [|split]].
    + intros fw c m Hmem Hin Hfw Hcontrol.
      pose proof (fold_finding_critical self result source_file fw c) as Hcount.
      cbv zeta in Hcount. fold rule_id level in Hcount.
      rewrite Hcount, Hmem, Hcrit. cbn [andb].
      now rewrite (classify_cited_once self rule_id level fw c m Hin Hfw Hcontrol).
    + apply summary_ext; congruence.
    + rewrite Hm, Hm'. apply fold_blocks_ext.
      * now rewrite Hcrit.
      * apply requested_blocks_level.
    + rewrite Hd, Hd', !map_app. cbn [map f_remediation_priority].
      now rewrite Hprio.
  - intros Hnc Hne.
    assert (Hcrit : in_list level ["error"; "critical"] = false).
    { destruct (in_list level ["error"; "critical"]) eqn:E; [|reflexivity].
      apply critical_or_error in E. tauto. }
    rewrite Hcrit in Hc. split; [exact Hc|]. split.
    + exists (_calculate_priority level rule_id). split.
      * unfold _calculate_priority. rewrite Hcrit.
        destruct (String.eqb level "warning"); discriminate.
      * rewrite Hd, map_app. reflexivity.
    + intros fw c.
      pose proof (fold_finding_critical self result source_file fw c) as Hcount.
      cbv zeta in Hcount. fold rule_id level in Hcount.
      rewrite Hcount, Hcrit, andb_false_r. lia.
Qed.

Lemma critical_level_counts_as_error_witness :
  let self := __init__ ["ISO27001"; "RBI-IT-Framework"] in
  let loud := Result (Some "xss-in-login") (Some "CRITICAL") None in
  let quiet := Result (Some "xss-in-login") (Some "warning") None in
  (critical_findings (summary (report (_map_finding_to_compliance self loud "scan.sarif"))) = 1 /\
   snd (control_counts
          (compliance_mappings (report (_map_finding_to_compliance self loud "scan.sarif")))
          "RBI-IT-Framework" "RBI-IT-4.2.1") = 1 /\
   compliance_mappings (report (_map_finding_to_compliance self loud "scan.sarif")) =
     compliance_mappings
       (report (_map_finding_to_compliance self
                  (Result (Some "xss-in-login") (Some "error") None) "scan.sarif")))
  /\
  (critical_findings (summary (report (_map_finding_to_compliance self quiet "scan.sarif"))) = 0 /\
   forall fw c,
     snd (control_counts
            (compliance_mappings (report (_map_finding_to_compliance self quiet "scan.sarif")))
            fw c) =
     snd (control_counts (compliance_mappings (report self)) fw c)).
Proof.
  cbv zeta. split.
  - destruct (proj1 (critical_level_counts_as_error
                       (__init__ ["ISO27001"; "RBI-IT-Framework"])
                       (Result (Some "xss-in-login") (Some "CRITICAL") None)
                       "scan.sarif") eq_refl)
      as (Hc & _ & Hcontrols & _ & Hm & _).
    split; [exact Hc|]. split; [|exact Hm].
    exact (Hcontrols "RBI-IT-Framework" "RBI-IT-4.2.1"
             (Mapping "RBI-IT-Framework" "RBI-IT-4.2.1"
                "Application Security - Secure coding practices" "critical")
             eq_refl (or_intror (or_introl eq_refl)) eq_refl eq_refl).
  - destruct (proj2 (critical_level_counts_as_error
                       (__init__ ["ISO27001"; "RBI-IT-Framework"])
                       (Result (Some "xss-in-login") (Some "warning") None)
                       "scan.sarif"))
      as (Hc & _ & Hcontrols); [discriminate | discriminate |].
    split; [exact Hc | exact Hcontrols].
Defined.

End CriticalLevelClaims.

(** * Further properties of the scripts *)

(** ** The report generator: what a run of [generate_report] counts *)

Section ReportCounts.
Import Py Sarif ComplianceReportGenerator.

(** [generate_report] is the finalization of a fold over the files,
    for an empty directory too. *)
Lemma generate_report_fold self sarif_dir :
  generate_report self sarif_dir =
  _finalize_report
    (fold_left (fun self file =>
                  match _process_sarif_file self file with
                  | Some self' => self'
                  | None => self
                  end) sarif_dir self).
Proof. destruct sarif_dir; reflexivity. Qed.

(** The statistics updates never add or remove a framework. *)
Lemma fold_blocks_keys level blocks cm :
  map fst (fold_left (fun cm block =>
                        _update_compliance_stats (fst block) (snd block) level cm)
                     blocks cm) =
  map fst cm.
Proof.
  revert cm. induction blocks as [|b bs IH]; intros cm; [reflexivity|].
  cbn [fold_left]. rewrite IH, update_as_alter. apply dict_keys_alter.
Qed.

Lemma fold_results_counts source_file run self :
  let self' := fold_left (fun self result =>
                            _map_finding_to_compliance self result source_file)
                         run self in
  standards self' = standards self /\
  total_findings (summary (report self')) = total_findings (summary (report self)) /\
  critical_findings (summary (report self')) =
    critical_findings (summary (report self))
    + length (List.filter
                (fun r => in_list (lower (get (level r) "note")) ["error"; "critical"])
                run) /\
  map f_rule_id (detailed_findings (report self')) =
    map f_rule_id (detailed_findings (report self))
    ++ map (fun r => get (ruleId r) "unknown") run /\
  map fst (compliance_mappings (report self')) =
    map fst (compliance_mappings (report self)).
Proof.
  cbv zeta. revert self. induction run as [|r run IH]; intros self.
  - cbn [fold_left List.filter length map]. rewrite app_nil_r.
    repeat split; lia.
  - cbn [fold_left List.filter map].
    destruct (IH (_map_finding_to_compliance self r source_file))
      as (Hs & Ht & Hc & Hd & Hk).
    destruct (fold_finding self r source_file) as (Hs1 & Ht1 & Hc1 & _ & _ & Hm1 & Hd1).
    cbv zeta in *.
    rewrite Hs, Ht, Hc, Hd, Hk, Hs1, Ht1, Hc1, Hd1, Hm1.
    split; [reflexivity|]. split; [reflexivity|]. split; [|split].
    + destruct (in_list (lower (get (level r) "note")) ["error"; "critical"]);
        cbn [length]; lia.
    + rewrite map_app. cbn [map f_rule_id]. now rewrite <- app_assoc.
    + apply fold_blocks_keys.
Qed.

Lemma process_runs_counts path data self :
  let self' := fold_left (fun self run => _process_run self run path) data self in
  standards self' = standards self /\
  total_findings (summary (report self')) =
    total_findings (summary (report self)) + length (concat data) /\
  critical_findings (summary (report self')) =
    critical_findings (summary (report self))
    + length (List.filter
                (fun r => in_list (lower (get (level r) "note")) ["error"; "critical"])
                (concat data)) /\
  map f_rule_id (detailed_findings (report self')) =
    map f_rule_id (detailed_findings (report self))
    ++ map (fun r => get (ruleId r) "unknown") (concat data) /\
  map fst (compliance_mappings (report self')) =
    map fst (compliance_mappings (report self)).
Proof.
  cbv zeta. revert self. induction data as [|run runs IH]; intros self.
  - cbn [fold_left concat List.filter length map]. rewrite app_nil_r.
    repeat split; lia.
  - cbn [fold_left concat].
    destruct (IH (_process_run self run path)) as (Hs & Ht & Hc & Hd & Hk).
    rewrite Hs, Ht, Hc, Hd, Hk. clear IH Hs Ht Hc Hd Hk.
    unfold _process_run.
    match goal with
    | |- context [fold_left ?f run ?s0] =>
        destruct (fold_results_counts path run s0) as (Hs & Ht & Hc & Hd & Hk)
    end.
    cbv zeta in *. rewrite Hs, Ht, Hc, Hd, Hk.
    cbn [report set_report standards summary total_findings critical_findings
         detailed_findings compliance_mappings].
    rewrite List.filter_app, !length_app, !map_app, <- !app_assoc.
    repeat split; lia.
Qed.

Lemma process_files_counts sarif_dir self :
  let self' := fold_left (fun self file =>
                            match _process_sarif_file self file with
                            | Some self' => self'
                            | None => self
                            end) sarif_dir self in
  standards self' = standards self /\
  total_findings (summary (report self')) =
    total_findings (summary (report self)) + length (all_results sarif_dir) /\
  critical_findings (summary (report self')) =
    critical_findings (summary (report self))
    + length (List.filter
                (fun r => in_list (lower (get (level r) "note")) ["error"; "critical"])
                (all_results sarif_dir)) /\
  map f_rule_id (detailed_findings (report self')) =
    map f_rule_id (detailed_findings (report self))
    ++ map (fun r => get (ruleId r) "unknown") (all_results sarif_dir) /\
  map fst (compliance_mappings (report self')) =
    map fst (compliance_mappings (report self)).
Proof.
  cbv zeta. revert self.
  induction sarif_dir as [|[path [data|]] files IH]; intros self.
  - cbn [fold_left all_results flat_map List.filter length map].
    rewrite app_nil_r. repeat split; lia.
  - cbn [fold_left].
    change (match _process_sarif_file self (path, Some data) with
            | Some self' => self'
            | None => self
            end)
      with (fold_left (fun self run => _process_run self run path) data self).
    destruct (IH (fold_left (fun self run => _process_run self run path) data self))
      as (Hs & Ht & Hc & Hd & Hk).
    rewrite Hs, Ht, Hc, Hd, Hk. clear IH Hs Ht Hc Hd Hk.
    destruct (process_runs_counts path data self) as (Hs & Ht & Hc & Hd & Hk).
    cbv zeta in *. rewrite Hs, Ht, Hc, Hd, Hk.
    change (all_results ((path, Some data) :: files))
      with (concat data ++ all_results files).
    rewrite List.filter_app, !length_app, !map_app, <- !app_assoc.
    repeat split; lia.
  - cbn [fold_left].
    change (match _process_sarif_file self (path, None) with
            | Some self' => self'
            | None => self
            end) with self.
    change (all_results ((path, None) :: files)) with (all_results files).
    apply IH.
Qed.

End ReportCounts.

Section ReportCountClaims.
Import Py Sarif ComplianceReportGenerator.


Lemma dict_mem_keys {V} k (d : dict V) : dict_mem k d = true <-> In k (map fst d).
Proof.
  unfold dict_mem. induction d as [|[k' v] d IH]; cbn [dict_get map fst In].
  - split; [discriminate | tauto].
  - destruct (String.eqb_spec k k') as [->|Hne].
    + split; auto.
    + rewrite IH. split; [auto | intros [H|H]; [congruence | exact H]].
Qed.

Lemma dict_set_keys {V} k (v : V) (d : dict V) :
  map fst (dict_set k v d) = if dict_mem k d then map fst d else map fst d ++ [k].
Proof.
  unfold dict_mem. induction d as [|[k' v'] d IH]; cbn [dict_set dict_get map fst].
  - reflexivity.
  - destruct (String.eqb k k'); cbn [map fst]; [reflexivity|].
    rewrite IH. now destruct (dict_get k d).
Qed.

(** The keys [__init__] creates: the standards, each once. *)
Lemma init_keys standards (d : dict framework_data) :
  List.NoDup (map fst d) ->
  let d' := fold_left (fun cm standard => dict_set standard fresh_framework_data cm)
                      standards d in
  List.NoDup (map fst d') /\
  forall s, In s (map fst d') <-> In s (map fst d) \/ In s standards.
Proof.
  cbv zeta. revert d. induction standards as [|x xs IH]; intros d Hnd.
  - cbn. split; [exact Hnd | tauto].
  - cbn [fold_left].
    assert (Hnd' : List.NoDup (map fst (dict_set x fresh_framework_data d))).
    { rewrite dict_set_keys. destruct (dict_mem x d) eqn:Hm; [exact Hnd|].
      apply List.NoDup_app; [exact Hnd | repeat constructor; cbn; tauto |].
      intros a Ha [<-|[]]. apply dict_mem_keys in Ha. congruence. }
    destruct (IH _ Hnd') as [Hn Hin]. split; [exact Hn|].
    intros s. rewrite Hin, dict_set_keys.
    destruct (dict_mem x d) eqn:Hm.
    + apply dict_mem_keys in Hm. cbn [In]. intuition (subst; auto).
    + rewrite in_app_iff. cbn [In]. tauto.
Qed.

(** The finalized report has exactly one entry per distinct requested
    standard, whatever was processed: findings never add or remove a
    framework. *)
Theorem generate_report_frameworks standards sarif_dir :
  let keys := map fst (compliance_mappings
                         (report (generate_report (__init__ standards) sarif_dir))) in
  List.NoDup keys /\ forall s, In s keys <-> In s standards.
Proof.
  cbv zeta. rewrite generate_report_fold, finalize_compliance_mappings, map_map.
  cbn [fst]. change (map (fun x : string * framework_data => fst x)) with
    (@map (string * framework_data) string fst).
  destruct (process_files_counts sarif_dir (__init__ standards)) as (_ & _ & _ & _ & Hk).
  cbv zeta in Hk. rewrite Hk.
  destruct (init_keys standards [] (List.NoDup_nil _)) as [Hnd Hin].
  split; [exact Hnd|]. intros s. rewrite (Hin s). cbn. tauto.
Qed.

End ReportCountClaims.

(** ** The report generator: invariants of a run *)

Section ReportInvariants.
Import Py Sarif ComplianceReportGenerator.

(** A property that every fold step keeps, that does not read the
    summary and that finalization keeps holds of whatever
    [generate_report] returns. *)
Lemma generate_report_invariant (I : t -> Prop) :
  (forall self result source_file,
      I self -> I (_map_finding_to_compliance self result source_file)) ->
  (forall self es,
      I self ->
      I (set_report self
           {| summary := es;
              compliance_mappings := compliance_mappings (report self);
              detailed_findings := detailed_findings (report self) |})) ->
  (forall self, I self -> I (_finalize_report self)) ->
  forall self sarif_dir, I self -> I (generate_report self sarif_dir).
Proof.
  intros Hfold Hsum Hfin self sarif_dir Hself.
  rewrite generate_report_fold. apply Hfin.
  revert self Hself.
  induction sarif_dir as [|[path [data|]] files IH]; intros self Hself;
    [exact Hself | | apply IH; exact Hself].
  cbn [fold_left]. apply IH.
  change (match _process_sarif_file self (path, Some data) with
          | Some self' => self'
          | None => self
          end)
    with (fold_left (fun self run => _process_run self run path) data self).
  clear IH. revert self Hself.
  induction data as [|run runs IHr]; intros self Hself; [exact Hself|].
  cbn [fold_left]. apply IHr. unfold _process_run.
  match goal with |- I (fold_left _ _ ?s0) => assert (H0 : I s0) by (apply Hsum; exact Hself);
                                              revert H0; generalize s0 end.
  clear Hself. induction run as [|r rs IHrs]; intros s0 H0; [exact H0|].
  cbn [fold_left]. apply IHrs, Hfold, H0.
Qed.

Lemma classify_requested self rule_id level m :
  In m (classify self rule_id level) ->
  In (framework m) (standards self) /\
  In m (Spec.citations (framework m) rule_id level).
Proof.
  rewrite classify_blocks, !in_app_iff.
  intros [H|[H|H]];
    match type of H with
    | In _ (if in_list ?fw ?std then _ else _) =>
        destruct (in_list fw std) eqn:Hreq; [|destruct H];
        apply in_list_true in Hreq;
        rewrite (citations_framework _ _ _ _ H); auto
    end.
Qed.

(** Citations are only ever made for a requested standard: in the
    report of a fresh generator every control cited by a detailed
    finding belongs to one of the standards the generator was created
    with. *)
Theorem only_requested_frameworks_cited standards sarif_dir finding m :
  In finding (detailed_findings
                (report (generate_report (__init__ standards) sarif_dir))) ->
  In m (f_compliance_mappings finding) ->
  In (framework m) standards.
Proof.
  intros Hf Hm.
  assert (Hinv : let self := generate_report (__init__ standards) sarif_dir in
                 ComplianceReportGenerator.standards self = standards /\
                 forall f m', In f (detailed_findings (report self)) ->
                              In m' (f_compliance_mappings f) ->
                              In (framework m') standards).
  { apply (generate_report_invariant
             (fun self => ComplianceReportGenerator.standards self = standards /\
                          forall f m', In f (detailed_findings (report self)) ->
                                       In m' (f_compliance_mappings f) ->
                                       In (framework m') standards)).
    - intros self r sf [Hs Hall].
      destruct (fold_finding self r sf) as (Hs' & _ & _ & _ & _ & _ & Hd).
      cbv zeta in *. split; [congruence|].
      intros f m'. rewrite Hd, in_app_iff. intros [Hin|[<-|[]]]; [now apply Hall|].
      cbn [f_compliance_mappings]. intros Hin.
      apply classify_requested in Hin as [Hin _]. congruence.
    - intros self es H. exact H.
    - intros self H. exact H.
    - split; [reflexivity|]. intros f m' []. }
  cbv zeta in Hinv. destruct Hinv as [_ Hall]. exact (Hall finding m Hf Hm).
Qed.

Lemma only_requested_frameworks_cited_witness :
  let m := Mapping "RBI-IT-Framework" "RBI-IT-4.1.3"
             "Access Control and Authentication" "warning" in
  In (framework m) ["RBI-IT-Framework"; "PCI-DSS"].
Proof.
  cbv zeta.
  apply (only_requested_frameworks_cited ["RBI-IT-Framework"; "PCI-DSS"]
           [("scan.sarif", Some [[Result (Some "Weak-Hash-Session") (Some "warning") None]])]
           (Finding "Weak-Hash-Session" "warning" "" "scan.sarif"
              [Mapping "RBI-IT-Framework" "RBI-IT-4.1.3"
                 "Access Control and Authentication" "warning"]
              "MEDIUM")).
  - left. reflexivity.
  - left. reflexivity.
Defined.

(** Finalizing twice changes nothing more: the statistics are
    recomputed from the per-control counts, which finalization leaves
    alone. *)
Theorem finalize_idempotent self :
  _finalize_report (_finalize_report self) = _finalize_report self.
Proof.
  unfold _finalize_report at 1.
  rewrite finalize_compliance_mappings.
  assert (Hmap : map (fun kv => (fst kv, finalize_framework (snd kv)))
                   (map (fun kv => (fst kv, finalize_framework (snd kv)))
                      (compliance_mappings (report self))) =
                 map (fun kv => (fst kv, finalize_framework (snd kv)))
                   (compliance_mappings (report self))).
  { rewrite map_map. apply map_ext. intros [k d]. reflexivity. }
  rewrite Hmap. reflexivity.
Qed.

End ReportInvariants.

(** ** The report generator: scores *)

Section ReportScores.
Import Py Sarif ComplianceReportGenerator.

Lemma sum_bounds (xs : list Q) (acc : Q) :
  Forall (fun x => 0 <= x <= 100)%Q xs ->
  (acc <= fold_left Qplus xs acc <= acc + 100 * inject_Z (Z.of_nat (length xs)))%Q.
Proof.
  intros Hall. revert acc.
  induction Hall as [|x xs [Hx0 Hx1] _ IH]; intros acc.
  - cbn [fold_left length]. change (inject_Z (Z.of_nat 0)) with 0%Q. lra.
  - cbn [fold_left length]. destruct (IH (acc + x)%Q) as [Hlo Hhi].
    rewrite Nat2Z.inj_succ. unfold Z.succ. rewrite inject_Z_plus.
    change (inject_Z 1) with 1%Q. lra.
Qed.

(** The overall compliance score is a percentage too: it is 100
    without frameworks and otherwise the mean of percentages. *)
Theorem compliance_score_in_range self sarif_dir :
  let es := summary (report (generate_report self sarif_dir)) in
  (0 <= compliance_score es <= 100)%Q.
Proof.
  cbv zeta. destruct (generate_report_finalizes self sarif_dir) as [self' ->].
  unfold _finalize_report.
  cbn [report set_report summary compliance_score].
  set (cm := map (fun kv => (fst kv, finalize_framework (snd kv)))
                 (compliance_mappings (report self'))).
  assert (Hall : Forall (fun x => 0 <= x <= 100)%Q
                        (map compliance_percentage (dict_values cm))).
  { unfold dict_values, cm. rewrite !map_map. apply Forall_map.
    apply List.Forall_forall. intros [k d] _. cbn [snd].
    apply (finalize_framework_spec d). }
  assert (Hlen : length (map compliance_percentage (dict_values cm)) = length cm).
  { unfold dict_values. now rewrite !length_map. }
  destruct cm as [|kv cm'] eqn:Hcm; [lra|]. rewrite <- Hcm in *.
  destruct (sum_bounds _ 0 Hall) as [Hlo Hhi]. rewrite Hlen in Hhi.
  assert (Hn : (0 < inject_Z (Z.of_nat (length cm)))%Q).
  { change 0%Q with (inject_Z 0). rewrite <- Zlt_Qlt. rewrite Hcm. cbn [length]. lia. }
  unfold sum. split.
  - apply Qle_shift_div_l; [exact Hn | lra].
  - apply Qle_shift_div_r; [exact Hn | lra].
Qed.





End ReportScores.

(** ** The report generator: the per-control records *)

Section ControlRecords.
Import Py Sarif ComplianceReportGenerator.

Lemma dict_alter_In {V} (f : V -> V) k (d : dict V) k' v' :
  In (k', v') (dict_alter f k d) ->
  In (k', v') d \/ (k' = k /\ exists v, In (k, v) d /\ v' = f v).
Proof.
  induction d as [|[k0 v0] d IH]; cbn [dict_alter In]; [tauto|].
  destruct (String.eqb_spec k k0) as [<-|Hne]; cbn [In].
  - intros [H|H]; [|tauto]. injection H as <- <-. right. eauto.
  - intros [H|H]; [tauto|]. destruct (IH H) as [H'|(-> & v & Hv & ->)]; [tauto|].
    right. eauto.
Qed.

(** Counting the citations of one finding keeps every record of the
    framework well formed. *)
Lemma fold_count_mapping_well_formed fw rule_id level ms (m : gmap string control_stats) :
  (forall x, In x ms -> In x (Spec.citations fw rule_id level)) ->
  (forall c s, m !! c = Some s ->
     1 <= cs_total_findings s /\ cs_critical_findings s <= cs_total_findings s /\
     exists e, In e (Spec.pattern_table fw) /\ Spec.e_control e = c /\
               Spec.e_description e = cs_description s) ->
  forall c s, fold_left (count_mapping level) ms m !! c = Some s ->
     1 <= cs_total_findings s /\ cs_critical_findings s <= cs_total_findings s /\
     exists e, In e (Spec.pattern_table fw) /\ Spec.e_control e = c /\
               Spec.e_description e = cs_description s.
Proof.
  revert m. induction ms as [|x ms IH]; intros m Hms Hm; [exact Hm|].
  cbn [fold_left]. apply IH; [intros y Hy; apply Hms; now right|].
  intros c s. rewrite count_mapping_lookup.
  generalize (in_list level ["error"; "critical"]). intros critical.
  destruct (decide (c = control x)) as [->|Hne]; [|apply Hm].
  intros Hs. injection Hs as <-. unfold counted.
  destruct (m !! control x) as [s0|] eqn:Hs0.
  - destruct (Hm _ _ Hs0) as (Ht & Hc & He).
    cbn [default cs_total_findings cs_critical_findings cs_description]. unfold id.
    split; [lia|]. split; [|exact He].
    destruct critical; lia.
  - cbn [default cs_total_findings cs_critical_findings cs_description].
    split; [lia|]. split; [destruct critical; lia|].
    destruct (citations_entry fw rule_id level x (Hms x (or_introl eq_refl)))
      as (e & He & Hc & Hd).
    exists e. auto.
Qed.

(** [generate_report] keeps the per-control records well formed. *)
Lemma control_records_invariant self sarif_dir :
  (forall fw data c s,
      In (fw, data) (compliance_mappings (report self)) ->
      findings_by_control data !! c = Some s ->
      1 <= cs_total_findings s /\
      cs_critical_findings s <= cs_total_findings s /\
      exists e, In e (Spec.pattern_table fw) /\ Spec.e_control e = c /\
                Spec.e_description e = cs_description s) ->
  forall fw data c s,
    In (fw, data) (compliance_mappings (report (generate_report self sarif_dir))) ->
    findings_by_control data !! c = Some s ->
    1 <= cs_total_findings s /\
    cs_critical_findings s <= cs_total_findings s /\
    exists e, In e (Spec.pattern_table fw) /\ Spec.e_control e = c /\
              Spec.e_description e = cs_description s.
Proof.
  refine (generate_report_invariant
            (fun self =>
               forall fw data c s,
                 In (fw, data) (compliance_mappings (report self)) ->
                 findings_by_control data !! c = Some s ->
                 1 <= cs_total_findings s /\
                 cs_critical_findings s <= cs_total_findings s /\
                 exists e, In e (Spec.pattern_table fw) /\ Spec.e_control e = c /\
                           Spec.e_description e = cs_description s)
            _ _ _ self sarif_dir).
  - intros self0 r sf Hinv.
    destruct (fold_finding self0 r sf) as (_ & _ & _ & _ & _ & Hm & _).
    cbv zeta in Hm. rewrite Hm. clear Hm.
    pose proof (fun fw ms => requested_block_citations self0
                               (get (ruleId r) "unknown")
                               (lower (get (level r) "note")) fw ms) as Hblocks.
    revert Hblocks Hinv.
    generalize (compliance_mappings (report self0)).
    generalize (requested_blocks self0 (get (ruleId r) "unknown")
                  (lower (get (level r) "note"))).
    intros blocks. induction blocks as [|[bfw ms] blocks IH]; intros cm Hblocks Hinv;
      [exact Hinv|].
    cbn [fold_left fst snd]. apply IH; [intros fw' ms' H; apply Hblocks; now right|].
    intros fw data c s. rewrite update_as_alter. intros Hin.
    apply dict_alter_In in Hin as [Hin|(-> & d0 & Hd0 & ->)]; [now apply Hinv|].
    cbn [set_findings_by_control findings_by_control].
    apply (fold_count_mapping_well_formed bfw (get (ruleId r) "unknown")
             (lower (get (level r) "note"))).
    + intros x Hx. rewrite <- (Hblocks bfw ms (or_introl eq_refl)). exact Hx.
    + intros c' s'. now apply Hinv.
  - intros self0 es Hinv. exact Hinv.
  - intros self0 Hinv fw data c s. rewrite finalize_compliance_mappings, in_map_iff.
    intros ([fw' d] & Heq & Hin). cbn [fst snd] in Heq. injection Heq as <- <-.
    cbn [finalize_framework findings_by_control]. now apply Hinv.
Qed.

Lemma init_records_empty standards fw data :
  In (fw, data) (compliance_mappings (report (__init__ standards))) ->
  findings_by_control data = ∅.
Proof.
  intros Hin.
  pose proof (init_compliance_mappings_fresh standards) as Hfresh.
  rewrite List.Forall_forall in Hfresh. specialize (Hfresh _ Hin).
  cbn [snd] in Hfresh. now subst data.
Qed.

(** Every per-control record of a report made by a fresh generator is
    well formed: it counts at least one finding, not more critical
    findings than findings, and it belongs to a control of its
    framework's pattern table, with that control's description. *)
Theorem control_records_well_formed standards sarif_dir fw data c s :
  In (fw, data) (compliance_mappings
                   (report (generate_report (__init__ standards) sarif_dir))) ->
  findings_by_control data !! c = Some s ->
  1 <= cs_total_findings s /\
  cs_critical_findings s <= cs_total_findings s /\
  exists e, In e (Spec.pattern_table fw) /\ Spec.e_control e = c /\
            Spec.e_description e = cs_description s.
Proof.
  apply control_records_invariant.
  intros fw' data' c' s' Hin. rewrite (init_records_empty _ _ _ Hin), lookup_empty.
  discriminate.
Qed.

Lemma control_records_well_formed_witness :
  let self := generate_report (__init__ ["RBI-IT-Framework"])
                [("scan.sarif",
                  Some [[Result (Some "xss") (Some "error") None;
                         Result (Some "XSS-reflected") (Some "note") None]])] in
  let data := default fresh_framework_data
                (dict_get "RBI-IT-Framework" (compliance_mappings (report self))) in
  let s := ControlStats 2 1 "Application Security - Secure coding practices" in
  1 <= cs_total_findings s /\
  cs_critical_findings s <= cs_total_findings s /\
  exists e, In e (Spec.pattern_table "RBI-IT-Framework") /\
            Spec.e_control e = "RBI-IT-4.2.1" /\
            Spec.e_description e = cs_description s.
Proof.
  cbv zeta.
  apply (control_records_well_formed ["RBI-IT-Framework"]
           [("scan.sarif",
             Some [[Result (Some "xss") (Some "error") None;
                    Result (Some "XSS-reflected") (Some "note") None]])]
           "RBI-IT-Framework"
           (default fresh_framework_data
              (dict_get "RBI-IT-Framework"
                 (compliance_mappings
                    (report (generate_report (__init__ ["RBI-IT-Framework"])
                       [("scan.sarif",
                         Some [[Result (Some "xss") (Some "error") None;
                                Result (Some "XSS-reflected") (Some "note") None]])])))))
           "RBI-IT-4.2.1").
  - left. reflexivity.
  - vm_compute. reflexivity.
Defined.

End ControlRecords.

Section ObservedControls.
Import Py Sarif ComplianceReportGenerator.

(** A framework never observes more controls than its pattern table
    has, so [total_controls] is at most 3 (2 for SEBI-Guidelines); a
    requested standard without a pattern table observes none and stays
    at 100 percent with no failed control, whatever is scanned. *)
Theorem observed_controls_bounded standards sarif_dir fw data :
  In (fw, data) (compliance_mappings
                   (report (generate_report (__init__ standards) sarif_dir))) ->
  size (findings_by_control data) <= length (Spec.pattern_table fw) /\
  total_controls data <= Nat.max 1 (length (Spec.pattern_table fw)) /\
  (Spec.pattern_table fw = [] ->
   findings_by_control data = ∅ /\ failed_controls data = 0 /\
   (compliance_percentage data == 100)%Q).
Proof.
  intros Hin.
  assert (Hrec : forall c s, findings_by_control data !! c = Some s ->
                   exists e, In e (Spec.pattern_table fw) /\ Spec.e_control e = c).
  { intros c s Hs.
    destruct (control_records_invariant (__init__ standards) sarif_dir) with
      (fw := fw) (data := data) (c := c) (s := s) as (_ & _ & e & He & Hc & _);
      [|exact Hin|exact Hs|eauto].
    intros fw' data' c' s' Hin'. rewrite (init_records_empty _ _ _ Hin'), lookup_empty.
    discriminate. }
  assert (Hsize : size (findings_by_control data) <= length (Spec.pattern_table fw)).
  { rewrite <- (length_map Spec.e_control).
    rewrite <- (size_list_to_set (C := gset string)
                  (map Spec.e_control (Spec.pattern_table fw)))
      by (apply NoDup_ListNoDup, pattern_table_NoDup).
    rewrite <- (size_dom (D := gset string)). apply subseteq_size.
    intros c Hc. apply elem_of_dom in Hc as [s Hs].
    destruct (Hrec c s Hs) as (e & He & <-).
    apply elem_of_list_to_set, list_elem_of_In, in_map. exact He. }
  destruct (generate_report_finalizes (__init__ standards) sarif_dir) as [self' Hgen].
  rewrite Hgen, finalize_compliance_mappings, in_map_iff in Hin.
  destruct Hin as ([fw' d] & Heq & _). cbn [fst snd] in Heq. injection Heq as -> <-.
  destruct (finalize_framework_spec d) as (Hfbc & Ht & Hf & _ & _ & _ & Hempty).
  cbv zeta in *. rewrite Hfbc in *.
  split; [exact Hsize|]. split; [rewrite Ht; lia|].
  intros Htable. rewrite Htable in Hsize. cbn [length] in Hsize.
  assert (He : findings_by_control d = ∅) by (apply map_size_empty_iff; lia).
  split; [exact He|]. split; [|now apply Hempty].
  rewrite Hf, He, map_filter_empty. apply map_size_empty.
Qed.

Lemma observed_controls_bounded_witness :
  let self := generate_report (__init__ ["PCI-DSS"; "SEBI-Guidelines"])
                [("scan.sarif",
                  Some [[Result (Some "sql-injection-policy") (Some "error") None]])] in
  let data := default fresh_framework_data
                (dict_get "PCI-DSS" (compliance_mappings (report self))) in
  size (findings_by_control data) <= length (Spec.pattern_table "PCI-DSS") /\
  total_controls data <= Nat.max 1 (length (Spec.pattern_table "PCI-DSS")) /\
  (Spec.pattern_table "PCI-DSS" = [] ->
   findings_by_control data = ∅ /\ failed_controls data = 0 /\
   (compliance_percentage data == 100)%Q).
Proof.
  cbv zeta.
  apply (observed_controls_bounded ["PCI-DSS"; "SEBI-Guidelines"]
           [("scan.sarif",
             Some [[Result (Some "sql-injection-policy") (Some "error") None]])]
           "PCI-DSS").
  left. reflexivity.
Defined.

End ObservedControls.

(** ** The report generator: files in any order, unreadable files *)

Section ReportOrder.
Import Py Sarif ComplianceReportGenerator.

Lemma all_results_readable sarif_dir : all_results (readable sarif_dir) = all_results sarif_dir.
Proof.
  unfold all_results, readable.
  induction sarif_dir as [|[path [data|]] files IH]; cbn [List.filter flat_map snd].
  - reflexivity.
  - now rewrite IH.
  - exact IH.
Qed.

(** A file that cannot be opened or parsed contributes nothing and
    does not disturb the others: the report is the one the readable
    files alone give. *)
Theorem generate_report_skips_unreadable self sarif_dir :
  generate_report self sarif_dir = generate_report self (readable sarif_dir).
Proof.
  rewrite !generate_report_fold. f_equal. revert self.
  induction sarif_dir as [|[path [data|]] files IH]; intros self.
  - reflexivity.
  - cbn [readable List.filter snd fold_left]. apply IH.
  - cbn [readable List.filter snd fold_left].
    change (match _process_sarif_file self (path, None) with
            | Some self' => self'
            | None => self
            end) with self.
    apply IH.
Qed.

(** Two generator states agree on everything the statistics are made
    from, the total count apart. *)
Local Abbreviation same_statistics s1 s2 :=
  (standards s1 = standards s2 /\
   critical_findings (summary (report s1)) = critical_findings (summary (report s2)) /\
   compliance_score (summary (report s1)) = compliance_score (summary (report s2)) /\
   risk_level (summary (report s1)) = risk_level (summary (report s2)) /\
   compliance_mappings (report s1) = compliance_mappings (report s2)).







End ReportOrder.

(** ** The quality gate: counting and the severity gates *)

Section GateCounts.
Import Py Sarif SecurityQualityGates.

Lemma count_level_step a b c d r :
  count_level [("critical", a); ("high", b); ("medium", c); ("low", d)] r =
  [("critical", a + Nat.b2n (String.eqb (get (level r) "note") "error"));
   ("high", b + Nat.b2n (String.eqb (get (level r) "note") "warning"));
   ("medium", c + Nat.b2n (String.eqb (get (level r) "note") "note"));
   ("low", d + Nat.b2n (negb (String.eqb (get (level r) "note") "error")
                        && negb (String.eqb (get (level r) "note") "warning")
                        && negb (String.eqb (get (level r) "note") "note")))].
Proof.
  unfold count_level.
  destruct (String.eqb_spec (get (level r) "note") "error") as [E|He];
    [rewrite ?E
    |destruct (String.eqb_spec (get (level r) "note") "warning") as [E|Hw];
      [rewrite ?E
      |destruct (String.eqb_spec (get (level r) "note") "note") as [E|Hn]]];
    cbn; rewrite ?Nat.add_0_r, ?Nat.add_1_r; reflexivity.
Qed.

Lemma filter_cons_length {A} (f : A -> bool) x (l : list A) :
  length (List.filter f (x :: l)) = Nat.b2n (f x) + length (List.filter f l).
Proof. cbn [List.filter]. now destruct (f x). Qed.

Lemma fold_count_level rs a b c d :
  fold_left count_level rs [("critical", a); ("high", b); ("medium", c); ("low", d)] =
  [("critical",
    a + length (List.filter (fun r => String.eqb (get (level r) "note") "error") rs));
   ("high",
    b + length (List.filter (fun r => String.eqb (get (level r) "note") "warning") rs));
   ("medium",
    c + length (List.filter (fun r => String.eqb (get (level r) "note") "note") rs));
   ("low",
    d + length (List.filter
                  (fun r => negb (String.eqb (get (level r) "note") "error")
                            && negb (String.eqb (get (level r) "note") "warning")
                            && negb (String.eqb (get (level r) "note") "note")) rs))].
Proof.
  revert a b c d. induction rs as [|r rs IH]; intros a b c d.
  - cbn [fold_left List.filter length]. now rewrite !Nat.add_0_r.
  - cbn [fold_left]. rewrite count_level_step, IH, !filter_cons_length.
    now rewrite !Nat.add_assoc.
Qed.

(** The severity counts of any directory. *)
Lemma evaluate_sarif_results_counts self sarif_dir :
  evaluate_sarif_results self sarif_dir =
  (let rs := all_results sarif_dir in
   let findings :=
     [("critical",
       length (List.filter (fun r => String.eqb (get (level r) "note") "error") rs));
      ("high",
       length (List.filter (fun r => String.eqb (get (level r) "note") "warning") rs));
      ("medium",
       length (List.filter (fun r => String.eqb (get (level r) "note") "note") rs));
      ("low",
       length (List.filter
                 (fun r => negb (String.eqb (get (level r) "note") "error")
                           && negb (String.eqb (get (level r) "note") "warning")
                           && negb (String.eqb (get (level r) "note") "note")) rs))] in
   (findings, flat_map (check_severity self) findings)).
Proof.
  unfold evaluate_sarif_results. cbv zeta.
  match goal with
  | |- (?x, flat_map _ ?x) = (?y, flat_map _ ?y) =>
      assert (Hfold : x = y); [|now rewrite Hfold]
  end.
  transitivity (fold_left count_level (all_results sarif_dir)
                  [("critical", 0); ("high", 0); ("medium", 0); ("low", 0)]);
    [|now rewrite fold_count_level].
  generalize [("critical", 0); ("high", 0); ("medium", 0); ("low", 0)].
  induction sarif_dir as [|[path [data|]] files IH]; intros findings.
  - reflexivity.
  - cbn [fold_left snd].
    change (all_results ((path, Some data) :: files))
      with (concat data ++ all_results files).
    rewrite fold_left_app, IH. f_equal. clear IH. revert findings.
    induction data as [|run runs IHr]; intros findings; [reflexivity|].
    cbn [fold_left concat]. now rewrite fold_left_app, IHr.
  - cbn [fold_left snd]. apply IH.
Qed.

End GateCounts.

Section GateClaims.
Import Py Sarif SecurityQualityGates.

(** The quality gate sorts every result of every readable file into
    exactly one severity: level ["error"] is critical, ["warning"] is
    high, ["note"] or no level is medium, and anything else (["none"],
    or a level in capitals) is low; the four counts add up to the
    number of results. *)
Theorem gate_severity_counts self sarif_dir :
  let rs := all_results sarif_dir in
  let findings := fst (evaluate_sarif_results self sarif_dir) in
  findings =
    [("critical",
      length (List.filter (fun r => String.eqb (get (level r) "note") "error") rs));
     ("high",
      length (List.filter (fun r => String.eqb (get (level r) "note") "warning") rs));
     ("medium",
      length (List.filter (fun r => String.eqb (get (level r) "note") "note") rs));
     ("low",
      length (List.filter
                (fun r => negb (String.eqb (get (level r) "note") "error")
                          && negb (String.eqb (get (level r) "note") "warning")
                          && negb (String.eqb (get (level r) "note") "note")) rs))] /\
  list_sum (map snd findings) = length rs.
Proof.
  cbv zeta. rewrite evaluate_sarif_results_counts. cbv zeta. cbn [fst].
  split; [reflexivity|]. cbn [map snd list_sum].
  induction (all_results sarif_dir) as [|r rs IH]; [reflexivity|].
  rewrite !filter_cons_length. cbn [length].
  destruct (String.eqb_spec (get (level r) "note") "error") as [E|He];
    [rewrite ?E
    |destruct (String.eqb_spec (get (level r) "note") "warning") as [E|Hw];
      [rewrite ?E
      |destruct (String.eqb_spec (get (level r) "note") "note") as [E|Hn]]];
    cbn [String.eqb Ascii.eqb Bool.eqb negb andb Nat.b2n];
    unfold list_sum in *; cbn [fold_right] in *; lia.
Qed.

Lemma flat_map_concat {A B} (f : A -> list B) (ls : list (list A)) :
  flat_map f (concat ls) = flat_map (flat_map f) ls.
Proof.
  induction ls as [|l ls IH]; [reflexivity|].
  cbn [concat flat_map]. now rewrite flat_map_app, IH.
Qed.

Lemma found_critical_violations_flat sarif_dir :
  found_critical_violations sarif_dir = flat_map hits_of_result (all_results sarif_dir).
Proof.
  unfold found_critical_violations, all_results.
  induction sarif_dir as [|[path [data|]] files IH]; [reflexivity| |exact IH].
  cbn [flat_map snd]. unfold results_of at 1. cbn [snd].
  now rewrite flat_map_app, flat_map_concat, IH.
Qed.



(** What [run_gates] returns, spelled out. *)
Lemma run_gates_returns quality_gates a sarif_dir :
  exists compliance,
    match arg_compliance_file a with
    | Some file => evaluate_compliance_scores quality_gates file = Returns compliance
    | None => compliance = []
    end /\
    let all := snd (evaluate_sarif_results quality_gates sarif_dir)
               ++ compliance
               ++ check_financial_specific_rules quality_gates sarif_dir in
    run_gates quality_gates a sarif_dir =
    Returns (generate_quality_gate_report quality_gates
               (fst (evaluate_sarif_results quality_gates sarif_dir)) all,
             match List.filter v_fail_build all with
             | [] => 0%Z
             | _ :: _ => 1%Z
             end).
Proof.
  unfold run_gates.
  destruct (evaluate_sarif_results quality_gates sarif_dir) as [findings sec].
  destruct (arg_compliance_file a) as [file|].
  - destruct (evaluate_compliance_scores_returns quality_gates file) as (vs & H & _).
    exists vs. rewrite H. split; [reflexivity|]. cbn [fst snd].
    destruct (List.filter v_fail_build _); reflexivity.
  - exists []. split; [reflexivity|]. cbn [fst snd].
    destruct (List.filter v_fail_build _); reflexivity.
Qed.

(** [main] always writes a report, with the severity violations first,
    then the compliance violations, then the financial one; it exits
    with status 1 exactly when the report's status is FAIL, that is
    when some violation fails the build, and with 0 on PASS and on
    WARNING. *)
Theorem gate_exit_status quality_gates a sarif_dir :
  exists report code,
    run_gates quality_gates a sarif_dir = Returns (report, code) /\
    (exists compliance,
        match arg_compliance_file a with
        | Some file => evaluate_compliance_scores quality_gates file = Returns compliance
        | None => compliance = []
        end /\
        violations report =
          snd (evaluate_sarif_results quality_gates sarif_dir)
          ++ compliance
          ++ check_financial_specific_rules quality_gates sarif_dir) /\
    findings_summary report = fst (evaluate_sarif_results quality_gates sarif_dir) /\
    (code = 1%Z \/ code = 0%Z) /\
    (code = 1%Z <-> quality_gate_status report = "FAIL") /\
    (code = 1%Z <-> exists v, In v (violations report) /\ v_fail_build v = true).
Proof.
  destruct (run_gates_returns quality_gates a sarif_dir) as (comp & Hcomp & Hrun).
  cbv zeta in Hrun. rewrite Hrun. clear Hrun.
  remember (snd (evaluate_sarif_results quality_gates sarif_dir) ++ comp
            ++ check_financial_specific_rules quality_gates sarif_dir)
    as all eqn:Hall.
  pose proof (filter_fail_build_nil all) as Hnil.
  unfold generate_quality_gate_report.
  destruct (List.filter v_fail_build all) as [|v vs] eqn:Hf.
  - assert (Hno : ~ exists v, In v all /\ v_fail_build v = true) by now apply Hnil.
    destruct all as [|w ws]; eexists; exists 0%Z; (split; [reflexivity|]);
      cbn [violations findings_summary quality_gate_status];
      (split; [exists comp; split; [exact Hcomp | exact Hall]|]);
      (split; [reflexivity|]); (split; [auto|]);
      (split; [split; discriminate|]); (split; [discriminate|]);
      intros H; exfalso; exact (Hno H).
  - eexists. exists 1%Z. split; [reflexivity|].
    cbn [violations findings_summary quality_gate_status].
    split; [exists comp; split; [exact Hcomp | exact Hall]|].
    split; [reflexivity|]. split; [auto|].
    split; [tauto|]. split; [|reflexivity]. intros _.
    exists v. apply filter_In. rewrite Hf. now left.
Qed.

(** Unreadable files change nothing for the gate either. *)
Theorem gate_skips_unreadable quality_gates a sarif_dir :
  run_gates quality_gates a sarif_dir = run_gates quality_gates a (readable sarif_dir).
Proof.
  unfold run_gates, check_financial_specific_rules.
  rewrite !evaluate_sarif_results_counts, !found_critical_violations_flat.
  now rewrite all_results_readable.
Qed.

End GateClaims.

(** ** The quality gate: what can and cannot fail a build *)

Section GateFailures.
Import Py Sarif SecurityQualityGates.

Lemma run_gates_exit_one quality_gates a sarif_dir :
  (exists report, run_gates quality_gates a sarif_dir = Returns (report, 1%Z)) <->
  exists compliance,
    match arg_compliance_file a with
    | Some file => evaluate_compliance_scores quality_gates file = Returns compliance
    | None => compliance = []
    end /\
    exists v, In v (snd (evaluate_sarif_results quality_gates sarif_dir)
                    ++ compliance
                    ++ check_financial_specific_rules quality_gates sarif_dir) /\
              v_fail_build v = true.
Proof.
  destruct (run_gates_returns quality_gates a sarif_dir) as (comp & Hcomp & Hrun).
  cbv zeta in Hrun. rewrite Hrun. clear Hrun.
  remember (snd (evaluate_sarif_results quality_gates sarif_dir) ++ comp
            ++ check_financial_specific_rules quality_gates sarif_dir)
    as all eqn:Hall.
  pose proof (filter_fail_build_nil all) as Hnil.
  destruct (List.filter v_fail_build all) as [|w ws] eqn:Hf.
  - split.
    + intros [report Hr]. discriminate.
    + intros (comp' & Hcomp' & v & Hv & Hfb).
      assert (comp' = comp) as -> by (destruct (arg_compliance_file a); congruence).
      rewrite <- Hall in Hv. exfalso. apply (proj1 Hnil eq_refl). eauto.
  - split.
    + intros _. exists comp. split; [exact Hcomp|]. rewrite <- Hall.
      exists w. apply filter_In. rewrite Hf. now left.
    + intros _. eexists. reflexivity.
Qed.




(** A malformed entry of the compliance file ends the checks: the
    frameworks listed before it are checked as usual, those listed
    after it are silently not checked at all. *)
Theorem malformed_score_stops_checks self before framework after :
  Forall (fun item => snd item <> Malformed) before ->
  evaluate_compliance_scores self (Some (before ++ (framework, Malformed) :: after)) =
  evaluate_compliance_scores self (Some before) /\
  evaluate_compliance_scores self (Some before) =
  Returns (flat_map (fun item => check_score self (fst item)
                                   (default 0%Q (score_of (snd item)))) before).
Proof.
  intros Hwf. unfold evaluate_compliance_scores.
  rewrite (score_loop_well_formed self before [] Hwf).
  split; [|reflexivity]. f_equal.
  generalize (@nil violation). induction Hwf as [|[fw sd] items Hsd _ IH]; intros vs.
  - cbn. now rewrite app_nil_r.
  - cbn [app score_loop flat_map fst snd]. cbn [snd] in Hsd.
    destruct sd; cbn [score_of default from_option id]; try congruence;
      rewrite IH, app_assoc; reflexivity.
Qed.

Lemma malformed_score_stops_checks_witness :
  evaluate_compliance_scores __init__
    (Some ([("iso27001", Score 70)] ++ ("sebi", Malformed) :: [("rbi", Score 10)])) =
  evaluate_compliance_scores __init__ (Some [("iso27001", Score 70)]) /\
  evaluate_compliance_scores __init__ (Some [("iso27001", Score 70)]) =
  Returns (flat_map (fun item => check_score __init__ (fst item)
                                   (default 0%Q (score_of (snd item))))
                    [("iso27001", Score 70)]).
Proof.
  apply (malformed_score_stops_checks __init__ [("iso27001", Score 70)] "sebi"
           [("rbi", Score 10)]).
  repeat constructor. discriminate.
Defined.

End GateFailures.

Section GateMonotone.
Import Py Sarif SecurityQualityGates.

Lemma all_results_app dir1 dir2 :
  all_results (dir1 ++ dir2) = all_results dir1 ++ all_results dir2.
Proof. unfold all_results. apply flat_map_app. Qed.

(** A gate exceeded by a count is exceeded by any larger count, with
    the same verdict. *)
Lemma check_severity_monotone self severity n n' v :
  n <= n' ->
  In v (check_severity self (severity, n)) -> v_fail_build v = true ->
  exists v', In v' (check_severity self (severity, n')) /\ v_fail_build v' = true.
Proof.
  intros Hle. unfold check_severity.
  destruct (max_allowed (default empty_gate (quality_gates self !! severity)))
    as [m|] eqn:Hm; cbn [exceeds]; [|intros []].
  destruct (Z.ltb_spec m (Z.of_nat n)) as [Hlt|Hge]; [|intros []].
  intros [<-|[]] Hfb. cbn [v_fail_build] in Hfb.
  destruct (Z.ltb_spec m (Z.of_nat n')) as [_|Hge]; [|lia].
  eexists. split; [left; reflexivity | exact Hfb].
Qed.

(** More result files never turn a failing gate into a passing one:
    if [main] exits with 1 on a directory, it exits with 1 on that
    directory with further files added. *)
Theorem gate_failure_is_monotone quality_gates a sarif_dir more :
  (exists report, run_gates quality_gates a sarif_dir = Returns (report, 1%Z)) ->
  exists report, run_gates quality_gates a (sarif_dir ++ more) = Returns (report, 1%Z).
Proof.
  rewrite !run_gates_exit_one.
  intros (comp & Hcomp & v & Hv & Hfb). exists comp. split; [exact Hcomp|].
  rewrite !in_app_iff in Hv.
  destruct Hv as [Hv|[Hv|Hv]].
  - rewrite evaluate_sarif_results_counts in Hv. cbv zeta in Hv. cbn [snd flat_map] in Hv.
    rewrite !in_app_iff in Hv.
    assert (Hsec : exists v', In v' (snd (evaluate_sarif_results quality_gates
                                           (sarif_dir ++ more))) /\
                              v_fail_build v' = true).
    { rewrite evaluate_sarif_results_counts. cbv zeta. cbn [snd flat_map].
      rewrite all_results_app, !List.filter_app, !length_app.
      destruct Hv as [H|[H|[H|[H|[]]]]];
        match type of H with
        | In _ (check_severity _ (?sev, ?n)) =>
            match goal with
            | |- context [check_severity _ (sev, n + ?k)] =>
                destruct (check_severity_monotone quality_gates sev n (n + k) v
                            (Nat.le_add_r n k) H Hfb) as (v' & Hv' & Hfb')
            end
        end;
        exists v'; (split; [|exact Hfb']); rewrite !in_app_iff; tauto. }
    destruct Hsec as (v' & Hv' & Hfb'). exists v'. rewrite !in_app_iff. tauto.
  - exists v. rewrite !in_app_iff. tauto.
  - unfold check_financial_specific_rules in *.
    rewrite found_critical_violations_flat in *.
    rewrite all_results_app, flat_map_app.
    destruct (flat_map hits_of_result (all_results sarif_dir)) as [|h hs]; [destruct Hv|].
    eexists. split; [rewrite !in_app_iff; right; right; left; reflexivity|reflexivity].
Qed.

Lemma gate_failure_is_monotone_witness :
  exists report,
    run_gates __init__ (Args None true true 5)
      ([("a.sarif", Some [[Result (Some "xss") (Some "warning") None]])]
       ++ [("b.sarif", Some [[Result None None None]]); ("c.sarif", None)]) =
    Returns (report, 1%Z).
Proof.
  apply (gate_failure_is_monotone __init__ (Args None true true 5)
           [("a.sarif", Some [[Result (Some "xss") (Some "warning") None]])]
           [("b.sarif", Some [[Result None None None]]); ("c.sarif", None)]).
  eexists. vm_compute. reflexivity.
Defined.

End GateMonotone.

(** ** The gate and the report generator side by side *)

Section GateAndReport.
Import Py Sarif.



(** The difference shows on a level written in capitals. *)
Example capital_error_counts_differ :
  let sarif_dir := [("scan.sarif", Some [[Result (Some "xss") (Some "ERROR") None]])] in
  dict_get "critical"
    (fst (SecurityQualityGates.evaluate_sarif_results
            SecurityQualityGates.__init__ sarif_dir)) = Some 0 /\
  dict_get "low"
    (fst (SecurityQualityGates.evaluate_sarif_results
            SecurityQualityGates.__init__ sarif_dir)) = Some 1 /\
  ComplianceReportGenerator.critical_findings
    (ComplianceReportGenerator.summary
       (ComplianceReportGenerator.report
          (ComplianceReportGenerator.generate_report
             (ComplianceReportGenerator.__init__ ["ISO27001"]) sarif_dir))) = 1.
Proof. repeat split. Qed.

End GateAndReport.

(** ** process-sarif.py: lookups and summary *)

Section Processor.
Import Py Sarif SARIFProcessor.

Lemma first_match_none items rule_id mk :
  first_match items rule_id mk = None <->
  any_in (map fst items) (lower rule_id) = false.
Proof.
  unfold any_in. induction items as [|[p m] items IH]; cbn [first_match map fst existsb].
  - tauto.
  - destruct (contains p (lower rule_id)); cbn [orb]; [split; discriminate | exact IH].
Qed.

Lemma first_match_some items rule_id mk c :
  first_match items rule_id mk = Some c ->
  exists before pattern mapping after,
    items = before ++ (pattern, mapping) :: after /\
    any_in (map fst before) (lower rule_id) = false /\
    contains pattern (lower rule_id) = true /\
    c = mk mapping.
Proof.
  induction items as [|[p m] items IH]; cbn [first_match]; [discriminate|].
  destruct (contains p (lower rule_id)) eqn:Hp.
  - intros H. injection H as <-. exists [], p, m, items. auto.
  - intros H. destruct (IH H) as (before & p' & m' & after & -> & Hb & Hp' & ->).
    exists ((p, m) :: before), p', m', after.
    split; [reflexivity|]. split; [|auto].
    unfold any_in in *. cbn [map fst existsb]. now rewrite Hp.
Qed.

(** The lookups of [process-sarif.py] are first-match: a rule id gets
    no RBI control exactly when none of the table's patterns occurs in
    its lowercased form, and otherwise the control of the first pattern,
    in table order, that occurs, whatever later patterns occur as
    well.  The ISO 27001 and SEBI lookups behave the same on their
    tables. *)
Theorem processor_lookup_first_match self rule_id :
  (get_rbi_mapping self rule_id = None <->
   any_in (map fst (rbi_mappings self)) (lower rule_id) = false) /\
  (get_iso27001_mapping self rule_id = None <->
   any_in (map fst (iso27001_mappings self)) (lower rule_id) = false) /\
  (get_sebi_mapping self rule_id = None <->
   any_in (map fst (sebi_mappings self)) (lower rule_id) = false) /\
  (forall c,
      get_rbi_mapping self rule_id = Some c ->
      exists before pattern after,
        rbi_mappings self = before ++ (pattern, control c) :: after /\
        any_in (map fst before) (lower rule_id) = false /\
        contains pattern (lower rule_id) = true) /\
  (forall c,
      get_iso27001_mapping self rule_id = Some c ->
      exists before pattern after,
        iso27001_mappings self = before ++ (pattern, control c) :: after /\
        any_in (map fst before) (lower rule_id) = false /\
        contains pattern (lower rule_id) = true) /\
  (forall c,
      get_sebi_mapping self rule_id = Some c ->
      exists before pattern after,
        sebi_mappings self = before ++ (pattern, control c) :: after /\
        any_in (map fst before) (lower rule_id) = false /\
        contains pattern (lower rule_id) = true).
Proof.
  unfold get_rbi_mapping, get_iso27001_mapping, get_sebi_mapping.
  split; [apply first_match_none|]. split; [apply first_match_none|].
  split; [apply first_match_none|].
  split; [|split];
    intros c H; apply first_match_some in H as (before & p & m & after & Hi & Hb & Hp & ->);
    exists before, p, after; auto.
Qed.


Lemma tally_fold results a b c d x y z k h :
  fold_left tally_result results
    {| t_by_severity := [("critical", a); ("high", b); ("medium", c); ("low", d)];
       t_by_framework := [("rbi", x); ("iso27001", y); ("sebi", z)];
       critical_count := k;
       high_count := h |} =
  {| t_by_severity :=
       [("critical", a + length (List.filter (fun p => String.eqb (p_level p) "error") results));
        ("high", b + length (List.filter (fun p => String.eqb (p_level p) "warning") results));
        ("medium", c + length (List.filter (fun p => String.eqb (p_level p) "note") results));
        ("low", d + length (List.filter
                             (fun p => negb (String.eqb (p_level p) "error")
                                       && negb (String.eqb (p_level p) "warning")
                                       && negb (String.eqb (p_level p) "note")) results))];
     t_by_framework :=
       [("rbi", x + length (List.filter (fun p => truthy (p_rbi p)) results));
        ("iso27001", y + length (List.filter (fun p => truthy (p_iso27001 p)) results));
        ("sebi", z + length (List.filter (fun p => truthy (p_sebi p)) results))];
     critical_count :=
       k + length (List.filter (fun p => String.eqb (p_level p) "error") results);
     high_count :=
       h + length (List.filter (fun p => String.eqb (p_level p) "warning") results) |}.
Proof.
  revert a b c d x y z k h. induction results as [|p ps IH]; intros a b c d x y z k h.
  - cbn [fold_left List.filter length]. now rewrite !Nat.add_0_r.
  - cbn [fold_left]. rewrite !filter_cons_length.
    assert (Hstep :
      tally_result
        {| t_by_severity := [("critical", a); ("high", b); ("medium", c); ("low", d)];
           t_by_framework := [("rbi", x); ("iso27001", y); ("sebi", z)];
           critical_count := k;
           high_count := h |} p =
      {| t_by_severity :=
           [("critical", a + Nat.b2n (String.eqb (p_level p) "error"));
            ("high", b + Nat.b2n (String.eqb (p_level p) "warning"));
            ("medium", c + Nat.b2n (String.eqb (p_level p) "note"));
            ("low", d + Nat.b2n (negb (String.eqb (p_level p) "error")
                                 && negb (String.eqb (p_level p) "warning")
                                 && negb (String.eqb (p_level p) "note")))];
         t_by_framework :=
           [("rbi", x + Nat.b2n (truthy (p_rbi p)));
            ("iso27001", y + Nat.b2n (truthy (p_iso27001 p)));
            ("sebi", z + Nat.b2n (truthy (p_sebi p)))];
         critical_count := k + Nat.b2n (String.eqb (p_level p) "error");
         high_count := h + Nat.b2n (String.eqb (p_level p) "warning") |}).
    { unfold tally_result.
      destruct (truthy (p_rbi p)), (truthy (p_iso27001 p)), (truthy (p_sebi p));
        (destruct (String.eqb_spec (p_level p) "error") as [E|He];
         [rewrite ?E
         |destruct (String.eqb_spec (p_level p) "warning") as [E|Hw];
          [rewrite ?E
          |destruct (String.eqb_spec (p_level p) "note") as [E|Hn]]]);
        cbn; rewrite ?Nat.add_0_r, ?Nat.add_1_r; reflexivity. }
    rewrite Hstep, IH. now rewrite !Nat.add_assoc.
Qed.

End Processor.

Section ProcessorClaims.
Import Py Sarif SARIFProcessor.

(** The summary of [process-sarif.py] counts every processed result
    once by severity (["error"] critical, ["warning"] high, ["note"]
    medium, any other level low), so the four counts add up to
    [total_findings]; each framework count is the number of results
    that got a control of that framework and is at most
    [total_findings]. *)
Theorem processor_summary_counts self results :
  let s := generate_compliance_summary self results in
  total_findings s = length results /\
  by_severity s =
    [("critical", length (List.filter (fun p => String.eqb (p_level p) "error") results));
     ("high", length (List.filter (fun p => String.eqb (p_level p) "warning") results));
     ("medium", length (List.filter (fun p => String.eqb (p_level p) "note") results));
     ("low", length (List.filter
                       (fun p => negb (String.eqb (p_level p) "error")
                                 && negb (String.eqb (p_level p) "warning")
                                 && negb (String.eqb (p_level p) "note")) results))] /\
  list_sum (map snd (by_severity s)) = total_findings s /\
  by_framework s =
    [("rbi", length (List.filter (fun p => truthy (p_rbi p)) results));
     ("iso27001", length (List.filter (fun p => truthy (p_iso27001 p)) results));
     ("sebi", length (List.filter (fun p => truthy (p_sebi p)) results))] /\
  Forall (fun kv => snd kv <= total_findings s) (by_framework s).
Proof.
  cbv zeta. unfold generate_compliance_summary. rewrite tally_fold.
  cbn [total_findings by_severity by_framework t_by_severity t_by_framework Nat.add].
  split; [reflexivity|]. split; [reflexivity|]. split; [|split; [reflexivity|]].
  - cbn [map snd]. unfold list_sum. cbn [fold_right].
    induction results as [|p ps IH]; [reflexivity|].
    rewrite !filter_cons_length. cbn [length].
    destruct (String.eqb_spec (p_level p) "error") as [E|He];
      [rewrite ?E
      |destruct (String.eqb_spec (p_level p) "warning") as [E|Hw];
        [rewrite ?E
        |destruct (String.eqb_spec (p_level p) "note") as [E|Hn]]];
      cbn [String.eqb Ascii.eqb Bool.eqb negb andb Nat.b2n]; lia.
  - repeat constructor; cbn [snd]; apply filter_length_le.
Qed.


End ProcessorClaims.

(** ** Two scripts, one severity scale *)

Section SeverityScale.
Import Py Sarif.


End SeverityScale.

(** ** Case of the rule id *)

Section RuleIdCase.
Import Py Sarif.

Lemma lower_ascii_idempotent c : lower_ascii (lower_ascii c) = lower_ascii c.
Proof. destruct c as [[] [] [] [] [] [] [] []]; reflexivity. Qed.

Lemma lower_idempotent s : lower (lower s) = lower s.
Proof.
  induction s as [|c s IH]; [reflexivity|].
  cbn [lower]. now rewrite lower_ascii_idempotent, IH.
Qed.

(** Every matcher of the three scripts reads a rule id through its
    lowercased form only: two rule ids that differ in case alone get
    the same citations from the report generator, the same controls
    from the lookups of [process-sarif.py] and match the same critical
    financial rules; in particular a rule id and its lowercased form
    are treated alike. *)
Theorem rule_id_case_is_ignored generator processor rule_id rule_id' level :
  lower rule_id = lower rule_id' ->
  ComplianceReportGenerator.classify generator rule_id level =
    ComplianceReportGenerator.classify generator rule_id' level /\
  SARIFProcessor.get_rbi_mapping processor rule_id =
    SARIFProcessor.get_rbi_mapping processor rule_id' /\
  SARIFProcessor.get_iso27001_mapping processor rule_id =
    SARIFProcessor.get_iso27001_mapping processor rule_id' /\
  SARIFProcessor.get_sebi_mapping processor rule_id =
    SARIFProcessor.get_sebi_mapping processor rule_id' /\
  map SecurityQualityGates.hit_rule
      (SecurityQualityGates.hits_of_result (Result (Some rule_id) None None)) =
    map SecurityQualityGates.hit_rule
      (SecurityQualityGates.hits_of_result (Result (Some rule_id') None None)) /\
  ComplianceReportGenerator.classify generator (lower rule_id) level =
    ComplianceReportGenerator.classify generator rule_id level.
Proof.
  intros Hlower.
  assert (Hclassify : forall r r', lower r = lower r' ->
            ComplianceReportGenerator.classify generator r level =
            ComplianceReportGenerator.classify generator r' level).
  { intros r r' H. rewrite !classify_blocks.
    unfold Spec.citations, Spec.matches. now rewrite H. }
  assert (Hfirst : forall items mk,
            SARIFProcessor.first_match items rule_id mk =
            SARIFProcessor.first_match items rule_id' mk).
  { intros items mk. induction items as [|[p m] items IH]; [reflexivity|].
    cbn [SARIFProcessor.first_match]. now rewrite Hlower, IH. }
  split; [now apply Hclassify|].
  unfold SARIFProcessor.get_rbi_mapping, SARIFProcessor.get_iso27001_mapping,
         SARIFProcessor.get_sebi_mapping.
  split; [apply Hfirst|]. split; [apply Hfirst|]. split; [apply Hfirst|].
  split.
  - unfold SecurityQualityGates.hits_of_result. cbn [ruleId get].
    rewrite !map_map. cbn [SecurityQualityGates.hit_rule]. now rewrite Hlower.
  - apply Hclassify, lower_idempotent.
Qed.

Lemma rule_id_case_is_ignored_witness :
  let generator := ComplianceReportGenerator.__init__ ["ISO27001"; "RBI-IT-Framework"] in
  let processor := SARIFProcessor.__init__ in
  ComplianceReportGenerator.classify generator "Java/SQL-Injection" "error" =
    ComplianceReportGenerator.classify generator "java/sql-INJECTION" "error" /\
  SARIFProcessor.get_rbi_mapping processor "Java/SQL-Injection" =
    SARIFProcessor.get_rbi_mapping processor "java/sql-INJECTION" /\
  SARIFProcessor.get_iso27001_mapping processor "Java/SQL-Injection" =
    SARIFProcessor.get_iso27001_mapping processor "java/sql-INJECTION" /\
  SARIFProcessor.get_sebi_mapping processor "Java/SQL-Injection" =
    SARIFProcessor.get_sebi_mapping processor "java/sql-INJECTION" /\
  map SecurityQualityGates.hit_rule
      (SecurityQualityGates.hits_of_result (Result (Some "Java/SQL-Injection") None None)) =
    map SecurityQualityGates.hit_rule
      (SecurityQualityGates.hits_of_result (Result (Some "java/sql-INJECTION") None None)) /\
  ComplianceReportGenerator.classify generator (lower "Java/SQL-Injection") "error" =
    ComplianceReportGenerator.classify generator "Java/SQL-Injection" "error".
Proof.
  cbv zeta.
  apply (rule_id_case_is_ignored
           (ComplianceReportGenerator.__init__ ["ISO27001"; "RBI-IT-Framework"])
           SARIFProcessor.__init__ "Java/SQL-Injection" "java/sql-INJECTION" "error").
  reflexivity.
Defined.

End RuleIdCase.

(** ** The consolidated compliance report *)

Section Reporter.
Import Py BFSIComplianceReporter.

Lemma dict_get_set {V} k k' (v : V) (d : dict V) :
  dict_get k (dict_set k' v d) = if String.eqb k k' then Some v else dict_get k d.
Proof.
  induction d as [|[k0 v0] d IH]; cbn [dict_set dict_get].
  - reflexivity.
  - destruct (String.eqb_spec k' k0) as [<-|Hne]; cbn [dict_get].
    + destruct (String.eqb k k'); reflexivity.
    + rewrite IH. destruct (String.eqb_spec k k0) as [->|Hne'].
      * destruct (String.eqb_spec k0 k'); [congruence | reflexivity].
      * reflexivity.
Qed.

(** Before any report is read every selected framework is present with
    status ["unknown"], and no other framework is. *)
Lemma initial_compliance_data (v : entry) keys k :
  forall d,
    dict_get k (fold_left (fun d framework => dict_set framework v d) keys d) =
    if in_list k keys then Some v else dict_get k d.
Proof.
  induction keys as [|x xs IH]; intros d; cbn [fold_left in_list existsb].
  - reflexivity.
  - rewrite IH, dict_get_set. unfold in_list.
    destruct (existsb (String.eqb k) xs); [now rewrite orb_true_r|].
    rewrite orb_false_r. reflexivity.
Qed.

Lemma set_status_get key st cd k :
  dict_get k (set_status key st cd) =
  if String.eqb k key
  then option_map (fun e => {| status := st; score := score e; checks := checks e;
                               recommendations := recommendations e |})
                  (dict_get k cd)
  else dict_get k cd.
Proof.
  unfold set_status. destruct (dict_mem key cd) eqn:Hmem; [apply dict_get_alter|].
  destruct (String.eqb_spec k key) as [->|_]; [|reflexivity].
  unfold dict_mem in Hmem. now destruct (dict_get key cd).
Qed.

(** The score of a framework after one more report file. *)
Lemma load_report_score self key (test : string -> bool) cd file :
  (forall st cd',
      dict_get key
        (if contains "rbi" (lower (file_name file)) then set_status "RBI" st cd'
         else if contains "sebi" (lower (file_name file)) then set_status "SEBI" st cd'
         else if contains "irdai" (lower (file_name file)) then set_status "IRDAI" st cd'
         else cd') =
      if test (lower (file_name file))
      then option_map (fun e => {| status := st; score := score e; checks := checks e;
                                   recommendations := recommendations e |})
                      (dict_get key cd')
      else dict_get key cd') ->
  calculate_compliance_score self key (load_report cd file) =
  match content file with
  | Some text =>
      if test (lower (file_name file)) && dict_mem key cd
      then if existsb (N.eqb check_mark) text then 95%Z else 65%Z
      else calculate_compliance_score self key cd
  | None => calculate_compliance_score self key cd
  end /\
  dict_mem key (load_report cd file) = dict_mem key cd.
Proof.
  intros Hbranch. unfold load_report, calculate_compliance_score, dict_mem.
  destruct (content file) as [text|]; [|split; reflexivity].
  cbv zeta. rewrite Hbranch.
  destruct (test (lower (file_name file))); [|split; reflexivity].
  destruct (dict_get key cd) as [e|]; cbn [option_map andb status]; [|split; reflexivity].
  destruct (existsb (N.eqb check_mark) text); split; reflexivity.
Qed.

Lemma last_cons {A} (x : A) l d : List.last (x :: l) d = List.last l x.
Proof.
  revert x d. induction l as [|y l IH]; intros x d; [reflexivity|].
  change (List.last (x :: y :: l) d) with (List.last (y :: l) d). now rewrite !IH.
Qed.

(** Folding the report files: the last relevant readable file decides. *)
Lemma load_reports_score self key (test : string -> bool) files :
  (forall file st cd',
      dict_get key
        (if contains "rbi" (lower (file_name file)) then set_status "RBI" st cd'
         else if contains "sebi" (lower (file_name file)) then set_status "SEBI" st cd'
         else if contains "irdai" (lower (file_name file)) then set_status "IRDAI" st cd'
         else cd') =
      if test (lower (file_name file))
      then option_map (fun e => {| status := st; score := score e; checks := checks e;
                                   recommendations := recommendations e |})
                      (dict_get key cd')
      else dict_get key cd') ->
  forall cd,
    calculate_compliance_score self key (fold_left load_report files cd) =
    if dict_mem key cd
    then List.last (flat_map
                 (fun file =>
                    match content file with
                    | Some text =>
                        if test (lower (file_name file))
                        then [if existsb (N.eqb check_mark) text then 95%Z else 65%Z]
                        else []
                    | None => []
                    end) files)
              (calculate_compliance_score self key cd)
    else calculate_compliance_score self key cd.
Proof.
  intros Hbranch. induction files as [|file files IH]; intros cd.
  - cbn. now destruct (dict_mem key cd).
  - cbn [fold_left flat_map]. rewrite IH.
    destruct (load_report_score self key test cd file (Hbranch file)) as [Hscore Hmem].
    rewrite Hmem, Hscore.
    destruct (dict_mem key cd); [|destruct (content file) as [text|];
                                   [now rewrite andb_false_r | reflexivity]].
    destruct (content file) as [text|]; [|reflexivity].
    rewrite andb_true_r.
    destruct (test (lower (file_name file))); [|reflexivity].
    cbn [app]. now rewrite last_cons.
Qed.

Lemma dict_mem_in_list {V} k (d : dict V) : dict_mem k d = in_list k (map fst d).
Proof.
  unfold dict_mem, in_list. induction d as [|[k' v] d IH]; cbn [dict_get map fst existsb].
  - reflexivity.
  - destruct (String.eqb k k'); [reflexivity | exact IH].
Qed.

Lemma initial_score self (v : entry) key keys :
  status v = "unknown" ->
  calculate_compliance_score self key
    (fold_left (fun d framework => dict_set framework v d) keys []) = 85%Z.
Proof.
  intros Hv. unfold calculate_compliance_score.
  rewrite initial_compliance_data.
  destruct (in_list key keys); cbn [dict_get]; rewrite ?Hv; reflexivity.
Qed.

Lemma initial_mem (v : entry) key keys :
  dict_mem key (fold_left (fun d framework => dict_set framework v d) keys []) =
  in_list key keys.
Proof.
  unfold dict_mem. rewrite initial_compliance_data.
  now destruct (in_list key keys).
Qed.

(** What one report file does to the entry of [key]. *)
Lemma load_report_get key cd file :
  dict_get key (load_report cd file) = dict_get key cd \/
  exists st e,
    (st = "compliant" \/ st = "non-compliant") /\
    dict_get key cd = Some e /\
    dict_get key (load_report cd file) =
    Some {| status := st; score := score e; checks := checks e;
            recommendations := recommendations e |}.
Proof.
  unfold load_report. destruct (content file) as [text|]; [|now left]. cbv zeta.
  set (st := if existsb (N.eqb check_mark) text then "compliant" else "non-compliant").
  assert (Hst : st = "compliant" \/ st = "non-compliant").
  { subst st. destruct (existsb (N.eqb check_mark) text); auto. }
  assert (Hset : forall k,
             dict_get key (set_status k st cd) = dict_get key cd \/
             exists st' e,
               (st' = "compliant" \/ st' = "non-compliant") /\
               dict_get key cd = Some e /\
               dict_get key (set_status k st cd) =
               Some {| status := st'; score := score e; checks := checks e;
                       recommendations := recommendations e |}).
  { intros k. rewrite set_status_get.
    destruct (String.eqb key k); [|now left].
    destruct (dict_get key cd) as [e|]; [|now left].
    right. exists st, e. split; [exact Hst | split; reflexivity]. }
  destruct (contains "rbi" (lower (file_name file))); [apply Hset|].
  destruct (contains "sebi" (lower (file_name file))); [apply Hset|].
  destruct (contains "irdai" (lower (file_name file))); [apply Hset|].
  now left.
Qed.

Lemma load_report_keys cd file : map fst (load_report cd file) = map fst cd.
Proof.
  assert (Hset : forall k st, map fst (set_status k st cd) = map fst cd).
  { intros k st. unfold set_status.
    destruct (dict_mem k cd); [apply dict_keys_alter | reflexivity]. }
  unfold load_report. destruct (content file) as [text|]; [|reflexivity]. cbv zeta.
  destruct (contains "rbi" (lower (file_name file))); [apply Hset|].
  destruct (contains "sebi" (lower (file_name file))); [apply Hset|].
  destruct (contains "irdai" (lower (file_name file))); [apply Hset | reflexivity].
Qed.

Lemma load_reports_keys files :
  forall cd, map fst (fold_left load_report files cd) = map fst cd.
Proof.
  induction files as [|file files IH]; intros cd; [reflexivity|].
  cbn [fold_left]. now rewrite IH, load_report_keys.
Qed.

Lemma initial_keys_NoDup (v : entry) keys :
  forall d, List.NoDup (map fst d) ->
            List.NoDup (map fst (fold_left (fun d framework => dict_set framework v d)
                                           keys d)).
Proof.
  induction keys as [|x xs IH]; intros d Hnd; [exact Hnd|].
  cbn [fold_left]. apply IH. rewrite dict_set_keys.
  destruct (dict_mem x d) eqn:Hm; [exact Hnd|].
  apply List.NoDup_app; [exact Hnd | repeat constructor; cbn; tauto |].
  intros a Ha [<-|[]]. apply dict_mem_keys in Ha. congruence.
Qed.

Lemma load_compliance_reports_NoDup self files :
  List.NoDup (map fst (load_compliance_reports self files)).
Proof.
  unfold load_compliance_reports. cbv zeta. rewrite load_reports_keys.
  apply initial_keys_NoDup. constructor.
Qed.

(** A report file leaves the entries of all keys but the three alone. *)
Lemma load_reports_other key files :
  in_list key ["RBI"; "SEBI"; "IRDAI"] = false ->
  forall cd, dict_get key (fold_left load_report files cd) = dict_get key cd.
Proof.
  intros Hfw. unfold in_list in Hfw. cbn [existsb] in Hfw.
  rewrite orb_false_r in Hfw.
  apply orb_false_iff in Hfw as [Hrbi Hfw]. apply orb_false_iff in Hfw as [Hsebi Hirdai].
  induction files as [|file files IH]; intros cd; [reflexivity|].
  cbn [fold_left]. rewrite IH. unfold load_report.
  destruct (content file) as [text|]; [|reflexivity]. cbv zeta.
  destruct (contains "rbi" (lower (file_name file)));
    [now rewrite set_status_get, Hrbi|].
  destruct (contains "sebi" (lower (file_name file)));
    [now rewrite set_status_get, Hsebi|].
  destruct (contains "irdai" (lower (file_name file)));
    [now rewrite set_status_get, Hirdai | reflexivity].
Qed.

Lemma dict_get_In {V} k (v : V) (d : dict V) : dict_get k d = Some v -> In (k, v) d.
Proof.
  induction d as [|[k' v'] d IH]; cbn [dict_get In]; [discriminate|].
  destruct (String.eqb_spec k k') as [->|_]; [intros [= ->]; now left | auto].
Qed.

Lemma In_dict_get {V} k (v : V) (d : dict V) :
  List.NoDup (map fst d) -> In (k, v) d -> dict_get k d = Some v.
Proof.
  induction d as [|[k' v'] d IH]; cbn [dict_get In map fst]; [tauto|].
  intros Hnd [[= -> ->]|Hin]; [now rewrite String.eqb_refl|].
  apply List.NoDup_cons_iff in Hnd as [Hk' Hnd].
  destruct (String.eqb_spec k k') as [->|_]; [|auto].
  exfalso. apply Hk'. apply in_map_iff. now exists (k', v).
Qed.

Lemma filter_keys_NoDup {V} (p : string * V -> bool) (d : dict V) :
  List.NoDup (map fst d) -> List.NoDup (map fst (List.filter p d)).
Proof.
  induction d as [|kv d IH]; cbn [List.filter map]; [auto|].
  intros Hnd. apply List.NoDup_cons_iff in Hnd as [Hk Hnd].
  destruct (p kv); [|auto]. cbn [map]. apply List.NoDup_cons_iff. split; [|auto].
  intros Hin. apply Hk. apply in_map_iff in Hin as (x & <- & Hx).
  apply filter_In in Hx as [Hx _]. apply in_map_iff. now exists x.
Qed.

Lemma compliant_frameworks_keys (cd : dict entry) :
  compliant_frameworks cd =
  length (map fst (List.filter (fun kv => String.eqb (status (snd kv)) "compliant") cd)).
Proof.
  unfold compliant_frameworks, dict_values. rewrite length_map.
  induction cd as [|kv cd IH]; cbn [map List.filter]; [reflexivity|].
  destruct (String.eqb (status (snd kv)) "compliant"); cbn [length]; now rewrite IH.
Qed.

Lemma score_95_iff self framework cd :
  calculate_compliance_score self framework cd = 95%Z <->
  exists e, dict_get framework cd = Some e /\ status e = "compliant".
Proof.
  unfold calculate_compliance_score. cbv zeta.
  destruct (dict_get framework cd) as [e|].
  - destruct (String.eqb_spec (status e) "compliant") as [Hc|Hc].
    + split; [eauto | reflexivity].
    + split.
      * destruct (String.eqb (status e) "non-compliant"); discriminate.
      * intros (e' & [= <-] & H). contradiction.
  - change (String.eqb "unknown" "compliant") with false.
    change (String.eqb "unknown" "non-compliant") with false.
    split; [discriminate | intros (e & H & _); discriminate].
Qed.

End Reporter.

Section ReporterClaims.
Import Py BFSIComplianceReporter.

(** The score of a framework is decided by the last readable
    report file attributed to it: 95 when that file holds a check mark,
    65 when it does not, and 85 when no readable file is attributed to
    it or the framework is not among the reporter's.  A file is
    attributed to RBI when its lower-cased name contains [rbi], to SEBI
    when it contains [sebi] but not [rbi], to IRDAI when it contains
    [irdai] but neither of the other two. *)
Theorem last_report_decides (self : t) (files : list report_file) :
  let verdicts test :=
    flat_map
      (fun file =>
         match content file with
         | Some text =>
             if (test (lower (file_name file)) : bool)
             then [if existsb (N.eqb check_mark) text then 95%Z else 65%Z]
             else []
         | None => []
         end) files in
  let decided key test :=
    if dict_mem key (frameworks self) then List.last (verdicts test) 85%Z else 85%Z in
  calculate_compliance_score self "RBI" (load_compliance_reports self files) =
    decided "RBI" (fun name => contains "rbi" name) /\
  calculate_compliance_score self "SEBI" (load_compliance_reports self files) =
    decided "SEBI" (fun name => negb (contains "rbi" name) && contains "sebi" name) /\
  calculate_compliance_score self "IRDAI" (load_compliance_reports self files) =
    decided "IRDAI"
      (fun name => negb (contains "rbi" name) && negb (contains "sebi" name)
                   && contains "irdai" name).
Proof.
  cbv zeta. unfold load_compliance_reports. cbv zeta.
  rewrite !dict_mem_in_list.
  repeat split.
  - rewrite (load_reports_score self "RBI" (fun name => contains "rbi" name)).
    + rewrite initial_mem, initial_score by reflexivity. reflexivity.
    + intros file st cd'.
      destruct (contains "rbi" (lower (file_name file)));
        [now rewrite set_status_get|].
      destruct (contains "sebi" (lower (file_name file)));
        [now rewrite set_status_get|].
      destruct (contains "irdai" (lower (file_name file)));
        [now rewrite set_status_get | reflexivity].
  - rewrite (load_reports_score self "SEBI"
               (fun name => negb (contains "rbi" name) && contains "sebi" name)).
    + rewrite initial_mem, initial_score by reflexivity. reflexivity.
    + intros file st cd'.
      destruct (contains "rbi" (lower (file_name file)));
        [now rewrite set_status_get|].
      destruct (contains "sebi" (lower (file_name file)));
        [now rewrite set_status_get|].
      destruct (contains "irdai" (lower (file_name file)));
        [now rewrite set_status_get | reflexivity].
  - rewrite (load_reports_score self "IRDAI"
               (fun name => negb (contains "rbi" name) && negb (contains "sebi" name)
                            && contains "irdai" name)).
    + rewrite initial_mem, initial_score by reflexivity. reflexivity.
    + intros file st cd'.
      destruct (contains "rbi" (lower (file_name file)));
        [now rewrite set_status_get|].
      destruct (contains "sebi" (lower (file_name file)));
        [now rewrite set_status_get|].
      destruct (contains "irdai" (lower (file_name file)));
        [now rewrite set_status_get | reflexivity].
Qed.

(** No report file changes the assessment of a framework other
    than RBI, SEBI and IRDAI: ISO27001, like any other such key, scores
    the base 85 whatever files the input directory holds. *)
Theorem other_frameworks_score_base (self : t) (files : list report_file)
    (framework : string) :
  in_list framework ["RBI"; "SEBI"; "IRDAI"] = false ->
  calculate_compliance_score self framework (load_compliance_reports self files) = 85%Z.
Proof.
  intros Hfw. unfold in_list in Hfw. cbn [existsb] in Hfw.
  rewrite orb_false_r in Hfw.
  apply orb_false_iff in Hfw as [Hrbi Hfw]. apply orb_false_iff in Hfw as [Hsebi Hirdai].
  unfold load_compliance_reports. cbv zeta.
  rewrite (load_reports_score self framework (fun _ => false)).
  - rewrite initial_score by reflexivity.
    assert (Hnil : forall d,
               List.last
                 (flat_map
                    (fun file : report_file =>
                       match content file with
                       | Some text =>
                           if false
                           then [if existsb (N.eqb check_mark) text then 95%Z else 65%Z]
                           else []
                       | None => []
                       end) files) d = d).
    { intros d. induction files as [|file files IH]; [reflexivity|].
      cbn [flat_map]. now destruct (content file). }
    rewrite Hnil. now destruct (dict_mem _ _).
  - intros file st cd'.
    destruct (contains "rbi" (lower (file_name file)));
      [now rewrite set_status_get, Hrbi|].
    destruct (contains "sebi" (lower (file_name file)));
      [now rewrite set_status_get, Hsebi|].
    destruct (contains "irdai" (lower (file_name file)));
      [now rewrite set_status_get, Hirdai | reflexivity].
Qed.

Lemma other_frameworks_score_base_witness :
  calculate_compliance_score __init__ "ISO27001"
    (load_compliance_reports __init__
       [ReportFile "iso27001-compliance.md" (Some [9989%N]);
        ReportFile "rbi-compliance.md" None]) = 85%Z.
Proof. apply (other_frameworks_score_base __init__ _ "ISO27001"). reflexivity. Defined.

(** Loading the compliance reports only ever writes the status
    field: it neither adds nor removes a framework, every entry keeps
    score 0 and empty check and recommendation lists, and its status is
    one of [unknown], [compliant] and [non-compliant]. *)
Theorem loaded_entries_shape (self : t) (files : list report_file)
    (framework : string) :
  dict_mem framework (load_compliance_reports self files) =
    dict_mem framework (frameworks self) /\
  forall e,
    dict_get framework (load_compliance_reports self files) = Some e ->
    score e = 0%Z /\ checks e = [] /\ recommendations e = [] /\
    (status e = "unknown" \/ status e = "compliant" \/ status e = "non-compliant").
Proof.
  unfold load_compliance_reports. cbv zeta.
  set (v := {| status := "unknown"; score := 0; checks := [];
               recommendations := [] |}).
  assert (Hinv : forall cd,
             (forall e, dict_get framework cd = Some e ->
                        score e = 0%Z /\ checks e = [] /\ recommendations e = [] /\
                        (status e = "unknown" \/ status e = "compliant" \/
                         status e = "non-compliant")) ->
             dict_mem framework (fold_left load_report files cd) =
               dict_mem framework cd /\
             forall e, dict_get framework (fold_left load_report files cd) = Some e ->
                       score e = 0%Z /\ checks e = [] /\ recommendations e = [] /\
                       (status e = "unknown" \/ status e = "compliant" \/
                        status e = "non-compliant")).
  { induction files as [|file files IH]; intros cd Hcd; [now split|].
    cbn [fold_left].
    destruct (load_report_get framework cd file)
      as [Hsame|(st & e0 & Hst & Hcd0 & Hnew)].
    - destruct (IH (load_report cd file)) as [Hm He].
      + intros e. rewrite Hsame. apply Hcd.
      + split; [|exact He]. rewrite Hm. unfold dict_mem. now rewrite Hsame.
    - destruct (IH (load_report cd file)) as [Hm He].
      + intros e. rewrite Hnew. intros [= <-]. cbn.
        destruct (Hcd _ Hcd0) as (H1 & H2 & H3 & _). tauto.
      + split; [|exact He]. rewrite Hm. unfold dict_mem. now rewrite Hnew, Hcd0. }
  destruct (Hinv (fold_left (fun d fw => dict_set fw v d) (map fst (frameworks self)) []))
    as [Hm He].
  - intros e. rewrite initial_compliance_data.
    destruct (in_list framework (map fst (frameworks self))); [|discriminate].
    intros [= <-]. cbn. tauto.
  - split; [|exact He]. now rewrite Hm, initial_mem, dict_mem_in_list.
Qed.

(** The clamps of the score are never reached: whatever the
    compliance data, the score of a framework is 65, 85 or 95, and it
    is 85 exactly when the stored status is neither [compliant] nor
    [non-compliant]. *)
Theorem compliance_score_values (self : t) (framework : string)
    (compliance_data : dict entry) :
  let status_of :=
    match dict_get framework compliance_data with
    | Some framework_data => status framework_data
    | None => "unknown"
    end in
  (calculate_compliance_score self framework compliance_data = 95%Z <->
   status_of = "compliant") /\
  (calculate_compliance_score self framework compliance_data = 65%Z <->
   status_of = "non-compliant") /\
  (calculate_compliance_score self framework compliance_data = 85%Z <->
   status_of <> "compliant" /\ status_of <> "non-compliant").
Proof.
  cbv zeta. unfold calculate_compliance_score. cbv zeta.
  generalize (match dict_get framework compliance_data with
              | Some framework_data => status framework_data
              | None => "unknown"
              end).
  intros st.
  destruct (String.eqb_spec st "compliant") as [->|Hc].
  - change (Z.min 100 (85 + 10)) with 95%Z.
    repeat split; try discriminate; try tauto; intros [H1 H2]; congruence.
  - destruct (String.eqb_spec st "non-compliant") as [->|Hn].
    + change (Z.max 0 (85 - 20)) with 65%Z.
      repeat split; try discriminate; try tauto; intros [H1 H2]; congruence.
    + repeat split; try discriminate; try tauto; congruence.
Qed.

(** Only RBI, SEBI and IRDAI can be counted as compliant, so the count
    of compliant frameworks is at most 3, and the executive summary
    reports low risk exactly when there are fewer than 10 security
    findings and each of the three scores 95; a report restricted to
    fewer than these three frameworks never says low risk. *)
Theorem low_risk_needs_all_three (self : t) (files : list report_file)
    (sarif_reports : list sarif_report) :
  let compliance_data := load_compliance_reports self files in
  compliant_frameworks compliance_data <= 3 /\
  (risk_assessment sarif_reports compliance_data = LOW_RISK <->
   total_vulnerabilities sarif_reports < 10 /\
   calculate_compliance_score self "RBI" compliance_data = 95%Z /\
   calculate_compliance_score self "SEBI" compliance_data = 95%Z /\
   calculate_compliance_score self "IRDAI" compliance_data = 95%Z) /\
  (risk_assessment sarif_reports compliance_data = LOW_RISK ->
   dict_mem "RBI" (frameworks self) = true /\
   dict_mem "SEBI" (frameworks self) = true /\
   dict_mem "IRDAI" (frameworks self) = true).
Proof.
  cbv zeta.
  remember (load_compliance_reports self files) as cd eqn:Hcd.
  set (K := map fst (List.filter
                       (fun kv : string * entry =>
                          String.eqb (status (snd kv)) "compliant") cd)).
  assert (Hnd : List.NoDup (map fst cd)).
  { subst cd. apply load_compliance_reports_NoDup. }
  assert (HK : forall k, In k K <->
                         exists e, dict_get k cd = Some e /\ status e = "compliant").
  { intros k. unfold K. rewrite in_map_iff. split.
    - intros ([k' e] & Hk & Hin). cbn in Hk. subst k'.
      apply filter_In in Hin as [Hin Hst]. cbn in Hst. apply String.eqb_eq in Hst.
      exists e. split; [now apply In_dict_get | exact Hst].
    - intros (e & Hget & Hst). exists (k, e). split; [reflexivity|].
      apply filter_In. split; [now apply dict_get_In|].
      cbn. now apply String.eqb_eq. }
  assert (HKnd : List.NoDup K) by (apply filter_keys_NoDup, Hnd).
  assert (Hincl : incl K ["RBI"; "SEBI"; "IRDAI"]).
  { intros k Hk. apply HK in Hk as (e & Hget & Hst).
    destruct (in_list k ["RBI"; "SEBI"; "IRDAI"]) eqn:Hin;
      [now apply in_list_true in Hin|].
    exfalso. subst cd. unfold load_compliance_reports in Hget. cbv zeta in Hget.
    rewrite (load_reports_other k files Hin), initial_compliance_data in Hget.
    destruct (in_list k (map fst (frameworks self))); [|discriminate].
    injection Hget as <-. discriminate. }
  assert (Hlen : compliant_frameworks cd = length K)
    by apply compliant_frameworks_keys.
  assert (Hle : compliant_frameworks cd <= 3).
  { rewrite Hlen. apply (List.NoDup_incl_length HKnd Hincl). }
  assert (Hthree : 3 <= compliant_frameworks cd <->
                   calculate_compliance_score self "RBI" cd = 95%Z /\
                   calculate_compliance_score self "SEBI" cd = 95%Z /\
                   calculate_compliance_score self "IRDAI" cd = 95%Z).
  { rewrite !score_95_iff, <- !HK, Hlen. split.
    - intros H3.
      assert (Hback : incl ["RBI"; "SEBI"; "IRDAI"] K).
      { apply List.NoDup_length_incl; [exact HKnd | exact H3 | exact Hincl]. }
      repeat split; apply Hback; cbn; auto.
    - intros (H1 & H2 & H3).
      apply (List.NoDup_incl_length (l := ["RBI"; "SEBI"; "IRDAI"])).
      + repeat constructor; cbn; intuition discriminate.
      + intros k [<-|[<-|[<-|[]]]]; assumption. }
  assert (Hlow : risk_assessment sarif_reports cd = LOW_RISK <->
                 total_vulnerabilities sarif_reports < 10 /\
                 3 <= compliant_frameworks cd).
  { unfold risk_assessment.
    destruct (Nat.ltb_spec (total_vulnerabilities sarif_reports) 10) as [Ht|Ht];
      destruct (Nat.leb_spec 3 (compliant_frameworks cd)) as [Hc|Hc]; cbn [andb].
    - split; [auto | reflexivity].
    - split; [|lia]. destruct (Nat.ltb _ 50); discriminate.
    - split; [|lia]. destruct (Nat.ltb _ 50); discriminate.
    - split; [|lia]. destruct (Nat.ltb _ 50); discriminate. }
  split; [exact Hle|]. split.
  - rewrite Hlow, Hthree. reflexivity.
  - intros Hrisk. apply Hlow in Hrisk as [_ H3]. apply Hthree in H3.
    assert (Hmem : forall k, calculate_compliance_score self k cd = 95%Z ->
                             dict_mem k (frameworks self) = true).
    { intros k Hk. apply score_95_iff in Hk as (e & Hget & _).
      subst cd. unfold load_compliance_reports in Hget. cbv zeta in Hget.
      rewrite dict_mem_in_list, <- (initial_mem
        {| status := "unknown"; score := 0; checks := []; recommendations := [] |}).
      apply dict_mem_keys. rewrite <- (load_reports_keys files).
      apply in_map_iff. exists (k, e). split; [reflexivity | now apply dict_get_In]. }
    destruct H3 as (H1 & H2 & H3). auto.
Qed.

End ReporterClaims.
